(** * dqchecks.panacea: spreadsheet comparison checks

    A shallow embedding of [src/dqchecks/panacea.py] and the properties its
    specification states about it.

    Python values are modelled as follows.
    - [int] is [Z]; [str] is [string]; [str(n)] for an int is stdpp's [pretty].
    - a [dict] with string keys is an association list in insertion order
      ([pydict]); a [set] of strings is a [gset string], whose [elements]
      come in an order the program cannot rely on, as for a Python set.
    - an openpyxl [Worksheet] is its title, its nominal extents [max_row] and
      [max_column], and its cell accessor; a [Workbook] is its list of sheets,
      each a worksheet, a read-only worksheet or a chart sheet.
    - a raised exception is the left injection of a sum, also for the
      ValueError of openpyxl's [get_column_letter]; [uuid.uuid4()] draws the
      next token from a counter that is threaded through the event
      builders. *)

From Stdlib Require Import ZArith List String Ascii Lia.
From stdpp Require Import base decidable option numbers list sets gmap strings pretty.

Local Open Scope string_scope.
Local Open Scope list_scope.
Local Open Scope Z_scope.

(** ** Exceptions *)

Inductive exn :=
| ValueError (msg : string)
| TypeError (msg : string)
| AttributeError (msg : string)
| KeyError (msg : string).

(** Code that may raise: [x ← m; k] runs [k] on the value of [m] unless [m]
    raised. *)
#[global] Instance exn_ret : MRet (sum exn) := fun A a => inr a.

#[global] Instance exn_bind : MBind (sum exn) :=
  fun A B k m =>
    match m with
    | inr a => k a
    | inl e => inl e
    end.

(** A [for] loop that updates a value at each item and stops at a raise. *)
Fixpoint for_fold {A S : Type} (body : S -> A -> exn + S) (s : S)
    (items : list A) : exn + S :=
  match items with
  | [] => inr s
  | x :: rest => s' ← body s x; for_fold body s' rest
  end.

(** ** Cells, worksheets, workbooks *)

(** The value of a cell: [None], a bool, an int or a str. Numbers with a
    fraction and dates, which a cell may hold as well, are outside the model. *)
Inductive scalar :=
| SNone
| SBool (b : bool)
| SInt (n : Z)
| SStr (s : string).

#[global] Instance scalar_eq_dec : EqDecision scalar.
Proof. solve_decision. Defined.

Record Cell := mkCell {
  value : scalar;
  data_type : string
}.

Record Worksheet := mkWorksheet {
  title : string;
  max_row : Z;
  max_column : Z;
  cell : Z -> Z -> Cell
}.

(** A sheet of a workbook. A read-only worksheet, as a workbook opened with
    [read_only=True] holds them, has the data of a worksheet but is no
    instance of [Worksheet]; a chart sheet has a title only. *)
Inductive Sheet :=
| AWorksheet (ws : Worksheet)
| AReadOnlyWorksheet (ws : Worksheet)
| AChartsheet (name : string).

Definition sheet_title (sheet : Sheet) : string :=
  match sheet with
  | AWorksheet ws | AReadOnlyWorksheet ws => title ws
  | AChartsheet name => name
  end.

(** [isinstance(sheet, Chartsheet)] *)
Definition is_chartsheet (sheet : Sheet) : bool :=
  match sheet with AChartsheet _ => true | _ => false end.

(** A workbook: its sheets of every kind, in order ([wb._sheets]). *)
Record Workbook := mkWorkbook {
  sheets : list Sheet
}.

(** [wb.sheetnames] *)
Definition sheetnames (wb : Workbook) : list string :=
  sheet_title <$> sheets wb.

(** [wb.worksheets]: the worksheets, read-only ones included. *)
Definition worksheets (wb : Workbook) : list Sheet :=
  filter (fun sheet => is_chartsheet sheet = false) (sheets wb).

(** [wb.chartsheets] *)
Definition chartsheets (wb : Workbook) : list Sheet :=
  filter (fun sheet => is_chartsheet sheet = true) (sheets wb).

(** ** Python objects

    The arguments the functions receive at run time. A dict has string keys
    and keeps insertion order; the four context classes are the module's
    namedtuples. *)

Definition pydict (V : Type) : Type := list (string * V).

#[warnings="-register-all"]
Inductive pyobj :=
| PNone
| PBool (b : bool)
| PInt (n : Z)
| PStr (s : string)
| PList (items : list pyobj)
| PTuple (items : list pyobj)
| PDict (entries : pydict pyobj)
| PMissingSheetContext (rule_cd error_category error_severity_cd : pyobj)
| PFormulaErrorSheetContext
    (rule_cd sheet_cd error_category error_severity_cd : pyobj)
| PStructureDiscrepancyContext
    (rule_cd sheet_cd error_category error_severity_cd : pyobj)
| PFormulaDifferencesContext
    (rule_cd sheet_cd error_category error_severity_cd : pyobj)
| PWorkbook (wb : Workbook)
| PWorksheet (ws : Worksheet)
| PReadOnlyWorksheet (ws : Worksheet)
| PChartsheet (name : string).

(** A sheet of a workbook as the object [wb[name]] returns. *)
Definition sheet_object (sheet : Sheet) : pyobj :=
  match sheet with
  | AWorksheet ws => PWorksheet ws
  | AReadOnlyWorksheet ws => PReadOnlyWorksheet ws
  | AChartsheet name => PChartsheet name
  end.

(** ** Python built-ins used by the module *)

(** [d.get(k)] *)
Fixpoint dict_get {V : Type} (k : string) (d : pydict V) : option V :=
  match d with
  | [] => None
  | (k', v) :: rest => if decide (k = k') then Some v else dict_get k rest
  end.

(** [d.setdefault(k, []).extend(vs)]; with [vs = [v]] it is also
    [if k not in d: d[k] = []] followed by [d[k].append(v)]. *)
Fixpoint dict_extend {V : Type} (k : string) (vs : list V)
    (d : pydict (list V)) : pydict (list V) :=
  match d with
  | [] => [(k, vs)]
  | (k', l) :: rest =>
      if decide (k = k') then (k', l ++ vs) :: rest
      else (k', l) :: dict_extend k vs rest
  end.

Definition dict_append {V : Type} (k : string) (v : V)
    (d : pydict (list V)) : pydict (list V) :=
  dict_extend k [v] d.

(** [bool(d)] for a dict or a list *)
Definition nonempty {A : Type} (l : list A) : bool :=
  match l with [] => false | _ => true end.

(** [s.startswith(prefix)] *)
Definition startswith (s prefix : string) : bool := String.prefix prefix s.

(** [sep.join(parts)] *)
Fixpoint join (sep : string) (parts : list string) : string :=
  match parts with
  | [] => ""
  | [p] => p
  | p :: rest => p +:+ sep +:+ join sep rest
  end.

(** [str(n)] for an int *)
Definition str_int (n : Z) : string := pretty n.

(** [str(v)], as an f-string renders a cell value *)
Definition str_scalar (v : scalar) : string :=
  match v with
  | SNone => "None"
  | SBool true => "True"
  | SBool false => "False"
  | SInt n => str_int n
  | SStr s => s
  end.

(** [v1 == v2] on cell values; a bool compares as the int 0 or 1. *)
Definition scalar_eq (v1 v2 : scalar) : bool :=
  match v1, v2 with
  | SNone, SNone => true
  | SBool a, SBool b => bool_decide (a = b)
  | SInt a, SInt b => bool_decide (a = b)
  | SBool a, SInt b | SInt b, SBool a => bool_decide (Z.b2z a = b)
  | SStr a, SStr b => bool_decide (a = b)
  | _, _ => false
  end.

(** [l1 == l2] on lists of cell values *)
Fixpoint list_eq (l1 l2 : list scalar) : bool :=
  match l1, l2 with
  | [], [] => true
  | a :: l1', b :: l2' => scalar_eq a b && list_eq l1' l2'
  | _, _ => false
  end.

(** [enumerate(l)], counting from [i] *)
Fixpoint enumerate_from {A : Type} (i : Z) (l : list A) : list (Z * A) :=
  match l with
  | [] => []
  | x :: rest => (i, x) :: enumerate_from (i + 1) rest
  end.

(** openpyxl's [get_column_letter]: the bijective base-26 name of a column
    index, A for 1, Z for 26, AA for 27, up to ZZZ for 18278; the library
    raises ValueError for an index outside 1..18278. [column_letters] is the
    loop that builds the name, [column_name] its result. *)
Fixpoint column_letters (fuel : nat) (col_idx : Z) (letters : list ascii)
    : list ascii :=
  match fuel with
  | O => letters
  | S fuel' =>
      if bool_decide (0 < col_idx) then
        let quotient := col_idx `div` 26 in
        let remainder := col_idx `mod` 26 in
        if bool_decide (remainder = 0) then
          column_letters fuel' (quotient - 1)
            (ascii_of_nat (Z.to_nat (26 + 64)) :: letters)
        else
          column_letters fuel' quotient
            (ascii_of_nat (Z.to_nat (remainder + 64)) :: letters)
      else letters
  end.

Definition column_name (col_idx : Z) : string :=
  string_of_list_ascii (column_letters (Z.to_nat col_idx) col_idx []).

Definition get_column_letter (col_idx : Z) : exn + string :=
  if bool_decide (1 <= col_idx <= 18278) then inr (column_name col_idx)
  else inl (ValueError ("Invalid column index " +:+ str_int col_idx)).

(** [f"{get_column_letter(col)}{row}"] *)
Definition cell_name (col row : Z) : exn + string :=
  letters ← get_column_letter col;
  mret (letters +:+ str_int row).

(** [range(start, stop)] *)
Definition range (start stop : Z) : list Z := seqZ start (stop - start).

(** [range(start, stop, -1)] *)
Definition range_down (start stop : Z) : list Z :=
  (fun i => start - i) <$> seqZ 0 (start - stop).

(** [x is None] on a cell value *)
Definition is_None (v : scalar) : bool :=
  match v with SNone => true | _ => false end.

(** [all(cell is None for cell in values)] *)
Definition all_None (values : list scalar) : bool := forallb is_None values.

(** ** get_used_area *)

Record UsedArea := mkUsedArea {
  empty_rows : Z;
  empty_columns : Z;
  last_used_row : Z;
  last_used_column : Z
}.

Definition row_values (sheet : Worksheet) (row : Z) : list scalar :=
  (fun col => value (cell sheet row col)) <$> range 1 (max_column sheet + 1).

Definition column_values (sheet : Worksheet) (col : Z) : list scalar :=
  (fun row => value (cell sheet row col)) <$> range 1 (max_row sheet + 1).

(** The counting loop: one more for each index whose values are all [None],
    leaving the loop ([break]) at the first index that has a value. *)
Fixpoint count_empty (values_at : Z -> list scalar) (indices : list Z) : Z :=
  match indices with
  | [] => 0
  | i :: rest =>
      if all_None (values_at i) then 1 + count_empty values_at rest else 0
  end.

Definition used_area (sheet : Worksheet) : UsedArea :=
  let max_row := max_row sheet in
  let max_column := max_column sheet in
  let empty_row_count := count_empty (row_values sheet) (range_down max_row 0) in
  let empty_column_count :=
    count_empty (column_values sheet) (range_down max_column 0) in
  {| empty_rows := empty_row_count;
     empty_columns := empty_column_count;
     last_used_row := max_row - empty_row_count;
     last_used_column := max_column - empty_column_count |}.

Definition get_used_area (sheet : pyobj) : exn + UsedArea :=
  match sheet with
  | PWorksheet ws => inr (used_area ws)
  | _ =>
      inl (ValueError
             "The provided input is not a valid openpyxl Worksheet object.")
  end.

(** ** Comparison results *)

(** The dict every comparator returns: its keys are always ["status"],
    ["description"] and ["errors"]. *)
Record ComparisonResult := mkResult {
  status : string;
  description : string;
  errors : pydict (list string)
}.

(** ** validate_tabs_between_spreadsheets *)

Definition validate_tabs_between_spreadsheets (spreadsheet1 spreadsheet2 : pyobj)
    : exn + ComparisonResult :=
  match spreadsheet1, spreadsheet2 with
  | PWorkbook wb1, PWorkbook wb2 =>
      let sheets1 : gset string := list_to_set (sheetnames wb1) in
      let sheets2 : gset string := list_to_set (sheetnames wb2) in
      let missing_in_1 := elements (sheets2 ∖ sheets1) in
      let missing_in_2 := elements (sheets1 ∖ sheets2) in
      if nonempty missing_in_1 || nonempty missing_in_2 then
        let errors := [] in
        let errors :=
          if nonempty missing_in_1
          then errors ++ [("Missing In Spreadsheet 1", missing_in_1)]
          else errors in
        let errors :=
          if nonempty missing_in_2
          then errors ++ [("Missing In Spreadsheet 2", missing_in_2)]
          else errors in
        inr {| status := "Error";
               description := "Spreadsheets have different sheet names.";
               errors := errors |}
      else
        inr {| status := "Ok";
               description := "Both spreadsheets have the same sheet names.";
               errors := [] |}
  | _, _ =>
      inl (ValueError "Both arguments must be valid openpyxl workbook objects.")
  end.

(** ** check_sheet_structure *)

Definition header_values (sheet : Worksheet) (header_row_number cols : Z)
    : list scalar :=
  (fun c => value (cell sheet header_row_number c)) <$> range 1 (cols + 1).

(** [[(i + 1, h1, h2) for i, (h1, h2) in enumerate(zip(header1, header2))
      if h1 != h2]] *)
Definition diff_headers (header1 header2 : list scalar)
    : list (Z * (scalar * scalar)) :=
  filter (fun '(_, (h1, h2)) => scalar_eq h1 h2 = false)
         (enumerate_from 1 (zip header1 header2)).

Definition header_mismatch_message (d : Z * (scalar * scalar)) : string :=
  let '(i, (h1, h2)) := d in
  "Column " +:+ str_int i +:+ ": Template: [" +:+ str_scalar h1 +:+ "] != ["
    +:+ str_scalar h2 +:+ "] :Company".

Definition row_column_count_message (rows1 cols1 rows2 cols2 : Z) : string :=
  "Template file has " +:+ str_int rows1 +:+ " rows and " +:+ str_int cols1
    +:+ " columns, Company file has " +:+ str_int rows2 +:+ " rows and "
    +:+ str_int cols2 +:+ " columns.".

Definition sheet_structure (sheet1 sheet2 : Worksheet) (header_row_number : Z)
    : ComparisonResult :=
  let errors : pydict (list string) := [] in
  let errors :=
    if bool_decide (max_row sheet1 = max_column sheet1)
       && bool_decide (max_column sheet1 = max_row sheet2)
       && bool_decide (max_row sheet2 = max_column sheet2)
       && bool_decide (max_column sheet2 = 1)
    then errors
    else
      let errors :=
        if bool_decide (max_row sheet1 = 1) || bool_decide (max_column sheet1 = 1)
        then dict_append "Empty Sheet" (title sheet1) errors else errors in
      if bool_decide (max_row sheet2 = 1) || bool_decide (max_column sheet2 = 1)
      then dict_append "Empty Sheet" (title sheet2) errors else errors in
  let shape1 := used_area sheet1 in
  let rows1 := last_used_row shape1 in
  let cols1 := last_used_column shape1 in
  let shape2 := used_area sheet2 in
  let rows2 := last_used_row shape2 in
  let cols2 := last_used_column shape2 in
  let errors :=
    if negb (bool_decide (rows1 = rows2) && bool_decide (cols1 = cols2))
    then dict_append "Row/Column Count"
           (row_column_count_message rows1 cols1 rows2 cols2) errors
    else errors in
  let header1 :=
    if bool_decide (header_row_number > 0)
    then header_values sheet1 header_row_number cols1 else [] in
  let header2 :=
    if bool_decide (header_row_number > 0)
    then header_values sheet2 header_row_number cols2 else [] in
  let errors :=
    if negb (list_eq header1 header2) then
      let diff_headers := diff_headers header1 header2 in
      if nonempty diff_headers
      then dict_extend "Header Mismatch"
             (header_mismatch_message <$> diff_headers) errors
      else errors
    else errors in
  if nonempty errors then
    {| status := "Error";
       description :=
         "The following discrepancies were found in the sheet structure:";
       errors := errors |}
  else
    {| status := "Ok";
       description :=
         "Spreadsheets '" +:+ title sheet1 +:+ "' and '" +:+ title sheet2
           +:+ "' have the same structure.";
       errors := [] |}.

Definition check_sheet_structure (sheet1 sheet2 : pyobj) (header_row_number : Z)
    : exn + ComparisonResult :=
  match sheet1, sheet2 with
  | PWorksheet ws1, PWorksheet ws2 =>
      inr (sheet_structure ws1 ws2 header_row_number)
  | _, _ =>
      inl (ValueError "Both inputs must be valid openpyxl worksheet objects.")
  end.

(** ** compare_formulas *)

(** [isinstance(v, str) and v.startswith('=')] *)
Definition is_formula (v : scalar) : bool :=
  match v with
  | SStr s => startswith s "="
  | _ => false
  end.

Definition formula_difference_message (sheet1 sheet2 : Worksheet) (row col : Z)
    (cell_name : string) : string :=
  title sheet1 +:+ "!" +:+ cell_name +:+ " ("
    +:+ str_scalar (value (cell sheet1 row col)) +:+ ") != "
    +:+ title sheet2 +:+ "!" +:+ cell_name +:+ " ("
    +:+ str_scalar (value (cell sheet2 row col)) +:+ ")".

(** The body of the two nested loops at one cell position. *)
Definition compare_cell (sheet1 sheet2 : Worksheet) (row col : Z)
    (differing_cells : pydict (list string)) : exn + pydict (list string) :=
  let cell1 := cell sheet1 row col in
  let cell2 := cell sheet2 row col in
  if is_formula (value cell1) && is_formula (value cell2) then
    if negb (scalar_eq (value cell1) (value cell2)) then
      cell_name ← cell_name col row;
      mret (dict_append cell_name
              (formula_difference_message sheet1 sheet2 row col cell_name)
              differing_cells)
    else mret differing_cells
  else mret differing_cells.

Definition dimension_message (sheet1 sheet2 : Worksheet) : string :=
  "Sheets have different dimensions: '" +:+ title sheet1 +:+ "' has "
    +:+ str_int (max_row sheet1) +:+ " rows & " +:+ str_int (max_column sheet1)
    +:+ " columns, '" +:+ title sheet2 +:+ "' has "
    +:+ str_int (max_row sheet2) +:+ " rows & " +:+ str_int (max_column sheet2)
    +:+ " columns.".

(** The two return statements after the loops. *)
Definition formulas_result (differing_cells : pydict (list string))
    : ComparisonResult :=
  if nonempty differing_cells then
    {| status := "Error";
       description := "Found formula differences";
       errors := differing_cells |}
  else
    {| status := "Ok";
       description := "All formulas are equivalent";
       errors := [] |}.

Definition formulas_compared (sheet1 sheet2 : Worksheet)
    : exn + ComparisonResult :=
  let rows1 := max_row sheet1 in
  let cols1 := max_column sheet1 in
  let rows2 := max_row sheet2 in
  let cols2 := max_column sheet2 in
  if negb (bool_decide (rows1 = rows2) && bool_decide (cols1 = cols2)) then
    mret {| status := "Error";
            description := dimension_message sheet1 sheet2;
            errors := [] |}
  else
    differing_cells ←
      for_fold (fun cells row =>
                  for_fold
                    (fun cells col => compare_cell sheet1 sheet2 row col cells)
                    cells (range 1 (cols1 + 1)))
               [] (range 1 (rows1 + 1));
    mret (formulas_result differing_cells).

Definition compare_formulas (sheet1 sheet2 : pyobj) : exn + ComparisonResult :=
  match sheet1, sheet2 with
  | PWorksheet ws1, PWorksheet ws2 => formulas_compared ws1 ws2
  | _, _ =>
      inl (ValueError "Both inputs must be valid openpyxl worksheet objects.")
  end.

(** ** check_formula_errors *)

(** The body of the scan at one cell; [sheet.iter_rows()] yields the cells of
    rows 1..max_row, each over columns 1..max_column. *)
Definition scan_cell (sheet : Worksheet) (row col : Z)
    (error_details : pydict (list string)) : exn + pydict (list string) :=
  let c := cell sheet row col in
  if bool_decide (data_type c = "e") then
    match value c with
    | SStr text =>
        cell_name ← cell_name col row;
        mret (dict_append text cell_name error_details)
    | _ => mret error_details
    end
  else mret error_details.

(** The two return statements after the scan. *)
Definition scan_result (error_details : pydict (list string))
    : ComparisonResult :=
  if negb (nonempty error_details) then
    {| status := "Ok"; description := "No errors found"; errors := [] |}
  else
    {| status := "Error"; description := "Found errors";
       errors := error_details |}.

Definition formula_errors (sheet : Worksheet) : exn + ComparisonResult :=
  error_details ←
    for_fold (fun details row =>
                for_fold (fun details col => scan_cell sheet row col details)
                         details (range 1 (max_column sheet + 1)))
             [] (range 1 (max_row sheet + 1));
  mret (scan_result error_details).

Definition check_formula_errors (sheet : pyobj) : exn + ComparisonResult :=
  match sheet with
  | PWorksheet ws => formula_errors ws
  | _ => inl (ValueError "Input must be valid openpyxl worksheet object.")
  end.

(** ** Validation events

    A row of the data frames the module builds. [Event_Id] is the token
    [uuid.uuid4().hex] returned: the builders run in a monad that threads the
    number of tokens drawn so far and may raise. *)

Record Event := mkEvent {
  Event_Id : nat;
  Sheet_Cd : pyobj;
  Cell_Reference : option pyobj;
  Rule_Cd : pyobj;
  Error_Category : pyobj;
  Error_Severity_Cd : pyobj;
  Error_Desc : pyobj
}.

(** [pd.DataFrame(rows)]: the rows, in order. *)
Definition DataFrame : Type := list Event.

Definition M (A : Type) : Type := nat -> (exn + A) * nat.

Definition ret {A : Type} (a : A) : M A := fun drawn => (inr a, drawn).

Definition raise {A : Type} (e : exn) : M A := fun drawn => (inl e, drawn).

Definition bind {A B : Type} (m : M A) (k : A -> M B) : M B :=
  fun drawn =>
    match m drawn with
    | (inr a, drawn') => k a drawn'
    | (inl e, drawn') => (inl e, drawn')
    end.

Definition lift {A : Type} (r : exn + A) : M A := fun drawn => (r, drawn).

Definition uuid4 : M nat := fun drawn => (inr drawn, S drawn).

#[global] Instance M_ret : MRet M := @ret.
#[global] Instance M_bind : MBind M := fun A B k m => bind m k.

(** A [for] loop that appends one result per item and stops at a raise. *)
Fixpoint for_each {A B : Type} (body : A -> M B) (items : list A) : M (list B) :=
  match items with
  | [] => ret []
  | x :: rest =>
      b ← body x;
      bs ← for_each body rest;
      ret (b :: bs)
  end.

(** [pd.concat(frames, ignore_index=True)]: pandas raises on an empty list. *)
Definition pd_concat (frames : list DataFrame) : exn + DataFrame :=
  match frames with
  | [] => inl (ValueError "No objects to concatenate")
  | _ => inr (concat frames)
  end.

(** [isinstance(o, str)] *)
Definition is_str (o : pyobj) : bool :=
  match o with PStr _ => true | _ => false end.

(** [o is None] *)
Definition is_none (o : pyobj) : bool :=
  match o with PNone => true | _ => false end.

(** [bool(o)] *)
Definition truthy (o : pyobj) : bool :=
  match o with
  | PNone => false
  | PBool b => b
  | PInt n => negb (bool_decide (n = 0))
  | PStr s => negb (bool_decide (s = ""))
  | PList items | PTuple items => nonempty items
  | PDict entries => nonempty entries
  | _ => true
  end.

(** The items of [o] when [isinstance(o, (list, tuple))]; a namedtuple is a
    tuple of its fields. *)
Definition as_sequence (o : pyobj) : option (list pyobj) :=
  match o with
  | PList items | PTuple items => Some items
  | PMissingSheetContext a b c => Some [a; b; c]
  | PFormulaErrorSheetContext a b c d
  | PStructureDiscrepancyContext a b c d
  | PFormulaDifferencesContext a b c d => Some [a; b; c; d]
  | _ => None
  end.

(** The strings of [items] when every item is a str. *)
Fixpoint as_strs (items : list pyobj) : option (list string) :=
  match items with
  | [] => Some []
  | PStr s :: rest => cons s <$> as_strs rest
  | _ => None
  end.

Definition chars (s : string) : list string :=
  (fun c => String c "") <$> list_ascii_of_string s.

(** [sep.join(o)]: [o] is iterated, and every item has to be a str. A str
    yields its characters, a dict its keys, a workbook its worksheets and a
    worksheet its rows 1..max_row; a chart sheet cannot be iterated. A
    worksheet is taken to hold a cell: openpyxl yields no row for a sheet in
    which no cell was ever created, although its [max_row] is 1. *)
Definition py_join (sep : string) (o : pyobj) : exn + string :=
  match o with
  | PStr s => inr (join sep (chars s))
  | PDict entries => inr (join sep (fst <$> entries))
  | PWorkbook wb =>
      if nonempty (worksheets wb)
      then inl (TypeError "sequence item 0: expected str instance")
      else inr ""
  | PWorksheet ws | PReadOnlyWorksheet ws =>
      if nonempty (range 1 (max_row ws + 1))
      then inl (TypeError "sequence item 0: expected str instance")
      else inr ""
  | _ =>
      match as_sequence o with
      | Some items =>
          match as_strs items with
          | Some strs => inr (join sep strs)
          | None => inl (TypeError "sequence item: expected str instance")
          end
      | None => inl (TypeError "can only join an iterable")
      end
  end.

(** [wb[name]]: the first sheet of that title among the worksheets, then
    among the chart sheets. *)
Definition getitem (wb : Workbook) (name : string) : exn + pyobj :=
  match find (fun sheet => bool_decide (sheet_title sheet = name))
             (worksheets wb ++ chartsheets wb) with
  | Some sheet => inr (sheet_object sheet)
  | None => inl (KeyError ("Worksheet " +:+ name +:+ " does not exist."))
  end.

(** ** Missing-sheet events *)

Definition create_missing_sheet_row (sheet context : pyobj) : M Event :=
  if negb (is_str sheet) || negb (truthy sheet) then
    raise (ValueError "The 'sheet' argument must be a non-empty string.")
  else
    match context with
    | PMissingSheetContext rule_cd error_category error_severity_cd =>
        if negb (truthy rule_cd) || negb (is_str rule_cd) then
          raise (ValueError
            "Invalid 'Rule_Cd' in context: it must be a non-empty string.")
        else if negb (truthy error_category) || negb (is_str error_category) then
          raise (ValueError
            "Invalid 'Error_Category' in context: it must be a non-empty string.")
        else if negb (truthy error_severity_cd)
                || negb (is_str error_severity_cd) then
          raise (ValueError
            "Invalid 'Error_Severity_Cd' in context: it must be a non-empty string.")
        else
          eventid ← uuid4;
          ret {| Event_Id := eventid;
                 Sheet_Cd := sheet;
                 Cell_Reference := None;
                 Rule_Cd := rule_cd;
                 Error_Category := error_category;
                 Error_Severity_Cd := error_severity_cd;
                 Error_Desc := PStr "Missing Sheet" |}
    | _ =>
        raise (ValueError
          "The 'context' argument must be of type MissingSheetContext.")
    end.

(** [str(o)] for None, a bool, an int and a str. The text of any other
    object depends on [repr] or on the address of the object; the model
    renders it as ["<object>"]. *)
Definition str_object (o : pyobj) : string :=
  match o with
  | PNone => "None"
  | PBool true => "True"
  | PBool false => "False"
  | PInt n => str_int n
  | PStr s => s
  | _ => "<object>"
  end.

Definition create_dataframe_missing_sheets (input_data context : pyobj)
    : M DataFrame :=
  match input_data with
  | PDict entries =>
      match context with
      | PMissingSheetContext _ _ _ =>
          match default (PDict []) (dict_get "errors" entries) with
          | PDict errors =>
              let missing_sheets :=
                default (PList []) (dict_get "Missing In Spreadsheet 2" errors) in
              let missing_sheets :=
                match missing_sheets with PList items => items | _ => [] end in
              for_each
                (fun sheet =>
                   if negb (is_str sheet) || negb (truthy sheet) then
                     raise (ValueError
                       ("Invalid sheet name: '" +:+ str_object sheet
                          +:+ "'. Each sheet must be a non-empty string."))
                   else create_missing_sheet_row sheet context)
                missing_sheets
          | _ => raise (AttributeError "object has no attribute 'get'")
          end
      | _ =>
          raise (ValueError
            "The 'context' argument must be of type MissingSheetContext.")
      end
  | _ => raise (ValueError "The 'input_data' argument must be a dictionary.")
  end.

(** [{"status": ..., "description": ..., "errors": {...}}] as an object *)
Definition result_dict (r : ComparisonResult) : pyobj :=
  PDict [("status", PStr (status r));
         ("description", PStr (description r));
         ("errors",
          PDict ((fun '(k, details) => (k, PList (PStr <$> details)))
                   <$> errors r))].

Definition find_missing_sheets (wb_template wb_company : pyobj) : M DataFrame :=
  match wb_template with
  | PWorkbook _ =>
      match wb_company with
      | PWorkbook _ =>
          a ← lift (validate_tabs_between_spreadsheets wb_template wb_company);
          let missing_sheet_context :=
            PMissingSheetContext (PStr "?") (PStr "Missing Sheet") (PStr "soft") in
          create_dataframe_missing_sheets (result_dict a) missing_sheet_context
      | _ =>
          raise (ValueError
            "The 'wb_company' argument must be a valid openpyxl Workbook.")
      end
  | _ =>
      raise (ValueError
        "The 'wb_template' argument must be a valid openpyxl Workbook.")
  end.

(** ** Formula-error events *)

Definition validate_input_data (input_data context : pyobj) : M unit :=
  match input_data with
  | PDict _ =>
      match context with
      | PFormulaErrorSheetContext rule_cd sheet_cd error_category
                                  error_severity_cd =>
          if existsb is_none [rule_cd; sheet_cd; error_category; error_severity_cd]
          then raise (ValueError "The 'context' values cannot be None.")
          else ret tt
      | _ =>
          raise (ValueError
            "The 'context' argument must be of type FormulaErrorSheetContext.")
      end
  | _ => raise (ValueError "The 'input_data' argument must be a dictionary.")
  end.

(** [input_data.get('errors', {})] once [input_data] is known to be a dict *)
Definition get_errors (entries : pydict pyobj) : pyobj :=
  default (PDict []) (dict_get "errors" entries).

Definition extract_error_rows (entries : pydict pyobj)
    : M (list (string * list pyobj)) :=
  match get_errors entries with
  | PDict errors =>
      ret (omap (fun '(error_type, cells) =>
                   match cells with
                   | PList items => Some (error_type, items)
                   | _ => None
                   end) errors)
  | _ =>
      raise (ValueError "The 'errors' field in input_data must be a dictionary.")
  end.

Definition create_row_for_error (sheet_cd : pyobj) (error_type : string)
    (cell_ref : pyobj) (rule_cd error_category error_severity_cd : pyobj)
    : M Event :=
  eventid ← uuid4;
  ret {| Event_Id := eventid;
         Sheet_Cd := sheet_cd;
         Cell_Reference := Some cell_ref;
         Rule_Cd := rule_cd;
         Error_Category := error_category;
         Error_Severity_Cd := error_severity_cd;
         Error_Desc := PStr error_type |}.

Definition create_dataframe_formula_errors (input_data context : pyobj)
    : M DataFrame :=
  _ ← validate_input_data input_data context;
  match input_data, context with
  | PDict entries,
    PFormulaErrorSheetContext rule_cd sheet_cd error_category
                              error_severity_cd =>
      error_rows ← extract_error_rows entries;
      rows ← for_each
               (fun '(error_type, cells) =>
                  for_each
                    (fun cell_ref =>
                       create_row_for_error sheet_cd error_type cell_ref
                         rule_cd error_category error_severity_cd)
                    cells)
               error_rows;
      ret (concat rows)
  | _, _ => raise (ValueError "The 'input_data' argument must be a dictionary.")
  end.

Definition find_formula_errors (wb : pyobj) : M DataFrame :=
  match wb with
  | PWorkbook book =>
      all_formula_error_dfs ←
        for_each
          (fun sheetname =>
             sheet ← lift (getitem book sheetname);
             formula_errors ← lift (check_formula_errors sheet);
             let formula_error_sheet_context :=
               PFormulaErrorSheetContext (PStr "?") (PStr sheetname)
                 (PStr "Formula Error") (PStr "hard") in
             create_dataframe_formula_errors (result_dict formula_errors)
               formula_error_sheet_context)
          (sheetnames book);
      lift (pd_concat all_formula_error_dfs)
  | _ => raise (ValueError "The 'wb' argument must be a valid openpyxl Workbook.")
  end.

(** ** Structure-discrepancy events *)

Definition structure_discrepancy_row
    (rule_cd sheet_cd error_category error_severity_cd : pyobj)
    (entry : string * pyobj) : M Event :=
  let '(errortype, discrepancy) := entry in
  match as_sequence discrepancy with
  | None =>
      raise (ValueError
        ("The discrepancy for '" +:+ errortype +:+ "' must be a list or tuple."))
  | Some items =>
      match as_strs items with
      | None =>
          raise (ValueError
            ("Each item in the discrepancy list for '" +:+ errortype
               +:+ "' must be a string."))
      | Some strs =>
          eventid ← uuid4;
          ret {| Event_Id := eventid;
                 Sheet_Cd := sheet_cd;
                 Cell_Reference := None;
                 Rule_Cd := rule_cd;
                 Error_Category := error_category;
                 Error_Severity_Cd := error_severity_cd;
                 Error_Desc := PStr (join " -- " strs) |}
      end
  end.

Definition create_dataframe_structure_discrepancies (input_data context : pyobj)
    : M DataFrame :=
  match input_data with
  | PDict entries =>
      match context with
      | PStructureDiscrepancyContext rule_cd sheet_cd error_category
                                     error_severity_cd =>
          match dict_get "errors" entries with
          | Some (PDict errors) =>
              if negb (forallb truthy
                         [rule_cd; error_severity_cd; sheet_cd; error_category])
              then
                raise (ValueError
                  "The 'context' contains missing values. Ensure all context attributes are properly set.")
              else
                for_each
                  (structure_discrepancy_row rule_cd sheet_cd error_category
                     error_severity_cd)
                  errors
          | _ =>
              raise (ValueError
                "The 'input_data' must contain an 'errors' field of type dictionary.")
          end
      | _ =>
          raise (TypeError
            "The 'context' must be an instance of StructureDiscrepancyContext.")
      end
  | _ => raise (TypeError "The 'input_data' must be a dictionary.")
  end.

(** [set(a.sheetnames).intersection(set(b.sheetnames))], as the loop visits it *)
Definition common_sheetnames (wb_template wb_company : Workbook) : list string :=
  elements ((list_to_set (sheetnames wb_template) : gset string)
              ∩ list_to_set (sheetnames wb_company)).

Definition find_shape_differences (wb_template wb_company : pyobj)
    : M DataFrame :=
  match wb_template, wb_company with
  | PWorkbook template, PWorkbook company =>
      all_shape_error_dfs ←
        for_each
          (fun sheetname =>
             let context :=
               PStructureDiscrepancyContext (PStr "?") (PStr sheetname)
                 (PStr "Structure Discrepancy") (PStr "hard") in
             let header_row_number :=
               if startswith sheetname "fOut_" then 2 else 0 in
             sheet1 ← lift (getitem template sheetname);
             sheet2 ← lift (getitem company sheetname);
             discrepancies ←
               lift (check_sheet_structure sheet1 sheet2 header_row_number);
             create_dataframe_structure_discrepancies
               (result_dict discrepancies) context)
          (common_sheetnames template company);
      if negb (nonempty all_shape_error_dfs) then ret []
      else lift (pd_concat all_shape_error_dfs)
  | _, _ => raise (TypeError "Both inputs must be instances of openpyxl Workbook.")
  end.

(** ** Formula-difference events *)

Definition formula_difference_row
    (rule_cd sheet_cd error_category error_severity_cd : pyobj)
    (entry : string * pyobj) : M Event :=
  let '(cellreference, discrepancies) := entry in
  eventid ← uuid4;
  error_desc ← lift (py_join " -- " discrepancies);
  ret {| Event_Id := eventid;
         Sheet_Cd := sheet_cd;
         Cell_Reference := Some (PStr cellreference);
         Rule_Cd := rule_cd;
         Error_Category := error_category;
         Error_Severity_Cd := error_severity_cd;
         Error_Desc := PStr error_desc |}.

Definition create_dataframe_formula_differences (input_data context : pyobj)
    : M DataFrame :=
  match input_data with
  | PDict entries =>
      match context with
      | PFormulaDifferencesContext rule_cd sheet_cd error_category
                                   error_severity_cd =>
          if negb (forallb truthy
                     [rule_cd; error_severity_cd; sheet_cd; error_category])
          then
            raise (ValueError
              "The 'context' contains missing values. Ensure all context attributes are properly set.")
          else
            match get_errors entries with
            | PDict errors =>
                for_each
                  (formula_difference_row rule_cd sheet_cd error_category
                     error_severity_cd)
                  errors
            | _ => raise (AttributeError "object has no attribute 'items'")
            end
      | _ =>
          raise (ValueError
            "context must be an instance of FormulaDifferencesContext.")
      end
  | _ => raise (ValueError "input_data must be a dictionary.")
  end.

Definition find_formula_differences (wb_template wb_company : pyobj)
    : M DataFrame :=
  match wb_template, wb_company with
  | PWorkbook template, PWorkbook company =>
      all_formula_difference_dfs ←
        for_each
          (fun sheetcd =>
             let context :=
               PFormulaDifferencesContext (PStr "?") (PStr sheetcd)
                 (PStr "Formula Difference") (PStr "hard") in
             sheet1 ← lift (getitem template sheetcd);
             sheet2 ← lift (getitem company sheetcd);
             a ← lift (compare_formulas sheet1 sheet2);
             create_dataframe_formula_differences (result_dict a) context)
          (common_sheetnames template company);
      lift (pd_concat all_formula_difference_dfs)
  | _, _ => raise (TypeError "Both inputs must be instances of openpyxl Workbook.")
  end.

(** ** Duplicate-description check *)

Module DuplicateDescription.

Record MeasureRecord := mkMeasure {
  Measure_Cd : string;
  Measure_Desc : string;
  Sheet_Cd : string
}.

(** The input table: the names of its columns and its rows. *)
Record Table := mkTable {
  columns : list string;
  records : list MeasureRecord
}.

Record Metadata := mkMetadata {
  Batch_Id : string;
  Submission_Period_Cd : string;
  Process_Cd : string;
  Template_Version : string;
  Organisation_Cd : string
}.

Record ValidationEvent := mkValidationEvent {
  Event_Id : nat;
  Event_Batch_Id : string;
  Event_Submission_Period_Cd : string;
  Event_Process_Cd : string;
  Event_Template_Version : string;
  Event_Organisation_Cd : string;
  Error_Desc : string
}.

Inductive df_arg :=
| DataFrameArg (t : Table)
| NotADataFrame.

Inductive metadata_arg :=
| MetadataDict (m : Metadata)
| NotADict.

Definition required_columns : list string :=
  ["Measure_Cd"; "Measure_Desc"; "Sheet_Cd"].

(** The records of one description, in the order of the table. *)
Definition group (desc : string) (rs : list MeasureRecord)
    : list MeasureRecord :=
  filter (fun r => Measure_Desc r = desc) rs.

(** The descriptions of the table, each once, in first-seen order. *)
Fixpoint descriptions (rs : list MeasureRecord) : list string :=
  match rs with
  | [] => []
  | r :: rest =>
      Measure_Desc r
        :: filter (fun d => d ≠ Measure_Desc r) (descriptions rest)
  end.

Definition distinct_codes (rs : list MeasureRecord) : list string :=
  remove_dups (Measure_Cd <$> rs).

Definition has_several_codes (rs : list MeasureRecord) : bool :=
  bool_decide (1 < length (distinct_codes rs))%nat.

Definition duplicated_descriptions (rs : list MeasureRecord) : list string :=
  filter (fun d => has_several_codes (group d rs) = true) (descriptions rs).

Definition error_desc (rs : list MeasureRecord) : string :=
  join " -- " (concat ((fun r => [Measure_Cd r; Sheet_Cd r]) <$> rs)).

(** Modelled from the spec: [create_same_desc_diff_boncode_validation_event]
    is imported by the tests from [dqchecks.panacea] but its body is not
    part of the sources at hand. Following section 4.7, it groups the
    records by [Measure_Desc] and emits, for each group in which more than
    one distinct [Measure_Cd] occurs, one event whose description lists
    every [(Measure_Cd, Sheet_Cd)] pair of the group joined by [" -- "], the
    other fields coming from the batch metadata; it fails when [df] is not
    a table, when [metadata] is not a mapping, or when a required column is
    absent. *)
Definition create_same_desc_diff_boncode_validation_event
    (df : df_arg) (metadata : metadata_arg) : M (list ValidationEvent) :=
  match df with
  | NotADataFrame => raise (ValueError "Input 'df' must be a pandas DataFrame.")
  | DataFrameArg t =>
      match metadata with
      | NotADict => raise (ValueError "Input 'metadata' must be a dict.")
      | MetadataDict m =>
          if negb (forallb (fun c => bool_decide (c ∈ columns t))
                     required_columns)
          then raise (ValueError "Missing required columns")
          else
            for_each
              (fun desc =>
                 eventid ← uuid4;
                 ret {| Event_Id := eventid;
                        Event_Batch_Id := Batch_Id m;
                        Event_Submission_Period_Cd := Submission_Period_Cd m;
                        Event_Process_Cd := Process_Cd m;
                        Event_Template_Version := Template_Version m;
                        Event_Organisation_Cd := Organisation_Cd m;
                        Error_Desc := error_desc (group desc (records t)) |})
              (duplicated_descriptions (records t))
      end
  end.

End DuplicateDescription.

(** ** Notions used in the statements *)

(** The cell positions [(row, col)] of a sheet of the given extents, in the
    order the nested loops visit them: row by row, each left to right. *)
Definition cell_positions (rows cols : Z) : list (Z * Z) :=
  row ← range 1 (rows + 1); (fun col => (row, col)) <$> range 1 (cols + 1).

(** The cell reference of a position, column letters first: what
    [cell_name] returns for a column that has a name. *)
Definition cell_reference (p : Z * Z) : string :=
  column_name p.2 +:+ str_int p.1.

(** A loop that files values under keys: one round adds the value of an
    item under its key when it has one; [values_under] collects, in order,
    the values of the items that have a given key. *)
Definition loop_step {A V : Type} (key : A -> option string) (val : A -> V)
    (d : pydict (list V)) (a : A) : pydict (list V) :=
  match key a with
  | Some k => dict_append k (val a) d
  | None => d
  end.

Definition values_under {A V : Type} (key : A -> option string) (val : A -> V)
    (k : string) (items : list A) : list V :=
  val <$> filter (fun a => key a = Some k) items.

(** The key under which the scanner files a cell, if it does: the text of a
    cell whose data type is 'e' and whose value is a str. *)
Definition error_text (sheet : Worksheet) (p : Z * Z) : option string :=
  let c := cell sheet p.1 p.2 in
  if bool_decide (data_type c = "e") then
    match value c with
    | SStr text => Some text
    | _ => None
    end
  else None.

(** The key under which the comparator files a position, if it does. *)
Definition difference_key (sheet1 sheet2 : Worksheet) (p : Z * Z)
    : option string :=
  let v1 := value (cell sheet1 p.1 p.2) in
  let v2 := value (cell sheet2 p.1 p.2) in
  if is_formula v1 && is_formula v2 && negb (scalar_eq v1 v2)
  then Some (cell_reference p) else None.

(** The message the comparator files for a position. *)
Definition difference_message (sheet1 sheet2 : Worksheet) (p : Z * Z) : string :=
  formula_difference_message sheet1 sheet2 p.1 p.2 (cell_reference p).

(** What the two loops build when no cell reference is refused: the errors
    of the scanner, and the differing cells of the comparator. *)
Definition scanned (sheet : Worksheet) : pydict (list string) :=
  foldl (loop_step (error_text sheet) cell_reference) []
    (cell_positions (max_row sheet) (max_column sheet)).

Definition differing (sheet1 sheet2 : Worksheet) : pydict (list string) :=
  foldl (loop_step (difference_key sheet1 sheet2)
           (difference_message sheet1 sheet2)) []
    (cell_positions (max_row sheet1) (max_column sheet1)).

(** Both cells hold text that begins with '=', and the two texts differ. *)
Definition formulas_differ (sheet1 sheet2 : Worksheet) (row col : Z) : Prop :=
  exists f1 f2,
    value (cell sheet1 row col) = SStr f1
    /\ value (cell sheet2 row col) = SStr f2
    /\ startswith f1 "=" = true /\ startswith f2 "=" = true
    /\ f1 <> f2.

(** A call that raises without having drawn an event identifier: no event
    was produced. *)
Definition raises_at_once {A : Type} (m : M A) : Prop :=
  forall drawn, exists e, m drawn = (inl e, drawn).

(** [isinstance(o, str) and o]: a non-empty string *)
Definition nonempty_str (o : pyobj) : bool := is_str o && truthy o.

(** *** Reading a cell reference back

    The letters of a column index, its last letter as a number 1..26 and the
    index of the letters before it; used to show that a cell reference names
    one position only. *)

Definition letters_of (col_idx : Z) : list ascii :=
  column_letters (Z.to_nat col_idx) col_idx [].

Definition last_letter (col_idx : Z) : Z :=
  if bool_decide (col_idx `mod` 26 = 0) then 26 else col_idx `mod` 26.

Definition leading_index (col_idx : Z) : Z :=
  if bool_decide (col_idx `mod` 26 = 0) then col_idx `div` 26 - 1
  else col_idx `div` 26.

Definition is_letter (c : ascii) : Prop := (65 <= nat_of_ascii c <= 90)%nat.

(** A string that is empty or starts with a character that is no letter. *)
Definition starts_without_letter (s : string) : Prop :=
  match s with
  | EmptyString => True
  | String c _ => ~ is_letter c
  end.

(** ** Sample sheets, workbooks and tables *)

Definition empty_cell : Cell := {| value := SNone; data_type := "n" |}.

Definition text_cell (s : string) : Cell := {| value := SStr s; data_type := "s" |}.

Definition number_cell (n : Z) : Cell := {| value := SInt n; data_type := "n" |}.

(** A sheet of the given nominal extents in which no cell has a value. *)
Definition blank_sheet (name : string) (rows cols : Z) : Worksheet :=
  {| title := name; max_row := rows; max_column := cols;
     cell := fun _ _ => empty_cell |}.

(** A sheet of the given extents holding the listed cells, the others empty. *)
Definition sheet_of_cells (name : string) (rows cols : Z)
    (cells : list (Z * Z * Cell)) : Worksheet :=
  {| title := name; max_row := rows; max_column := cols;
     cell := fun row col =>
       match find (fun '(r, c, _) => bool_decide (r = row) && bool_decide (c = col))
                  cells with
       | Some (_, _, content) => content
       | None => empty_cell
       end |}.

(** A 1 x 1 sheet whose only cell holds the given formula text. *)
Definition formula_sheet (name formula : string) : Worksheet :=
  sheet_of_cells name 1 1 [(1, 1, {| value := SStr formula; data_type := "f" |})].

(** Two sheets with the header in row 1: the second lacks the last column. *)
Definition three_column_sheet : Worksheet :=
  sheet_of_cells "Data" 2 3
    [(1, 1, text_cell "Year"); (1, 2, text_cell "Value"); (1, 3, text_cell "Unit");
     (2, 1, number_cell 2020); (2, 2, number_cell 5); (2, 3, text_cell "m")].

Definition two_column_sheet : Worksheet :=
  sheet_of_cells "Data" 2 2
    [(1, 1, text_cell "Year"); (1, 2, text_cell "Value");
     (2, 1, number_cell 2020); (2, 2, number_cell 5)].

(** Two workbooks without a common sheet name. *)
Definition workbook_A : Workbook :=
  mkWorkbook [AWorksheet (blank_sheet "A" 1 1)].

Definition workbook_B : Workbook :=
  mkWorkbook [AWorksheet (blank_sheet "B" 1 1)].

(** The table of the module's test: two codes share the description desc1. *)
Definition sample_table : DuplicateDescription.Table :=
  DuplicateDescription.mkTable
    ["Measure_Cd"; "Measure_Desc"; "Sheet_Cd"]
    [DuplicateDescription.mkMeasure "A1" "desc1" "sheet1";
     DuplicateDescription.mkMeasure "A2" "desc1" "sheet2";
     DuplicateDescription.mkMeasure "B1" "desc2" "sheet3"].

Definition sample_metadata : DuplicateDescription.Metadata :=
  DuplicateDescription.mkMetadata "batch1" "202301" "proc1" "v1" "org1".

(** ** Notions used in the further statements *)

(** A sheet the structure comparator reports as empty: its nominal row
    count or its nominal column count is 1. *)
Definition flagged_empty (sheet : Worksheet) : bool :=
  bool_decide (max_row sheet = 1) || bool_decide (max_column sheet = 1).

(** [isinstance(v, str)] on a cell value *)
Definition is_text (v : scalar) : bool :=
  match v with SStr _ => true | _ => false end.

(** The number of details a dict of lists holds over all its keys. *)
Fixpoint total_details {V : Type} (d : pydict (list V)) : nat :=
  match d with
  | [] => 0
  | (_, details) :: rest => length details + total_details rest
  end.

(** The rows a loop builds when each round draws one identifier: the item at
    index [i] gets the identifier [start + i]. *)
Fixpoint numbered {A B : Type} (mk : nat -> A -> B) (start : nat)
    (items : list A) : list B :=
  match items with
  | [] => []
  | x :: rest => mk start x :: numbered mk (S start) rest
  end.

(** A sheet with values in its last row and last column: the values of
    [two_column_sheet] under another title and with other data types. *)
Definition filled_sheet : Worksheet :=
  sheet_of_cells "Copy" 2 2
    [(1, 1, {| value := SStr "Year"; data_type := "inlineStr" |});
     (1, 2, {| value := SStr "Value"; data_type := "inlineStr" |});
     (2, 1, {| value := SInt 2020; data_type := "f" |});
     (2, 2, {| value := SInt 5; data_type := "f" |})].

(** The errors of the structure comparator after its emptiness check, and
    after its shape check; [sheet_structure_errors] relates them to
    [sheet_structure]. *)
Definition emptiness_errors (sheet1 sheet2 : Worksheet) : pydict (list string) :=
  if bool_decide (max_row sheet1 = max_column sheet1)
     && bool_decide (max_column sheet1 = max_row sheet2)
     && bool_decide (max_row sheet2 = max_column sheet2)
     && bool_decide (max_column sheet2 = 1)
  then []
  else
    let errors :=
      if flagged_empty sheet1
      then dict_append "Empty Sheet" (title sheet1) [] else [] in
    if flagged_empty sheet2
    then dict_append "Empty Sheet" (title sheet2) errors else errors.

Definition shape_errors (sheet1 sheet2 : Worksheet) : pydict (list string) :=
  let rows1 := last_used_row (used_area sheet1) in
  let cols1 := last_used_column (used_area sheet1) in
  let rows2 := last_used_row (used_area sheet2) in
  let cols2 := last_used_column (used_area sheet2) in
  if negb (bool_decide (rows1 = rows2) && bool_decide (cols1 = cols2))
  then dict_append "Row/Column Count"
         (row_column_count_message rows1 cols1 rows2 cols2)
         (emptiness_errors sheet1 sheet2)
  else emptiness_errors sheet1 sheet2.

(** The headers the structure comparator compares. *)
Definition header_of (sheet : Worksheet) (header_row_number : Z) : list scalar :=
  if bool_decide (header_row_number > 0)
  then header_values sheet header_row_number
         (last_used_column (used_area sheet))
  else [].

(** The strings of [o] when it is a list or a tuple of strs. *)
Definition details_of (o : pyobj) : option (list string) :=
  items ← as_sequence o; as_strs items.

(** The [(error type, cell)] pairs of an errors dict, in order; an entry
    whose value is not a list has none. *)
Definition error_cells (errors : pydict pyobj) : list (string * pyobj) :=
  entry ← errors;
  match entry.2 with
  | PList items => (fun cell_ref => (entry.1, cell_ref)) <$> items
  | _ => []
  end.

(** The event rows of the four normalizers. *)
Definition missing_sheet_event
    (rule_cd error_category error_severity_cd : pyobj) (id : nat) (name : string)
    : Event :=
  {| Event_Id := id; Sheet_Cd := PStr name; Cell_Reference := None;
     Rule_Cd := rule_cd; Error_Category := error_category;
     Error_Severity_Cd := error_severity_cd;
     Error_Desc := PStr "Missing Sheet" |}.

Definition formula_error_event
    (rule_cd sheet_cd error_category error_severity_cd : pyobj) (id : nat)
    (entry : string * pyobj) : Event :=
  {| Event_Id := id; Sheet_Cd := sheet_cd; Cell_Reference := Some entry.2;
     Rule_Cd := rule_cd; Error_Category := error_category;
     Error_Severity_Cd := error_severity_cd;
     Error_Desc := PStr entry.1 |}.

Definition structure_event
    (rule_cd sheet_cd error_category error_severity_cd : pyobj) (id : nat)
    (entry : string * list string) : Event :=
  {| Event_Id := id; Sheet_Cd := sheet_cd; Cell_Reference := None;
     Rule_Cd := rule_cd; Error_Category := error_category;
     Error_Severity_Cd := error_severity_cd;
     Error_Desc := PStr (join " -- " entry.2) |}.

Definition formula_difference_event
    (rule_cd sheet_cd error_category error_severity_cd : pyobj) (id : nat)
    (entry : string * list string) : Event :=
  {| Event_Id := id; Sheet_Cd := sheet_cd;
     Cell_Reference := Some (PStr entry.1);
     Rule_Cd := rule_cd; Error_Category := error_category;
     Error_Severity_Cd := error_severity_cd;
     Error_Desc := PStr (join " -- " entry.2) |}.

(** An errors dict as the comparators build it: every value a list of strs. *)
Definition errors_dict (errors : pydict (list string)) : pydict pyobj :=
  (fun '(k, details) => (k, PList (PStr <$> details))) <$> errors.

(** A builder that returns [cost] rows that satisfy [P], numbered with the
    next [cost] identifiers. *)
Definition produces (P : Event -> Prop) (cost : nat) (m : M DataFrame) : Prop :=
  forall n, exists rows,
    m n = (inr rows, (n + cost)%nat)
    /\ length rows = cost
    /\ Event_Id <$> rows = seq n cost
    /\ Forall P rows.

(** The fields every event of one orchestrator shares: the sheet name of
    one of the listed sheets, the rule "?", the category and the severity. *)
Definition event_of (names : list string) (category severity : string)
    (e : Event) : Prop :=
  (exists name, name ∈ names /\ Sheet_Cd e = PStr name)
  /\ Rule_Cd e = PStr "?"
  /\ Error_Category e = PStr category
  /\ Error_Severity_Cd e = PStr severity.

(** A workbook of two sheets, one with an error cell, and a copy of it in
    which a formula was changed. *)
Definition template_sheets : list Worksheet :=
  [sheet_of_cells "fOut_A" 2 2
     [(1, 1, text_cell "Year"); (1, 2, text_cell "Value");
      (2, 1, {| value := SStr "=A1+1"; data_type := "f" |});
      (2, 2, {| value := SStr "#DIV/0!"; data_type := "e" |})];
   blank_sheet "Notes" 1 1].

Definition company_sheets : list Worksheet :=
  [sheet_of_cells "fOut_A" 2 2
     [(1, 1, text_cell "Year"); (1, 2, text_cell "Value");
      (2, 1, {| value := SStr "=A1+2"; data_type := "f" |});
      (2, 2, {| value := SStr "#DIV/0!"; data_type := "e" |})];
   blank_sheet "Extra" 1 1].

Definition template_book : Workbook :=
  mkWorkbook (AWorksheet <$> template_sheets).

Definition company_book : Workbook :=
  mkWorkbook (AWorksheet <$> company_sheets).

(** A sheet with one error cell, at B2, and one with two error cells and a
    cell of data type 'e' that holds no text. *)
Definition error_sheet : Worksheet :=
  sheet_of_cells "Sheet" 2 2
    [(1, 1, text_cell "Year");
     (2, 2, {| value := SStr "#DIV/0!"; data_type := "e" |})].

Definition mixed_error_sheet : Worksheet :=
  sheet_of_cells "Sheet" 2 2
    [(1, 1, {| value := SStr "#DIV/0!"; data_type := "e" |});
     (1, 2, {| value := SNone; data_type := "e" |});
     (2, 2, {| value := SStr "#DIV/0!"; data_type := "e" |})].

(** Sheets of one row and 18279 columns, one more than have a name: one
    with an error cell in the last column, two with differing formulas
    there. *)
Definition wide_error_sheet : Worksheet :=
  sheet_of_cells "Wide" 1 18279
    [(1, 18279, {| value := SStr "#REF!"; data_type := "e" |})].

Definition wide_template_sheet : Worksheet :=
  sheet_of_cells "Template" 1 18279
    [(1, 18279, {| value := SStr "=A1+1"; data_type := "f" |})].

Definition wide_company_sheet : Worksheet :=
  sheet_of_cells "Company" 1 18279
    [(1, 18279, {| value := SStr "=A1+2"; data_type := "f" |})].

(** A workbook with a chart sheet, a read-only workbook and a workbook with
    a worksheet of the same name. *)
Definition charted_book : Workbook :=
  mkWorkbook [AWorksheet (blank_sheet "Data" 1 1); AChartsheet "Chart"].

Definition read_only_book : Workbook :=
  mkWorkbook [AReadOnlyWorksheet (blank_sheet "Data" 2 2)].

Definition plain_book : Workbook :=
  mkWorkbook [AWorksheet (blank_sheet "Data" 2 2)].

(** The positions of the cells the scanner files: within the nominal
    extents, of data type 'e' and with a str value. *)
Definition error_positions (sheet : Worksheet) : list (Z * Z) :=
  filter (fun p => data_type (cell sheet p.1 p.2) = "e"
                   /\ is_text (value (cell sheet p.1 p.2)) = true)
         (cell_positions (max_row sheet) (max_column sheet)).

(** * Properties *)

(** Case analysis on the list whose emptiness the code tests. *)
Ltac case_nonempty :=
  match goal with
  | |- context [nonempty ?e] => destruct e as [| ? ?]
  end.
(** ** Ranges *)

Lemma elem_of_range (x start stop : Z) :
  x ∈ range start stop <-> start <= x < stop.
Proof. unfold range. rewrite elem_of_seqZ. lia. Qed.

Lemma range_down_nil (n : Z) : n <= 0 -> range_down n 0 = [].
Proof.
  intros Hn. unfold range_down.
  assert (Hlen : length (seqZ 0 (n - 0)) = 0%nat) by (rewrite length_seqZ; lia).
  destruct (seqZ 0 (n - 0)); [reflexivity | discriminate].
Qed.

Lemma range_down_cons (n : Z) :
  0 < n -> range_down n 0 = n :: range_down (n - 1) 0.
Proof.
  intros Hn. unfold range_down.
  rewrite (seqZ_cons 0 (n - 0)) by lia. cbn [fmap list_fmap].
  f_equal; [lia |].
  replace (Z.succ 0) with (1 + 0) by lia.
  replace (Z.pred (n - 0)) with (n - 1 - 0) by lia.
  rewrite <- fmap_add_seqZ, <- list_fmap_compose.
  apply list_fmap_ext. intros _ i _. cbn. lia.
Qed.

(** ** The counting loop of get_used_area *)

Lemma count_empty_range_down (values_at : Z -> list scalar) (n : Z) :
  let k := count_empty values_at (range_down n 0) in
  0 <= k <= Z.max 0 n
  /\ (forall i, n - k < i <= n -> all_None (values_at i) = true)
  /\ (1 <= n - k -> all_None (values_at (n - k)) = false).
Proof.
  remember (Z.to_nat n) as fuel eqn:Hfuel.
  revert n Hfuel. induction fuel as [| fuel IH]; intros n Hfuel.
  - rewrite range_down_nil by lia. cbn. repeat split; intros; lia.
  - rewrite range_down_cons by lia. cbn [count_empty].
    destruct (all_None (values_at n)) eqn:Hn.
    + specialize (IH (n - 1) ltac:(lia)). cbv zeta in IH.
      destruct IH as (Hk & Hall & Hstop).
      set (k := count_empty values_at (range_down (n - 1) 0)) in *.
      cbv zeta. repeat split; try lia.
      * intros i Hi. destruct (decide (i = n)) as [-> | Hne]; [exact Hn |].
        apply Hall. lia.
      * intros Hpos. replace (n - (1 + k)) with (n - 1 - k) by lia.
        apply Hstop. lia.
    + cbv zeta. repeat split; try lia.
      intros _. replace (n - 0) with n by lia. exact Hn.
Qed.

Lemma all_None_row_values (sheet : Worksheet) (row : Z) :
  all_None (row_values sheet row) = true
  <-> forall col, 1 <= col <= max_column sheet ->
        value (cell sheet row col) = SNone.
Proof.
  unfold all_None, row_values. rewrite forallb_forall. split.
  - intros H col Hcol.
    specialize (H (value (cell sheet row col))).
    destruct (value (cell sheet row col)) eqn:Hv; try reflexivity;
      exfalso; (enough (false = true) by discriminate); apply H;
      apply list_elem_of_In, list_elem_of_fmap; exists col;
      (split; [by rewrite Hv | apply elem_of_range; lia]).
  - intros H v Hin. apply list_elem_of_In, list_elem_of_fmap in Hin.
    destruct Hin as (col & -> & Hcol). apply elem_of_range in Hcol.
    rewrite H by lia. reflexivity.
Qed.

Lemma all_None_column_values (sheet : Worksheet) (col : Z) :
  all_None (column_values sheet col) = true
  <-> forall row, 1 <= row <= max_row sheet ->
        value (cell sheet row col) = SNone.
Proof.
  unfold all_None, column_values. rewrite forallb_forall. split.
  - intros H row Hrow.
    specialize (H (value (cell sheet row col))).
    destruct (value (cell sheet row col)) eqn:Hv; try reflexivity;
      exfalso; (enough (false = true) by discriminate); apply H;
      apply list_elem_of_In, list_elem_of_fmap; exists row;
      (split; [by rewrite Hv | apply elem_of_range; lia]).
  - intros H v Hin. apply list_elem_of_In, list_elem_of_fmap in Hin.
    destruct Hin as (row & -> & Hrow). apply elem_of_range in Hrow.
    rewrite H by lia. reflexivity.
Qed.

Lemma all_None_false (values : list scalar) :
  all_None values = false -> exists v, v ∈ values /\ v <> SNone.
Proof.
  unfold all_None. induction values as [| v rest IH]; cbn; [discriminate |].
  destruct v; cbn.
  - intros H. destruct (IH H) as (w & Hw & Hne).
    exists w. split; [by apply list_elem_of_further | exact Hne].
  - intros _. eexists. split; [apply list_elem_of_here | discriminate].
  - intros _. eexists. split; [apply list_elem_of_here | discriminate].
  - intros _. eexists. split; [apply list_elem_of_here | discriminate].
Qed.

(** What [used_area] computes, stated on the cells of the sheet. *)
Lemma used_area_spec (sheet : Worksheet) :
  let area := used_area sheet in
  let rows := max_row sheet in
  let cols := max_column sheet in
  (0 <= empty_rows area <= Z.max 0 rows
   /\ (forall row, rows - empty_rows area < row <= rows ->
         forall col, 1 <= col <= cols -> value (cell sheet row col) = SNone)
   /\ (1 <= rows - empty_rows area ->
         exists col, 1 <= col <= cols
           /\ value (cell sheet (rows - empty_rows area) col) <> SNone))
  /\ (0 <= empty_columns area <= Z.max 0 cols
      /\ (forall col, cols - empty_columns area < col <= cols ->
            forall row, 1 <= row <= rows -> value (cell sheet row col) = SNone)
      /\ (1 <= cols - empty_columns area ->
            exists row, 1 <= row <= rows
              /\ value (cell sheet row (cols - empty_columns area)) <> SNone))
  /\ last_used_row area = rows - empty_rows area
  /\ last_used_column area = cols - empty_columns area.
Proof.
  cbv zeta. unfold used_area. cbn [empty_rows empty_columns last_used_row
                                   last_used_column].
  pose proof (count_empty_range_down (row_values sheet) (max_row sheet)) as Hr.
  pose proof (count_empty_range_down (column_values sheet) (max_column sheet))
    as Hc.
  cbv zeta in Hr, Hc.
  destruct Hr as (Hr1 & Hr2 & Hr3). destruct Hc as (Hc1 & Hc2 & Hc3).
  split; [| split; [| split; reflexivity]].
  - split; [exact Hr1 |]. split.
    + intros row Hrow. by apply all_None_row_values, Hr2.
    + intros Hpos. destruct (all_None_false _ (Hr3 Hpos)) as (v & Hv & Hne).
      apply list_elem_of_fmap in Hv. destruct Hv as (col & -> & Hcol).
      apply elem_of_range in Hcol. exists col. split; [lia | exact Hne].
  - split; [exact Hc1 |]. split.
    + intros col Hcol. by apply all_None_column_values, Hc2.
    + intros Hpos. destruct (all_None_false _ (Hc3 Hpos)) as (v & Hv & Hne).
      apply list_elem_of_fmap in Hv. destruct Hv as (row & -> & Hrow).
      apply elem_of_range in Hrow. exists row. split; [lia | exact Hne].
Qed.

(** ** Used-area detector *)

(** C8: for every sheet, [empty_rows] is the number of consecutive rows,
    counted from the last nominal row backward, whose cells over all nominal
    columns have no value: every row after [max_row - empty_rows] is empty,
    and the row [max_row - empty_rows], when there is one, has a value, so the
    count stops there. The same holds for [empty_columns] over the full
    nominal row range, and [last_used_row = max_row - empty_rows],
    [last_used_column = max_column - empty_columns]. *)
Theorem get_used_area_counts_trailing_empty (sheet : Worksheet) :
  exists area,
    get_used_area (PWorksheet sheet) = inr area
    /\ (0 <= empty_rows area <= Z.max 0 (max_row sheet)
        /\ (forall row,
              max_row sheet - empty_rows area < row <= max_row sheet ->
              forall col, 1 <= col <= max_column sheet ->
                value (cell sheet row col) = SNone)
        /\ (1 <= max_row sheet - empty_rows area ->
              exists col, 1 <= col <= max_column sheet
                /\ value (cell sheet (max_row sheet - empty_rows area) col)
                   <> SNone))
    /\ (0 <= empty_columns area <= Z.max 0 (max_column sheet)
        /\ (forall col,
              max_column sheet - empty_columns area < col <= max_column sheet ->
              forall row, 1 <= row <= max_row sheet ->
                value (cell sheet row col) = SNone)
        /\ (1 <= max_column sheet - empty_columns area ->
              exists row, 1 <= row <= max_row sheet
                /\ value (cell sheet row (max_column sheet - empty_columns area))
                   <> SNone))
    /\ last_used_row area = max_row sheet - empty_rows area
    /\ last_used_column area = max_column sheet - empty_columns area.
Proof.
  exists (used_area sheet). split; [reflexivity |]. apply used_area_spec.
Qed.

(** A sheet without any value: both counts reach the nominal extents. *)
Lemma used_area_blank (sheet : Worksheet) :
  1 <= max_row sheet -> 1 <= max_column sheet ->
  (forall row col, 1 <= row <= max_row sheet -> 1 <= col <= max_column sheet ->
     value (cell sheet row col) = SNone) ->
  used_area sheet
  = {| empty_rows := max_row sheet; empty_columns := max_column sheet;
       last_used_row := 0; last_used_column := 0 |}.
Proof.
  intros Hrows Hcols Hblank.
  destruct (used_area_spec sheet) as ((Hr1 & _ & Hr3) & (Hc1 & _ & Hc3) & Hlr & Hlc).
  cbv zeta in *.
  assert (Hr : empty_rows (used_area sheet) = max_row sheet).
  { destruct (decide (1 <= max_row sheet - empty_rows (used_area sheet)))
      as [Hpos | Hneg]; [| lia].
    destruct (Hr3 Hpos) as (col & Hcol & Hne). exfalso. apply Hne.
    apply Hblank; lia. }
  assert (Hc : empty_columns (used_area sheet) = max_column sheet).
  { destruct (decide (1 <= max_column sheet - empty_columns (used_area sheet)))
      as [Hpos | Hneg]; [| lia].
    destruct (Hc3 Hpos) as (row & Hrow & Hne). exfalso. apply Hne.
    apply Hblank; lia. }
  destruct (used_area sheet) as [er ec lr lc]. cbn in *. subst.
  f_equal; lia.
Qed.

(** C5, as the code has it: for every fully empty sheet whose nominal extents
    start at 1, the detector counts every nominal row and column as empty:
    [empty_rows = max_row], [empty_columns = max_column] and
    [last_used_row = last_used_column = 0]. *)
Theorem get_used_area_blank_sheet (sheet : Worksheet) :
  1 <= max_row sheet -> 1 <= max_column sheet ->
  (forall row col, 1 <= row <= max_row sheet -> 1 <= col <= max_column sheet ->
     value (cell sheet row col) = SNone) ->
  get_used_area (PWorksheet sheet)
  = inr {| empty_rows := max_row sheet; empty_columns := max_column sheet;
           last_used_row := 0; last_used_column := 0 |}.
Proof.
  intros Hrows Hcols Hblank. cbn [get_used_area]. f_equal.
  by apply used_area_blank.
Qed.

Lemma get_used_area_blank_sheet_witness :
  get_used_area (PWorksheet (blank_sheet "Sheet" 3 2))
  = inr {| empty_rows := 3; empty_columns := 2;
           last_used_row := 0; last_used_column := 0 |}.
Proof.
  apply (get_used_area_blank_sheet (blank_sheet "Sheet" 3 2)).
  - simpl. lia.
  - simpl. lia.
  - intros row col _ _. reflexivity.
Defined.

(** C5 as stated fails on the 1 x 1 sheet openpyxl makes for an empty tab:
    the detector answers [empty_rows = 1] and [last_used_row = 0], not
    [max_row - 1 = 0] and [1]. *)
Lemma get_used_area_blank_sheet_counterexample :
  let sheet := blank_sheet "Sheet" 1 1 in
  (forall row col, value (cell sheet row col) = SNone)
  /\ ~ (exists area,
          get_used_area (PWorksheet sheet) = inr area
          /\ empty_rows area = max_row sheet - 1
          /\ empty_columns area = max_column sheet - 1
          /\ last_used_row area = 1
          /\ last_used_column area = 1).
Proof.
  split; [reflexivity |].
  intros (area & Harea & Hrows & _). vm_compute in Harea.
  injection Harea as <-. vm_compute in Hrows. discriminate.
Qed.

(** ** Sheet-set differ *)

Lemma elem_of_missing (names1 names2 : list string) (name : string) :
  name ∈ elements ((list_to_set names1 : gset string) ∖ list_to_set names2)
  <-> name ∈ names1 /\ name ∉ names2.
Proof.
  rewrite elem_of_elements, elem_of_difference, !elem_of_list_to_set.
  reflexivity.
Qed.

(** The differ alone: a result is "Ok" exactly when it lists nothing. *)
Lemma validate_tabs_invariant (wb1 wb2 : Workbook) :
  exists r,
    validate_tabs_between_spreadsheets (PWorkbook wb1) (PWorkbook wb2) = inr r
    /\ (status r = "Ok" <-> errors r = []).
Proof.
  cbn [validate_tabs_between_spreadsheets].
  destruct (elements (list_to_set (sheetnames wb2) ∖ list_to_set (sheetnames wb1)))
    as [| a m1];
  destruct (elements (list_to_set (sheetnames wb1) ∖ list_to_set (sheetnames wb2)))
    as [| b m2];
  cbn [nonempty orb app]; eexists; (split; [reflexivity |]);
  cbn [status errors]; split; congruence.
Qed.

(** C9: for every pair of workbooks the differ returns status "Ok" exactly
    when the two sheet-name sets are equal; its errors hold, under
    "Missing In Spreadsheet 1", exactly the names of the second workbook that
    the first lacks and, under "Missing In Spreadsheet 2", exactly the names
    of the first that the second lacks, under no other key and never as an
    empty list; and errors is empty exactly when the status is "Ok". *)
Theorem validate_tabs_sheet_name_sets (wb1 wb2 : Workbook) :
  exists r,
    validate_tabs_between_spreadsheets (PWorkbook wb1) (PWorkbook wb2) = inr r
    /\ (status r = "Ok"
        <-> forall name, name ∈ sheetnames wb1 <-> name ∈ sheetnames wb2)
    /\ (forall name,
          (exists names,
              dict_get "Missing In Spreadsheet 1" (errors r) = Some names
              /\ name ∈ names)
          <-> name ∈ sheetnames wb2 /\ name ∉ sheetnames wb1)
    /\ (forall name,
          (exists names,
              dict_get "Missing In Spreadsheet 2" (errors r) = Some names
              /\ name ∈ names)
          <-> name ∈ sheetnames wb1 /\ name ∉ sheetnames wb2)
    /\ (forall key names,
          dict_get key (errors r) = Some names ->
          (key = "Missing In Spreadsheet 1" \/ key = "Missing In Spreadsheet 2")
          /\ names <> [] /\ NoDup names)
    /\ (errors r = [] <-> status r = "Ok").
Proof.
  cbn [validate_tabs_between_spreadsheets].
  pose proof (elem_of_missing (sheetnames wb2) (sheetnames wb1)) as H1.
  pose proof (elem_of_missing (sheetnames wb1) (sheetnames wb2)) as H2.
  pose proof (NoDup_elements
    ((list_to_set (sheetnames wb2) : gset string) ∖ list_to_set (sheetnames wb1)))
    as N1.
  pose proof (NoDup_elements
    ((list_to_set (sheetnames wb1) : gset string) ∖ list_to_set (sheetnames wb2)))
    as N2.
  destruct (elements (list_to_set (sheetnames wb2) ∖ list_to_set (sheetnames wb1)))
    as [| a m1];
  destruct (elements (list_to_set (sheetnames wb1) ∖ list_to_set (sheetnames wb2)))
    as [| b m2];
  cbn [nonempty orb app]; eexists; (split; [reflexivity |]);
  cbn [status errors dict_get].
  - split; [| split; [| split; [| split]]].
    + split; [| reflexivity]. intros _ name. split; intros Hin.
      * destruct (decide (name ∈ sheetnames wb2)) as [| Hn]; [done |].
        exfalso. eapply not_elem_of_nil, H2. eauto.
      * destruct (decide (name ∈ sheetnames wb1)) as [| Hn]; [done |].
        exfalso. eapply not_elem_of_nil, H1. eauto.
    + intros name. split; [intros (? & ? & ?); discriminate |].
      intros Hin. exfalso. eapply not_elem_of_nil, H1. eauto.
    + intros name. split; [intros (? & ? & ?); discriminate |].
      intros Hin. exfalso. eapply not_elem_of_nil, H2. eauto.
    + discriminate.
    + split; reflexivity.
  - split; [| split; [| split; [| split]]].
    + split; [discriminate |]. intros Heq. exfalso.
      assert (Hb : b ∈ b :: m2) by apply list_elem_of_here.
      apply H2 in Hb. destruct Hb as [Hb1 Hb2]. by apply Hb2, Heq.
    + intros name. split.
      * intros (names & Hget & _). revert Hget. by case_decide.
      * intros Hin. exfalso. eapply not_elem_of_nil, H1. eauto.
    + intros name. rewrite <- H2. split.
      * intros (names & Hget & Hin). revert Hget. case_decide; [| done].
        by intros [= <-].
      * intros Hin. eexists. split; [| exact Hin]. by case_decide.
    + intros key names. case_decide; [| done]. intros [= <-]. eauto.
    + split; discriminate.
  - split; [| split; [| split; [| split]]].
    + split; [discriminate |]. intros Heq. exfalso.
      assert (Ha : a ∈ a :: m1) by apply list_elem_of_here.
      apply H1 in Ha. destruct Ha as [Ha1 Ha2]. by apply Ha2, Heq.
    + intros name. rewrite <- H1. split.
      * intros (names & Hget & Hin). revert Hget. case_decide; [| done].
        by intros [= <-].
      * intros Hin. eexists. split; [| exact Hin]. by case_decide.
    + intros name. split.
      * intros (names & Hget & _). revert Hget. by case_decide.
      * intros Hin. exfalso. eapply not_elem_of_nil, H2. eauto.
    + intros key names. case_decide; [| done]. intros [= <-]. eauto.
    + split; discriminate.
  - split; [| split; [| split; [| split]]].
    + split; [discriminate |]. intros Heq. exfalso.
      assert (Ha : a ∈ a :: m1) by apply list_elem_of_here.
      apply H1 in Ha. destruct Ha as [Ha1 Ha2]. by apply Ha2, Heq.
    + intros name. rewrite <- H1. split.
      * intros (names & Hget & Hin). revert Hget. case_decide; [| done].
        by intros [= <-].
      * intros Hin. eexists. split; [| exact Hin]. by case_decide.
    + intros name. rewrite <- H2. split.
      * intros (names & Hget & Hin). revert Hget.
        case_decide; [done |]. case_decide; [| done]. by intros [= <-].
      * intros Hin. eexists. split; [| exact Hin].
        case_decide; [done |]. by case_decide.
    + intros key names. case_decide; [intros [= <-]; eauto |].
      case_decide; [| done]. intros [= <-]. eauto.
    + split; discriminate.
Qed.


(** ** Loops that may raise *)

Lemma for_fold_returns {A S : Type} (body : S -> A -> exn + S)
    (step : S -> A -> S) (items : list A) (s : S) :
  (forall a acc, a ∈ items -> body acc a = inr (step acc a)) ->
  for_fold body s items = inr (foldl step s items).
Proof.
  revert s. induction items as [| a items IH]; intros s Hbody; [reflexivity |].
  cbn [for_fold foldl]. rewrite Hbody by apply list_elem_of_here.
  cbn. apply IH. intros b acc Hb. apply Hbody. by apply list_elem_of_further.
Qed.

Lemma for_fold_inr {A S : Type} (body : S -> A -> exn + S)
    (step : S -> A -> S) (items : list A) (s s' : S) :
  (forall a acc acc', body acc a = inr acc' -> acc' = step acc a) ->
  for_fold body s items = inr s' -> s' = foldl step s items.
Proof.
  intros Hbody. revert s. induction items as [| a items IH]; intros s.
  - cbn. congruence.
  - cbn [for_fold foldl]. destruct (body s a) as [e | acc] eqn:Hstep.
    + discriminate.
    + apply Hbody in Hstep. subst acc. apply IH.
Qed.

Lemma for_fold_app {A S : Type} (body : S -> A -> exn + S) (l1 l2 : list A)
    (s : S) :
  for_fold body s (l1 ++ l2) = (s' ← for_fold body s l1; for_fold body s' l2).
Proof.
  revert s. induction l1 as [| a l1 IH]; intros s; [reflexivity |].
  cbn [app for_fold]. destruct (body s a) as [e | acc]; [reflexivity |].
  cbn. apply IH.
Qed.

Lemma for_fold_nested {D : Type} (body : Z -> Z -> D -> exn + D)
    (rows cols : list Z) (d : D) :
  for_fold (fun acc row => for_fold (fun acc col => body row col acc) acc cols)
    d rows
  = for_fold (fun acc p => body p.1 p.2 acc) d
      (row ← rows; (fun col => (row, col)) <$> cols).
Proof.
  revert d. induction rows as [| row rows IH]; intros d; [reflexivity |].
  cbn [for_fold mbind list_bind]. rewrite for_fold_app.
  assert (Hrow : for_fold (fun acc col => body row col acc) d cols
                 = for_fold (fun acc p => body p.1 p.2 acc) d
                     ((fun col => (row, col)) <$> cols)).
  { clear. revert d. induction cols as [| col cols IH]; intros d;
      [reflexivity |].
    cbn. destruct (body row col d); [reflexivity |]. apply IH. }
  rewrite <- Hrow.
  destruct (for_fold (fun acc col => body row col acc) d cols);
    [reflexivity |].
  cbn. apply IH.
Qed.

(** ** Cell references that can be built *)

Lemma cell_name_returns (col row : Z) :
  1 <= col <= 18278 -> cell_name col row = inr (cell_reference (row, col)).
Proof.
  intros Hcol. unfold cell_name, get_column_letter.
  by rewrite bool_decide_eq_true_2.
Qed.

Lemma cell_name_inr (col row : Z) (name : string) :
  cell_name col row = inr name -> name = cell_reference (row, col).
Proof.
  unfold cell_name, get_column_letter. case_bool_decide; [| discriminate].
  by intros [= <-].
Qed.

Lemma cell_name_raises (col row : Z) :
  ~ 1 <= col <= 18278 ->
  cell_name col row
  = inl (ValueError ("Invalid column index " +:+ str_int col)).
Proof.
  intros Hcol. unfold cell_name, get_column_letter.
  by rewrite bool_decide_eq_false_2.
Qed.

Lemma scan_cell_returns (sheet : Worksheet) (p : Z * Z)
    (d : pydict (list string)) :
  1 <= p.2 <= 18278 ->
  scan_cell sheet p.1 p.2 d
  = inr (loop_step (error_text sheet) cell_reference d p).
Proof.
  intros Hcol. unfold scan_cell, loop_step, error_text.
  case_bool_decide; [| reflexivity].
  destruct (value (cell sheet p.1 p.2)); try reflexivity.
  rewrite cell_name_returns by exact Hcol. by destruct p.
Qed.

Lemma scan_cell_inr (sheet : Worksheet) (p : Z * Z)
    (d d' : pydict (list string)) :
  scan_cell sheet p.1 p.2 d = inr d' ->
  d' = loop_step (error_text sheet) cell_reference d p.
Proof.
  unfold scan_cell, loop_step, error_text.
  case_bool_decide; [| by intros [= <-]].
  destruct (value (cell sheet p.1 p.2)); try (by intros [= <-]).
  destruct (cell_name p.2 p.1) as [e | name] eqn:Hname; [discriminate |].
  apply cell_name_inr in Hname. subst name. destruct p. by intros [= <-].
Qed.

Lemma compare_cell_returns (sheet1 sheet2 : Worksheet) (p : Z * Z)
    (d : pydict (list string)) :
  1 <= p.2 <= 18278 ->
  compare_cell sheet1 sheet2 p.1 p.2 d
  = inr (loop_step (difference_key sheet1 sheet2)
           (difference_message sheet1 sheet2) d p).
Proof.
  intros Hcol.
  unfold compare_cell, loop_step, difference_key, difference_message.
  rewrite cell_name_returns by exact Hcol.
  destruct (is_formula (value (cell sheet1 p.1 p.2)));
    destruct (is_formula (value (cell sheet2 p.1 p.2)));
    destruct (scalar_eq (value (cell sheet1 p.1 p.2))
                        (value (cell sheet2 p.1 p.2)));
    destruct p; reflexivity.
Qed.

Lemma compare_cell_inr (sheet1 sheet2 : Worksheet) (p : Z * Z)
    (d d' : pydict (list string)) :
  compare_cell sheet1 sheet2 p.1 p.2 d = inr d' ->
  d' = loop_step (difference_key sheet1 sheet2)
         (difference_message sheet1 sheet2) d p.
Proof.
  unfold compare_cell, loop_step, difference_key, difference_message.
  destruct (is_formula (value (cell sheet1 p.1 p.2)));
    destruct (is_formula (value (cell sheet2 p.1 p.2)));
    destruct (scalar_eq (value (cell sheet1 p.1 p.2))
                        (value (cell sheet2 p.1 p.2)));
    cbn [andb negb]; try (by intros [= <-]).
  destruct (cell_name p.2 p.1) as [e | name] eqn:Hname; [discriminate |].
  apply cell_name_inr in Hname. subst name. destruct p. by intros [= <-].
Qed.

Lemma cell_positions_columns (rows cols : Z) (p : Z * Z) :
  p ∈ cell_positions rows cols -> 1 <= p.2 <= cols.
Proof.
  unfold cell_positions. rewrite list_elem_of_bind.
  intros (row & Hin & _). apply list_elem_of_fmap in Hin.
  destruct Hin as (col & -> & Hcol). apply elem_of_range in Hcol. cbn. lia.
Qed.

(** ** What the scanner and the comparator return *)

Lemma formula_errors_returns (sheet : Worksheet) :
  max_column sheet <= 18278 ->
  formula_errors sheet = inr (scan_result (scanned sheet)).
Proof.
  intros Hcols. unfold formula_errors, scanned.
  rewrite (for_fold_nested (scan_cell sheet)).
  fold (cell_positions (max_row sheet) (max_column sheet)).
  rewrite (for_fold_returns _ (loop_step (error_text sheet) cell_reference));
    [reflexivity |].
  intros p acc Hp. apply cell_positions_columns in Hp.
  apply scan_cell_returns. lia.
Qed.

Lemma formula_errors_inr (sheet : Worksheet) (r : ComparisonResult) :
  formula_errors sheet = inr r -> r = scan_result (scanned sheet).
Proof.
  unfold formula_errors, scanned.
  rewrite (for_fold_nested (scan_cell sheet)).
  fold (cell_positions (max_row sheet) (max_column sheet)).
  destruct (for_fold _ _ _) as [e | d] eqn:Hloop; [discriminate |].
  apply (for_fold_inr _ (loop_step (error_text sheet) cell_reference))
    in Hloop.
  - subst d. by intros [= <-].
  - intros p acc acc'. apply scan_cell_inr.
Qed.

Lemma formulas_compared_other_dimensions (sheet1 sheet2 : Worksheet) :
  (max_row sheet1, max_column sheet1) <> (max_row sheet2, max_column sheet2) ->
  formulas_compared sheet1 sheet2
  = inr {| status := "Error";
           description := dimension_message sheet1 sheet2;
           errors := [] |}.
Proof.
  intros Hne. unfold formulas_compared.
  destruct (bool_decide (max_row sheet1 = max_row sheet2)) eqn:Hr;
    destruct (bool_decide (max_column sheet1 = max_column sheet2)) eqn:Hc;
    cbn [andb negb]; try reflexivity.
  apply bool_decide_eq_true_1 in Hr, Hc. exfalso. apply Hne. congruence.
Qed.

Lemma formulas_compared_returns (sheet1 sheet2 : Worksheet) :
  max_row sheet1 = max_row sheet2 -> max_column sheet1 = max_column sheet2 ->
  max_column sheet1 <= 18278 ->
  formulas_compared sheet1 sheet2
  = inr (formulas_result (differing sheet1 sheet2)).
Proof.
  intros Hrows Hcols Hbound. unfold formulas_compared, differing.
  rewrite !bool_decide_eq_true_2 by assumption. cbn [andb negb].
  rewrite (for_fold_nested (compare_cell sheet1 sheet2)).
  fold (cell_positions (max_row sheet1) (max_column sheet1)).
  rewrite (for_fold_returns _
             (loop_step (difference_key sheet1 sheet2)
                (difference_message sheet1 sheet2)));
    [reflexivity |].
  intros p acc Hp. apply cell_positions_columns in Hp.
  apply compare_cell_returns. lia.
Qed.

Lemma formulas_compared_inr (sheet1 sheet2 : Worksheet) (r : ComparisonResult) :
  max_row sheet1 = max_row sheet2 -> max_column sheet1 = max_column sheet2 ->
  formulas_compared sheet1 sheet2 = inr r ->
  r = formulas_result (differing sheet1 sheet2).
Proof.
  intros Hrows Hcols. unfold formulas_compared, differing.
  rewrite !bool_decide_eq_true_2 by assumption. cbn [andb negb].
  rewrite (for_fold_nested (compare_cell sheet1 sheet2)).
  fold (cell_positions (max_row sheet1) (max_column sheet1)).
  destruct (for_fold _ _ _) as [e | d] eqn:Hloop; [discriminate |].
  apply (for_fold_inr _
           (loop_step (difference_key sheet1 sheet2)
              (difference_message sheet1 sheet2))) in Hloop.
  - subst d. by intros [= <-].
  - intros p acc acc'. apply compare_cell_inr.
Qed.

(** ** The status of a result and its errors *)

Lemma sheet_structure_invariant (sheet1 sheet2 : Worksheet) (header_row : Z) :
  let r := sheet_structure sheet1 sheet2 header_row in
  status r = "Ok" <-> errors r = [].
Proof.
  cbv zeta. unfold sheet_structure.
  case_nonempty; cbn; split; congruence.
Qed.

Lemma scan_result_invariant (d : pydict (list string)) :
  status (scan_result d) = "Ok" <-> errors (scan_result d) = [].
Proof. destruct d; cbn; split; congruence. Qed.

Lemma formulas_result_invariant (d : pydict (list string)) :
  status (formulas_result d) = "Ok" <-> errors (formulas_result d) = [].
Proof. destruct d; cbn; split; congruence. Qed.

(** C1, as the code has it: the sheet-set differ and the structure
    comparator return a result with status "Ok" exactly when its errors are
    empty, and so is every result the formula-error scanner returns; a
    result of compare_formulas is so when the nominal (rows, columns) of the
    two sheets are equal, and when they differ it has status "Error" with an
    empty errors mapping. The scanner and the formula comparator return a
    result for every sheet without a column beyond 18278, the last one
    [get_column_letter] names. *)
Theorem comparison_result_status_and_errors :
  (forall wb1 wb2, exists r,
      validate_tabs_between_spreadsheets (PWorkbook wb1) (PWorkbook wb2) = inr r
      /\ (status r = "Ok" <-> errors r = []))
  /\ (forall sheet1 sheet2 header_row, exists r,
        check_sheet_structure (PWorksheet sheet1) (PWorksheet sheet2) header_row
        = inr r
        /\ (status r = "Ok" <-> errors r = []))
  /\ (forall sheet,
        (max_column sheet <= 18278 ->
         exists r, check_formula_errors (PWorksheet sheet) = inr r)
        /\ (forall r,
              check_formula_errors (PWorksheet sheet) = inr r ->
              status r = "Ok" <-> errors r = []))
  /\ (forall sheet1 sheet2,
        (max_column sheet1 <= 18278 ->
         exists r,
           compare_formulas (PWorksheet sheet1) (PWorksheet sheet2) = inr r)
        /\ (forall r,
              compare_formulas (PWorksheet sheet1) (PWorksheet sheet2) = inr r ->
              ((max_row sheet1, max_column sheet1)
               = (max_row sheet2, max_column sheet2) ->
               status r = "Ok" <-> errors r = [])
              /\ ((max_row sheet1, max_column sheet1)
                  <> (max_row sheet2, max_column sheet2) ->
                  status r = "Error" /\ errors r = []))).
Proof.
  split; [| split; [| split]].
  - intros wb1 wb2.
    apply validate_tabs_invariant.
  - intros sheet1 sheet2 header_row. eexists. split; [reflexivity |].
    apply sheet_structure_invariant.
  - intros sheet. cbn [check_formula_errors]. split.
    + intros Hcols. eexists. by apply formula_errors_returns.
    + intros r Hr. apply formula_errors_inr in Hr. subst r.
      apply scan_result_invariant.
  - intros sheet1 sheet2. cbn [compare_formulas]. split.
    + intros Hbound.
      destruct (decide ((max_row sheet1, max_column sheet1)
                        = (max_row sheet2, max_column sheet2)))
        as [[= Hrows Hcols] | Hne]; eexists.
      * by apply formulas_compared_returns.
      * by apply formulas_compared_other_dimensions.
    + intros r Hr. split.
      * intros [= Hrows Hcols]. apply formulas_compared_inr in Hr; [| done ..].
        subst r. apply formulas_result_invariant.
      * intros Hne. rewrite formulas_compared_other_dimensions in Hr by done.
        by injection Hr as <-.
Qed.

(** C1 as stated fails for compare_formulas on a 1 x 1 and a 2 x 1 sheet:
    the result has status "Error" although its errors are empty. *)
Lemma comparison_result_invariant_counterexample :
  exists r,
    compare_formulas (PWorksheet (blank_sheet "Sheet" 1 1))
                     (PWorksheet (blank_sheet "Sheet" 2 1)) = inr r
    /\ errors r = []
    /\ ~ (status r = "Ok" <-> errors r = []).
Proof.
  eexists. split; [reflexivity |]. split; [reflexivity |].
  intros [_ H]. specialize (H eq_refl). vm_compute in H. discriminate.
Qed.

(** ** Dicts of lists built by a loop *)

Lemma dict_get_extend {V : Type} (k k' : string) (vs : list V)
    (d : pydict (list V)) :
  dict_get k (dict_extend k' vs d)
  = if decide (k = k') then Some (default [] (dict_get k' d) ++ vs)
    else dict_get k d.
Proof.
  induction d as [| [k0 l] rest IH]; cbn.
  - repeat case_decide; congruence.
  - destruct (decide (k' = k0)) as [-> | Hne]; cbn.
    + repeat case_decide; congruence.
    + rewrite IH. repeat case_decide; congruence.
Qed.

Lemma dict_extend_not_nil {V : Type} (k : string) (vs : list V)
    (d : pydict (list V)) :
  dict_extend k vs d <> [].
Proof. destruct d as [| [k0 l] rest]; cbn; [| case_decide]; discriminate. Qed.

Section dict_of_loop.
Context {A V : Type} (key : A -> option string) (val : A -> V).

Lemma values_under_cons (k : string) (a : A) (items : list A) :
  values_under key val k (a :: items)
  = (if decide (key a = Some k) then [val a] else [])
    ++ values_under key val k items.
Proof.
  unfold values_under. rewrite filter_cons. by case_decide.
Qed.

Lemma dict_get_loop (k : string) (items : list A) (d : pydict (list V)) :
  dict_get k (foldl (loop_step key val) d items)
  = match dict_get k d with
    | Some l => Some (l ++ values_under key val k items)
    | None =>
        if nonempty (values_under key val k items)
        then Some (values_under key val k items) else None
    end.
Proof.
  revert d. induction items as [| a items IH]; intros d.
  - cbn. destruct (dict_get k d); [by rewrite app_nil_r | reflexivity].
  - cbn [foldl]. rewrite IH, values_under_cons. unfold loop_step.
    destruct (key a) as [ka |] eqn:Hka.
    + unfold dict_append. rewrite dict_get_extend.
      destruct (decide (k = ka)) as [-> | Hne].
      * rewrite decide_True by reflexivity.
        destruct (dict_get ka d) as [l |]; cbn.
        -- by rewrite <- app_assoc.
        -- reflexivity.
      * rewrite decide_False by congruence. reflexivity.
    + rewrite decide_False by congruence. reflexivity.
Qed.

Lemma loop_not_nil (items : list A) (d : pydict (list V)) :
  foldl (loop_step key val) d items <> []
  <-> d <> [] \/ exists a k, a ∈ items /\ key a = Some k.
Proof.
  revert d. induction items as [| a items IH]; intros d.
  - cbn. split; [by left |].
    intros [H | (a & k & Hin & _)]; [exact H |]. by apply not_elem_of_nil in Hin.
  - cbn [foldl]. rewrite IH. unfold loop_step. split.
    + intros [H | (b & k & Hin & Hk)].
      * destruct (key a) as [ka |] eqn:Hka; [| by left].
        right. exists a, ka. split; [apply list_elem_of_here | exact Hka].
      * right. exists b, k. split; [by apply list_elem_of_further | exact Hk].
    + intros [H | (b & k & Hin & Hk)].
      * left. destruct (key a); [apply dict_extend_not_nil | exact H].
      * apply elem_of_cons in Hin. destruct Hin as [-> | Hin].
        -- left. rewrite Hk. apply dict_extend_not_nil.
        -- right. eauto.
Qed.
End dict_of_loop.

Lemma elem_of_cell_positions (rows cols row col : Z) :
  (row, col) ∈ cell_positions rows cols
  <-> 1 <= row <= rows /\ 1 <= col <= cols.
Proof.
  unfold cell_positions. rewrite list_elem_of_bind. split.
  - intros (r & Hin & Hr). apply list_elem_of_fmap in Hin.
    destruct Hin as (c & [= -> ->] & Hc).
    apply elem_of_range in Hr, Hc. lia.
  - intros [Hr Hc]. exists row. split.
    + apply list_elem_of_fmap. exists col. split; [reflexivity |].
      apply elem_of_range. lia.
    + apply elem_of_range. lia.
Qed.

(** ** Formula-error scanner *)

Lemma error_text_Some (sheet : Worksheet) (p : Z * Z) (text : string) :
  error_text sheet p = Some text
  <-> data_type (cell sheet p.1 p.2) = "e"
      /\ value (cell sheet p.1 p.2) = SStr text.
Proof.
  unfold error_text. case_bool_decide as He.
  - destruct (value (cell sheet p.1 p.2)); split;
      try (intros [_ ?]); try congruence.
    intros [= ->]. by split.
  - split; [discriminate | by intros [? _]].
Qed.

Lemma errors_scan_result (d : pydict (list string)) :
  errors (scan_result d) = d.
Proof. by destruct d. Qed.

Lemma status_scan_result (d : pydict (list string)) :
  status (scan_result d) = "Error" <-> d <> [].
Proof. destruct d; cbn; split; congruence. Qed.

(** C6, as the code has it: the scanner counts a cell as an error exactly
    when its data type is evaluated-error and its value is text. For a sheet
    without a column beyond 18278, the last one that has a name, its errors
    map each such text to the references (column letters, then row number)
    of the cells holding it, in scan order, and hold no other key; the
    status is "Error" exactly when such a cell exists within the nominal
    extents. *)
Theorem check_formula_errors_groups_by_text (sheet : Worksheet) :
  max_column sheet <= 18278 ->
  exists r,
    check_formula_errors (PWorksheet sheet) = inr r
    /\ (forall text,
          let references :=
            cell_reference
              <$> filter (fun p => data_type (cell sheet p.1 p.2) = "e"
                                   /\ value (cell sheet p.1 p.2) = SStr text)
                         (cell_positions (max_row sheet) (max_column sheet)) in
          dict_get text (errors r)
          = if nonempty references then Some references else None)
    /\ (status r = "Error"
        <-> exists row col text,
              1 <= row <= max_row sheet /\ 1 <= col <= max_column sheet
              /\ data_type (cell sheet row col) = "e"
              /\ value (cell sheet row col) = SStr text).
Proof.
  intros Hcols. exists (scan_result (scanned sheet)).
  split; [by apply formula_errors_returns |]. split.
  - intros text. cbv zeta. rewrite errors_scan_result. unfold scanned.
    rewrite dict_get_loop. cbn [dict_get]. unfold values_under.
    rewrite (list_filter_iff _
      (fun p => data_type (cell sheet p.1 p.2) = "e"
                /\ value (cell sheet p.1 p.2) = SStr text))
      by (intros p; apply error_text_Some).
    reflexivity.
  - rewrite status_scan_result. unfold scanned. rewrite loop_not_nil. split.
    + intros [H | ([row col] & text & Hin & Hkey)]; [congruence |].
      apply elem_of_cell_positions in Hin. apply error_text_Some in Hkey.
      exists row, col, text. tauto.
    + intros (row & col & text & Hrow & Hcol & He & Hv). right.
      exists (row, col), text. split.
      * by apply elem_of_cell_positions.
      * by apply error_text_Some.
Qed.

Lemma check_formula_errors_groups_by_text_witness :
  exists r,
    check_formula_errors (PWorksheet error_sheet) = inr r
    /\ dict_get "#DIV/0!" (errors r) = Some ["B2"]
    /\ status r = "Error".
Proof.
  destruct (check_formula_errors_groups_by_text error_sheet ltac:(simpl; lia))
    as (r & Hr & Hentries & Hstatus).
  exists r. split; [exact Hr |]. split.
  - rewrite Hentries. reflexivity.
  - apply Hstatus. exists 2, 2, "#DIV/0!".
    repeat split; try (simpl; lia); reflexivity.
Defined.

(** C6 as stated fails on a cell whose data type is 'e' but whose value is
    not text: the scanner passes over it and answers "Ok". *)
Lemma check_formula_errors_counterexample :
  let sheet :=
    sheet_of_cells "Sheet" 1 1 [(1, 1, {| value := SNone; data_type := "e" |})] in
  exists r,
    check_formula_errors (PWorksheet sheet) = inr r
    /\ ~ (status r = "Error"
          <-> exists row col,
                1 <= row <= max_row sheet /\ 1 <= col <= max_column sheet
                /\ data_type (cell sheet row col) = "e").
Proof.
  eexists. split; [reflexivity |]. intros [_ H].
  assert (Hs : status (scan_result (scanned
    (sheet_of_cells "Sheet" 1 1 [(1, 1, {| value := SNone; data_type := "e" |})])))
    = "Error").
  { apply H. exists 1, 1. repeat split; try lia; reflexivity. }
  vm_compute in Hs. discriminate.
Qed.

(** ** Cell references name one position *)

Lemma column_step_bounds (col : Z) :
  0 < col ->
  1 <= last_letter col <= 26
  /\ 0 <= leading_index col < col
  /\ col = 26 * leading_index col + last_letter col.
Proof.
  intros Hcol. unfold last_letter, leading_index.
  pose proof (Z.mod_pos_bound col 26 ltac:(lia)) as Hmod.
  pose proof (Z.div_mod col 26 ltac:(lia)) as Hdiv.
  case_bool_decide; lia.
Qed.

Lemma column_letters_unfold (fuel : nat) (col : Z) (acc : list ascii) :
  0 < col ->
  column_letters (S fuel) col acc
  = column_letters fuel (leading_index col)
      (ascii_of_nat (Z.to_nat (last_letter col + 64)) :: acc).
Proof.
  intros Hcol. cbn [column_letters]. unfold last_letter, leading_index.
  rewrite bool_decide_eq_true_2 by lia. by case_bool_decide.
Qed.

Lemma column_letters_nonpositive (fuel : nat) (col : Z) (acc : list ascii) :
  col <= 0 -> column_letters fuel col acc = acc.
Proof.
  intros Hcol. destruct fuel; [reflexivity |]. cbn [column_letters].
  by rewrite bool_decide_eq_false_2 by lia.
Qed.

Lemma column_letters_acc (n : nat) :
  forall (col : Z) (fuel1 fuel2 : nat) (acc : list ascii),
    (Z.to_nat col <= n)%nat ->
    (Z.to_nat col <= fuel1)%nat -> (Z.to_nat col <= fuel2)%nat ->
    column_letters fuel1 col acc = column_letters fuel2 col [] ++ acc.
Proof.
  induction n as [| n IH]; intros col fuel1 fuel2 acc Hn H1 H2.
  - rewrite !column_letters_nonpositive by lia. reflexivity.
  - destruct (decide (col <= 0)) as [Hle | Hpos].
    { rewrite !column_letters_nonpositive by lia. reflexivity. }
    destruct fuel1 as [| fuel1]; [lia |]. destruct fuel2 as [| fuel2]; [lia |].
    rewrite !column_letters_unfold by lia.
    destruct (column_step_bounds col ltac:(lia)) as (_ & Hlead & _).
    rewrite (IH _ fuel1 fuel2 (_ :: acc)) by lia.
    rewrite (IH _ fuel2 fuel2 [_]) by lia.
    by rewrite <- app_assoc.
Qed.

Lemma letters_of_step (col : Z) :
  0 < col ->
  letters_of col
  = letters_of (leading_index col)
      ++ [ascii_of_nat (Z.to_nat (last_letter col + 64))].
Proof.
  intros Hcol. unfold letters_of.
  destruct (column_step_bounds col Hcol) as (_ & Hlead & _).
  destruct (Z.to_nat col) as [| fuel] eqn:Hfuel; [lia |].
  rewrite column_letters_unfold by lia.
  apply (column_letters_acc fuel); lia.
Qed.

Lemma letters_of_zero (col : Z) : col <= 0 -> letters_of col = [].
Proof. intros Hcol. by apply column_letters_nonpositive. Qed.

Lemma last_letter_code (d : Z) :
  1 <= d <= 26 -> nat_of_ascii (ascii_of_nat (Z.to_nat (d + 64))) = Z.to_nat (d + 64).
Proof. intros Hd. apply nat_ascii_embedding. lia. Qed.

Lemma letters_of_inj (n : nat) :
  forall a b : Z,
    (Z.to_nat a <= n)%nat -> 0 <= a -> 0 <= b ->
    letters_of a = letters_of b -> a = b.
Proof.
  induction n as [| n IH]; intros a b Hn Ha Hb Heq.
  - assert (a = 0) as -> by lia. rewrite letters_of_zero in Heq by lia.
    destruct (decide (b = 0)) as [| Hne]; [done |].
    rewrite letters_of_step in Heq by lia. by destruct (letters_of _).
  - destruct (decide (a = 0)) as [-> | Hane].
    { rewrite letters_of_zero in Heq by lia.
      destruct (decide (b = 0)) as [| Hne]; [done |].
      rewrite letters_of_step in Heq by lia. by destruct (letters_of _). }
    destruct (decide (b = 0)) as [-> | Hbne].
    { rewrite (letters_of_zero 0) in Heq by lia.
      rewrite letters_of_step in Heq by lia. by destruct (letters_of _). }
    rewrite (letters_of_step a), (letters_of_step b) in Heq by lia.
    apply app_inj_tail in Heq. destruct Heq as [Hlead Hlast].
    destruct (column_step_bounds a ltac:(lia)) as (Hda & Hla & Hea).
    destruct (column_step_bounds b ltac:(lia)) as (Hdb & Hlb & Heb).
    apply IH in Hlead; [| lia ..].
    apply (f_equal nat_of_ascii) in Hlast.
    rewrite !last_letter_code in Hlast by lia. lia.
Qed.

Lemma letters_of_letters (n : nat) :
  forall col : Z, (Z.to_nat col <= n)%nat -> Forall is_letter (letters_of col).
Proof.
  induction n as [| n IH]; intros col Hn.
  - rewrite letters_of_zero by lia. constructor.
  - destruct (decide (col <= 0)) as [Hle | Hpos].
    { rewrite letters_of_zero by lia. constructor. }
    rewrite letters_of_step by lia.
    destruct (column_step_bounds col ltac:(lia)) as (Hd & Hl & _).
    apply Forall_app. split; [apply IH; lia |].
    constructor; [| constructor]. unfold is_letter.
    rewrite last_letter_code by lia. lia.
Qed.

Lemma digit_char_not_letter (x : N) : ~ is_letter (pretty_N_char x).
Proof.
  unfold is_letter, pretty_N_char.
  repeat case_match;
    match goal with
    | |- context [nat_of_ascii ?c] =>
        let code := eval vm_compute in (nat_of_ascii c) in
        change (nat_of_ascii c) with code
    end; lia.
Qed.

Lemma pretty_N_go_starts (x : N) :
  forall s : string,
    starts_without_letter s -> starts_without_letter (pretty_N_go x s).
Proof.
  induction (N.lt_wf_0 x) as [x _ IH]. intros s Hs.
  destruct (decide (x = 0)%N) as [-> | Hne].
  - by rewrite pretty_N_go_0.
  - rewrite pretty_N_go_step by lia. apply IH.
    + apply N.div_lt; lia.
    + cbn. apply digit_char_not_letter.
Qed.

Lemma str_int_starts (row : Z) : starts_without_letter (str_int row).
Proof.
  unfold str_int, pretty, pretty_Z.
  destruct row as [| p | p].
  - cbn. unfold is_letter. change (nat_of_ascii "0") with 48%nat. lia.
  - unfold pretty, pretty_positive, pretty, pretty_N.
    case_decide; [done |]. by apply pretty_N_go_starts.
  - change (~ is_letter "-"). unfold is_letter.
    change (nat_of_ascii "-") with 45%nat. lia.
Qed.

Lemma append_empty (s : string) : "" +:+ s = s.
Proof. reflexivity. Qed.

Lemma append_String (c : ascii) (s t : string) :
  String c s +:+ t = String c (s +:+ t).
Proof. reflexivity. Qed.

Lemma letters_then_rest (l1 l2 : list ascii) (s1 s2 : string) :
  Forall is_letter l1 -> Forall is_letter l2 ->
  starts_without_letter s1 -> starts_without_letter s2 ->
  string_of_list_ascii l1 +:+ s1 = string_of_list_ascii l2 +:+ s2 ->
  l1 = l2 /\ s1 = s2.
Proof.
  intros H1. revert l2. induction H1 as [| c1 l1 Hc1 _ IH];
    intros l2 H2 Hs1 Hs2 Heq; destruct H2 as [| c2 l2 Hc2 H2]; cbn in Heq;
    rewrite ?append_empty, ?append_String in Heq.
  - by split.
  - subst s1. cbn in Hs1. contradiction.
  - subst s2. cbn in Hs2. contradiction.
  - injection Heq as -> Heq. destruct (IH l2 H2 Hs1 Hs2 Heq) as [-> ->].
    by split.
Qed.

Lemma cell_reference_inj (col1 row1 col2 row2 : Z) :
  0 <= col1 -> 0 <= col2 ->
  cell_reference (row1, col1) = cell_reference (row2, col2) ->
  col1 = col2 /\ row1 = row2.
Proof.
  intros Hc1 Hc2 Heq. unfold cell_reference, column_name in Heq.
  cbn [fst snd] in Heq.
  fold (letters_of col1) in Heq. fold (letters_of col2) in Heq.
  apply letters_then_rest in Heq.
  - destruct Heq as [Hl Hr]. split.
    + by apply (letters_of_inj (Z.to_nat col1)).
    + by apply (inj pretty).
  - by apply (letters_of_letters (Z.to_nat col1)).
  - by apply (letters_of_letters (Z.to_nat col2)).
  - apply str_int_starts.
  - apply str_int_starts.
Qed.

(** ** Formula comparator *)

Lemma NoDup_cell_positions (rows cols : Z) : NoDup (cell_positions rows cols).
Proof.
  unfold cell_positions. apply NoDup_bind.
  - intros r1 r2 p _ _ H1 H2.
    apply list_elem_of_fmap in H1, H2.
    destruct H1 as (c1 & -> & _), H2 as (c2 & [= -> _] & _). reflexivity.
  - intros r _. apply NoDup_fmap_2; [| apply NoDup_seqZ].
    by intros c1 c2 [= ->].
  - apply NoDup_seqZ.
Qed.

Lemma filter_none {A : Type} (P : A -> Prop) `{forall a, Decision (P a)}
    (l : list A) :
  (forall a, a ∈ l -> ~ P a) -> filter P l = [].
Proof.
  induction l as [| a l IH]; intros Hnone; [reflexivity |].
  rewrite filter_cons, decide_False by (apply Hnone, list_elem_of_here).
  apply IH. intros b Hb. by apply Hnone, list_elem_of_further.
Qed.

Lemma filter_unique {A : Type} (P : A -> Prop) `{forall a, Decision (P a)}
    (l : list A) (x : A) :
  NoDup l -> x ∈ l -> (forall a, a ∈ l -> P a <-> a = x) -> filter P l = [x].
Proof.
  induction l as [| a l IH]; intros Hnodup Hin Hiff.
  - by apply not_elem_of_nil in Hin.
  - apply NoDup_cons in Hnodup. destruct Hnodup as [Hnotin Hnodup].
    rewrite filter_cons. destruct (decide (P a)) as [Hpa | Hnpa].
    + assert (a = x) as -> by (by apply Hiff; [apply list_elem_of_here |]).
      f_equal. apply filter_none. intros b Hb Hpb.
      apply Hiff in Hpb; [| by apply list_elem_of_further]. congruence.
    + apply IH; [exact Hnodup | |].
      * apply elem_of_cons in Hin. destruct Hin as [-> | Hin]; [| exact Hin].
        exfalso. apply Hnpa. by apply Hiff; [apply list_elem_of_here |].
      * intros b Hb. by apply Hiff, list_elem_of_further.
Qed.

Lemma errors_formulas_result (d : pydict (list string)) :
  errors (formulas_result d) = d.
Proof. by destruct d. Qed.

Lemma status_formulas_result (d : pydict (list string)) :
  status (formulas_result d) = "Error" <-> d <> [].
Proof. destruct d; cbn; split; congruence. Qed.

Lemma difference_key_Some (sheet1 sheet2 : Worksheet) (p : Z * Z) (k : string) :
  difference_key sheet1 sheet2 p = Some k
  <-> formulas_differ sheet1 sheet2 p.1 p.2 /\ cell_reference p = k.
Proof.
  unfold difference_key, formulas_differ, is_formula, scalar_eq.
  destruct (value (cell sheet1 p.1 p.2)) as [| b1 | n1 | f1];
    destruct (value (cell sheet2 p.1 p.2)) as [| b2 | n2 | f2]; cbn;
    try (split; [discriminate | by intros [(? & ? & ? & ? & _) _]]).
  - destruct (startswith f1 "=") eqn:H1; cbn;
      try (split; [discriminate | by intros [(? & ? & ? & ? & _) _]]).
  - destruct (startswith f1 "=") eqn:H1; cbn;
      try (split; [discriminate | by intros [(? & ? & ? & ? & _) _]]).
  - destruct (startswith f1 "=") eqn:H1; cbn;
      try (split; [discriminate | by intros [(? & ? & ? & ? & _) _]]).
  - destruct (startswith f1 "=") eqn:H1; destruct (startswith f2 "=") eqn:H2;
      cbn;
      try (split; [discriminate
                  | intros [(g1 & g2 & [= <-] & [= <-] & ? & ? & _) _];
                    congruence]).
    case_bool_decide as Heq; cbn.
    + split; [discriminate |].
      intros [(g1 & g2 & [= <-] & [= <-] & _ & _ & Hne) _]. congruence.
    + split.
      * intros [= <-]. split; [| reflexivity]. exists f1, f2. by repeat split.
      * by intros [_ ->].
Qed.

(** C7: for two sheets of equal nominal (rows, columns) and without a
    column beyond 18278, the last one that has a name, the comparator records
    an entry for a cell position, under the key made of its column letters
    and row number, exactly when both cells hold text beginning with '=' and
    the two texts differ: the entry is then the one message of that position,
    and a position where this is not so (a literal against a formula, or
    equal formulas) has no entry. Every key is the reference of a position
    within the nominal extents, and the status is "Error" exactly when some
    position has differing formulas. *)
Theorem compare_formulas_reports_differing_formulas (sheet1 sheet2 : Worksheet) :
  max_row sheet1 = max_row sheet2 -> max_column sheet1 = max_column sheet2 ->
  max_column sheet1 <= 18278 ->
  exists r,
    compare_formulas (PWorksheet sheet1) (PWorksheet sheet2) = inr r
    /\ (forall row col,
          1 <= row <= max_row sheet1 -> 1 <= col <= max_column sheet1 ->
          (formulas_differ sheet1 sheet2 row col ->
           dict_get (cell_reference (row, col)) (errors r)
           = Some [difference_message sheet1 sheet2 (row, col)])
          /\ (~ formulas_differ sheet1 sheet2 row col ->
              dict_get (cell_reference (row, col)) (errors r) = None))
    /\ (forall key details,
          dict_get key (errors r) = Some details ->
          exists row col,
            1 <= row <= max_row sheet1 /\ 1 <= col <= max_column sheet1
            /\ key = cell_reference (row, col))
    /\ (status r = "Error"
        <-> exists row col,
              1 <= row <= max_row sheet1 /\ 1 <= col <= max_column sheet1
              /\ formulas_differ sheet1 sheet2 row col).
Proof.
  intros Hrows Hcols Hbound. exists (formulas_result (differing sheet1 sheet2)).
  split; [by apply formulas_compared_returns |].
  rewrite errors_formulas_result, status_formulas_result. unfold differing.
  split; [| split].
  - intros row col Hrow Hcol.
    rewrite dict_get_loop. cbn [dict_get]. unfold values_under.
    assert (Hhere : (row, col)
                      ∈ cell_positions (max_row sheet1) (max_column sheet1))
      by (by apply elem_of_cell_positions).
    assert (Hsame : forall p,
              p ∈ cell_positions (max_row sheet1) (max_column sheet1) ->
              cell_reference p = cell_reference (row, col) -> p = (row, col)).
    { intros [row' col'] Hin Href. apply elem_of_cell_positions in Hin.
      apply cell_reference_inj in Href; [| lia ..]. by destruct Href as [-> ->]. }
    split.
    + intros Hdiffer. rewrite (filter_unique _ _ (row, col)).
      * reflexivity.
      * apply NoDup_cell_positions.
      * exact Hhere.
      * intros p Hin. rewrite difference_key_Some. split.
        -- intros [_ Href]. by apply Hsame.
        -- intros ->. by split.
    + intros Hsameformula. rewrite filter_none; [reflexivity |].
      intros p Hin Hkey. apply difference_key_Some in Hkey.
      destruct Hkey as [Hdiffer Href]. apply Hsame in Href; [| exact Hin].
      subst p. by apply Hsameformula.
  - intros key details. rewrite dict_get_loop. cbn [dict_get].
    unfold values_under.
    destruct (filter _ _) as [| [row col] rest] eqn:Hfilter; [discriminate |].
    intros _.
    assert (Hin : (row, col)
                    ∈ filter (fun a => difference_key sheet1 sheet2 a = Some key)
                        (cell_positions (max_row sheet1) (max_column sheet1)))
      by (rewrite Hfilter; apply list_elem_of_here).
    apply list_elem_of_filter in Hin. destruct Hin as [Hkey Hin].
    apply elem_of_cell_positions in Hin. apply difference_key_Some in Hkey.
    destruct Hkey as [_ <-]. exists row, col. by repeat split; try lia.
  - rewrite loop_not_nil.
    split.
    + intros [H | ([row col] & key & Hin & Hkey)]; [congruence |].
      apply elem_of_cell_positions in Hin. apply difference_key_Some in Hkey.
      exists row, col. tauto.
    + intros (row & col & Hrow & Hcol & Hdiffer). right.
      exists (row, col), (cell_reference (row, col)). split.
      * by apply elem_of_cell_positions.
      * by apply difference_key_Some.
Qed.

Lemma compare_formulas_reports_differing_formulas_witness :
  exists r,
    compare_formulas (PWorksheet (formula_sheet "Template" "=A1+1"))
                     (PWorksheet (formula_sheet "Company" "=A1+2")) = inr r
    /\ dict_get "A1" (errors r)
       = Some ["Template!A1 (=A1+1) != Company!A1 (=A1+2)"]
    /\ status r = "Error".
Proof.
  destruct (compare_formulas_reports_differing_formulas
              (formula_sheet "Template" "=A1+1")
              (formula_sheet "Company" "=A1+2") eq_refl eq_refl
              ltac:(simpl; lia))
    as (r & Hr & Hentries & _ & Hstatus).
  assert (Hdiffer : formulas_differ (formula_sheet "Template" "=A1+1")
                      (formula_sheet "Company" "=A1+2") 1 1).
  { exists "=A1+1", "=A1+2". repeat split; try reflexivity. discriminate. }
  exists r. split; [exact Hr |]. split.
  - apply (Hentries 1 1); [simpl; lia | simpl; lia | exact Hdiffer].
  - apply Hstatus. exists 1, 1. repeat split; try (simpl; lia). exact Hdiffer.
Defined.

(** C7 as stated fails on two sheets of one row and 18279 columns whose
    formulas differ in the last cell: no entry is recorded, because the call
    raises the ValueError of [get_column_letter] and returns no result. *)
Lemma compare_formulas_wide_sheets_counterexample :
  max_row wide_template_sheet = max_row wide_company_sheet
  /\ max_column wide_template_sheet = max_column wide_company_sheet
  /\ formulas_differ wide_template_sheet wide_company_sheet 1 18279
  /\ compare_formulas (PWorksheet wide_template_sheet)
       (PWorksheet wide_company_sheet)
     = inl (ValueError "Invalid column index 18279").
Proof.
  split; [reflexivity |]. split; [reflexivity |]. split.
  - exists "=A1+1", "=A1+2". repeat split; try reflexivity. discriminate.
  - vm_compute. reflexivity.
Qed.

(** ** Structure comparator: header comparison *)

Lemma zip_nil_r {A B : Type} (l : list A) : zip l ([] : list B) = [].
Proof. by destruct l. Qed.

Lemma diff_headers_from (f1 f2 : Z -> scalar) (fuel : nat) :
  forall start n1 n2 : Z,
    (Z.to_nat n1 <= fuel)%nat ->
    filter (fun '(_, (h1, h2)) => scalar_eq h1 h2 = false)
      (enumerate_from start (zip (f1 <$> seqZ start n1) (f2 <$> seqZ start n2)))
    = (fun c => (c, (f1 c, f2 c)))
        <$> filter (fun c => scalar_eq (f1 c) (f2 c) = false)
              (seqZ start (Z.min n1 n2)).
Proof.
  induction fuel as [| fuel IH]; intros start n1 n2 Hfuel.
  - rewrite (seqZ_nil start n1), (seqZ_nil start (Z.min n1 n2)) by lia.
    reflexivity.
  - destruct (decide (n1 <= 0)) as [Hn1 | Hn1].
    { rewrite (seqZ_nil start n1), (seqZ_nil start (Z.min n1 n2)) by lia.
      reflexivity. }
    destruct (decide (n2 <= 0)) as [Hn2 | Hn2].
    { rewrite (seqZ_nil start n2), (seqZ_nil start (Z.min n1 n2)) by lia.
      cbn. by rewrite zip_nil_r. }
    rewrite (seqZ_cons start n1), (seqZ_cons start n2),
      (seqZ_cons start (Z.min n1 n2)) by lia.
    replace (Z.pred (Z.min n1 n2)) with (Z.min (Z.pred n1) (Z.pred n2)) by lia.
    cbn [fmap list_fmap zip zip_with enumerate_from].
    rewrite !filter_cons. replace (start + 1) with (Z.succ start) by lia.
    rewrite IH by lia.
    repeat case_decide; try reflexivity; exfalso; cbn in *; congruence.
Qed.

Lemma diff_headers_columns (sheet1 sheet2 : Worksheet) (header_row cols1 cols2 : Z) :
  diff_headers (header_values sheet1 header_row cols1)
               (header_values sheet2 header_row cols2)
  = (fun c => (c, (value (cell sheet1 header_row c),
                   value (cell sheet2 header_row c))))
      <$> filter (fun c => scalar_eq (value (cell sheet1 header_row c))
                                     (value (cell sheet2 header_row c)) = false)
            (range 1 (Z.min cols1 cols2 + 1)).
Proof.
  unfold diff_headers, header_values, range.
  rewrite (diff_headers_from
             (fun c => value (cell sheet1 header_row c))
             (fun c => value (cell sheet2 header_row c))
             (Z.to_nat (cols1 + 1 - 1))) by lia.
  by replace (Z.min (cols1 + 1 - 1) (cols2 + 1 - 1))
    with (Z.min cols1 cols2 + 1 - 1) by lia.
Qed.

Lemma list_eq_diff_headers (header1 header2 : list scalar) :
  list_eq header1 header2 = true -> diff_headers header1 header2 = [].
Proof.
  unfold diff_headers. generalize 1.
  revert header2. induction header1 as [| a header1 IH];
    intros [| b header2] start Heq; try reflexivity; try discriminate.
  cbn in Heq. apply andb_true_iff in Heq. destruct Heq as [Hab Hrest].
  cbn [zip zip_with enumerate_from]. rewrite filter_cons.
  case_decide as Hne; [cbn in Hne; congruence |]. by apply IH.
Qed.

Lemma list_eq_length (header1 header2 : list scalar) :
  list_eq header1 header2 = true -> length header1 = length header2.
Proof.
  revert header2. induction header1 as [| a header1 IH];
    intros [| b header2] Heq; try reflexivity; try discriminate.
  cbn in Heq. apply andb_true_iff in Heq. destruct Heq as [_ Hrest].
  cbn. f_equal. by apply IH.
Qed.

Lemma length_header_values (sheet : Worksheet) (header_row cols : Z) :
  length (header_values sheet header_row cols) = Z.to_nat cols.
Proof.
  unfold header_values, range. rewrite length_fmap, length_seqZ. lia.
Qed.

Lemma dict_get_append_other {V : Type} (k k' : string) (v : V)
    (d : pydict (list V)) :
  k <> k' -> dict_get k (dict_append k' v d) = dict_get k d.
Proof.
  intros Hne. unfold dict_append. rewrite dict_get_extend.
  by rewrite decide_False.
Qed.

(** C10: with [header_row_number > 0] each header is read over the used
    columns of its own sheet, and the two are compared only at the columns
    both have: the "Header Mismatch" entries are the messages of the columns
    from 1 to the smaller used-column count whose two header values differ,
    in order, and there is no such key when none differs. A column beyond the
    shorter header never yields an entry, although the two header sequences
    are unequal whenever the used-column counts differ. *)
Theorem check_sheet_structure_header_columns
    (sheet1 sheet2 : Worksheet) (header_row_number : Z) :
  header_row_number > 0 ->
  exists r,
    check_sheet_structure (PWorksheet sheet1) (PWorksheet sheet2)
      header_row_number = inr r
    /\ let cols1 := last_used_column (used_area sheet1) in
       let cols2 := last_used_column (used_area sheet2) in
       let h1 := fun c => value (cell sheet1 header_row_number c) in
       let h2 := fun c => value (cell sheet2 header_row_number c) in
       let mismatches :=
         filter (fun c => scalar_eq (h1 c) (h2 c) = false)
                (range 1 (Z.min cols1 cols2 + 1)) in
       dict_get "Header Mismatch" (errors r)
       = (if nonempty mismatches
          then Some ((fun c => header_mismatch_message (c, (h1 c, h2 c)))
                       <$> mismatches)
          else None)
       /\ (Z.max 0 cols1 <> Z.max 0 cols2 ->
           list_eq (header_values sheet1 header_row_number cols1)
                   (header_values sheet2 header_row_number cols2) = false).
Proof.
  intros Hrow. eexists. split; [reflexivity |]. cbv zeta. split.
  - unfold sheet_structure.
    rewrite (bool_decide_eq_true_2 (header_row_number > 0)) by exact Hrow.
    pose proof (diff_headers_columns sheet1 sheet2 header_row_number
                  (last_used_column (used_area sheet1))
                  (last_used_column (used_area sheet2))) as Hdiff.
    pose proof (list_eq_diff_headers
                  (header_values sheet1 header_row_number
                     (last_used_column (used_area sheet1)))
                  (header_values sheet2 header_row_number
                     (last_used_column (used_area sheet2)))) as Hequal.
    rewrite Hdiff in Hequal. rewrite Hdiff. clear Hdiff.
    set (mismatches :=
           filter (fun c => scalar_eq (value (cell sheet1 header_row_number c))
                              (value (cell sheet2 header_row_number c)) = false)
                  (range 1 (Z.min (last_used_column (used_area sheet1))
                                  (last_used_column (used_area sheet2)) + 1)))
      in *.
    match goal with
    | |- context [dict_extend "Header Mismatch" _ ?e] => set (shape_errors := e)
    end.
    assert (Hshape : dict_get "Header Mismatch" shape_errors = None).
    { subst shape_errors.
      repeat match goal with
             | |- context [if ?b then _ else _] => destruct b
             end;
        rewrite ?dict_get_append_other by discriminate; reflexivity. }
    rewrite <- list_fmap_compose.
    destruct (list_eq _ _) eqn:Hlist; cbn [negb].
    + rewrite (fmap_nil_inv _ _ (Hequal eq_refl)). cbn [nonempty].
      destruct shape_errors; cbn [nonempty errors]; [reflexivity | exact Hshape].
    + destruct mismatches as [| c rest]; cbn [fmap list_fmap nonempty].
      * destruct shape_errors; cbn [nonempty errors]; [reflexivity | exact Hshape].
      * match goal with
        | |- context [nonempty ?e] =>
            destruct e as [| entry more] eqn:He;
              [by apply dict_extend_not_nil in He |]
        end.
        cbn [nonempty errors]. rewrite <- He, dict_get_extend.
        rewrite decide_True by reflexivity. by rewrite Hshape.
  - intros Hcols. destruct (list_eq _ _) eqn:Hlist; [| reflexivity].
    apply list_eq_length in Hlist. rewrite !length_header_values in Hlist. lia.
Qed.

Lemma check_sheet_structure_header_columns_witness :
  exists r,
    check_sheet_structure (PWorksheet three_column_sheet)
      (PWorksheet two_column_sheet) 1 = inr r
    /\ dict_get "Header Mismatch" (errors r) = None
    /\ list_eq (header_values three_column_sheet 1 3)
               (header_values two_column_sheet 1 2) = false.
Proof.
  destruct (check_sheet_structure_header_columns
              three_column_sheet two_column_sheet 1 ltac:(lia))
    as (r & Hr & Hentries & Hunequal).
  exists r. split; [exact Hr |]. split.
  - exact Hentries.
  - apply Hunequal. vm_compute. discriminate.
Defined.

(** ** Orchestrators over the common sheets *)

Lemma common_sheetnames_nil (template company : Workbook) :
  (forall name, name ∈ sheetnames template -> name ∉ sheetnames company) ->
  common_sheetnames template company = [].
Proof.
  intros Hdisjoint. unfold common_sheetnames.
  apply elements_empty_iff, elem_of_equiv_empty. intros name.
  rewrite elem_of_intersection, !elem_of_list_to_set.
  intros [H1 H2]. by apply (Hdisjoint name).
Qed.

(** Without a common sheet the shape orchestrator returns an empty frame and
    the formula orchestrator raises from [pd.concat]. *)
Lemma orchestrators_without_common_sheets (template company : Workbook) :
  (forall name, name ∈ sheetnames template -> name ∉ sheetnames company) ->
  forall drawn,
    find_shape_differences (PWorkbook template) (PWorkbook company) drawn
    = (inr [], drawn)
    /\ find_formula_differences (PWorkbook template) (PWorkbook company) drawn
       = (inl (ValueError "No objects to concatenate"), drawn).
Proof.
  intros Hdisjoint drawn.
  unfold find_shape_differences, find_formula_differences.
  rewrite (common_sheetnames_nil _ _ Hdisjoint). split; reflexivity.
Qed.

(** C3 at two workbooks with no common sheet name, one holding sheet "A" and
    the other sheet "B": [find_shape_differences] returns an empty frame, but
    [find_formula_differences] raises the ValueError of [pd.concat] on an
    empty list instead of returning an empty frame. *)
Theorem find_formula_differences_no_common_sheets :
  forall drawn,
    find_shape_differences (PWorkbook workbook_A) (PWorkbook workbook_B) drawn
    = (inr [], drawn)
    /\ find_formula_differences (PWorkbook workbook_A) (PWorkbook workbook_B) drawn
       = (inl (ValueError "No objects to concatenate"), drawn).
Proof.
  apply orchestrators_without_common_sheets.
  intros name Ha Hb. cbn in Ha, Hb.
  apply list_elem_of_singleton in Ha, Hb. congruence.
Qed.

(** ** Event normalizers: argument validation *)

Lemma raise_at_once {A : Type} (e : exn) : raises_at_once (@raise A e).
Proof. intros drawn. by exists e. Qed.

Lemma for_each_first_raises {A B : Type} (body : A -> M B) (x : A)
    (rest : list A) :
  raises_at_once (body x) -> raises_at_once (for_each body (x :: rest)).
Proof.
  intros Hraise drawn. destruct (Hraise drawn) as (e & He). exists e.
  cbn [for_each]. unfold mbind, M_bind, bind. by rewrite He.
Qed.

Lemma not_all_truthy (a b c d : pyobj) :
  truthy a && truthy b && truthy c && truthy d = false ->
  forallb truthy [a; d; b; c] = false.
Proof. cbn. by destruct (truthy a), (truthy b), (truthy c), (truthy d). Qed.

Lemma some_is_none (a b c d : pyobj) :
  a = PNone \/ b = PNone \/ c = PNone \/ d = PNone ->
  existsb is_none [a; b; c; d] = true.
Proof.
  intros [-> | [-> | [-> | ->]]]; cbn; rewrite ?orb_true_r; reflexivity.
Qed.

Lemma missing_sheet_row_bad_context (sheet a b c : pyobj) :
  nonempty_str a && nonempty_str b && nonempty_str c = false ->
  raises_at_once (create_missing_sheet_row sheet (PMissingSheetContext a b c)).
Proof.
  unfold nonempty_str, create_missing_sheet_row. intros Hbad.
  destruct (negb (is_str sheet) || negb (truthy sheet));
    [apply raise_at_once |].
  destruct (is_str a), (truthy a); cbn [negb orb]; try apply raise_at_once.
  destruct (is_str b), (truthy b); cbn [negb orb]; try apply raise_at_once.
  destruct (is_str c), (truthy c); cbn [negb orb]; try apply raise_at_once.
  discriminate.
Qed.

(** C4, as the code has it: each event normalizer raises, before any event
    identifier is drawn, when its input_data is not a mapping or when its
    context is not of its own tuple type. Beyond that, the
    structure-discrepancy normalizer raises when a context field is an empty
    string, None or otherwise falsy; the formula-error normalizer raises when
    a context field is None; and the missing-sheet normalizer raises on a
    context field that is empty or not a string as soon as one missing sheet
    is listed. *)
Theorem event_normalizers_validate_arguments :
  (forall input_data context,
      (forall entries, input_data <> PDict entries) ->
      raises_at_once (create_dataframe_missing_sheets input_data context)
      /\ raises_at_once (create_dataframe_formula_errors input_data context)
      /\ raises_at_once
           (create_dataframe_structure_discrepancies input_data context))
  /\ (forall input_data context,
        ((forall a b c, context <> PMissingSheetContext a b c) ->
         raises_at_once (create_dataframe_missing_sheets input_data context))
        /\ ((forall a b c d, context <> PFormulaErrorSheetContext a b c d) ->
            raises_at_once (create_dataframe_formula_errors input_data context))
        /\ ((forall a b c d, context <> PStructureDiscrepancyContext a b c d) ->
            raises_at_once
              (create_dataframe_structure_discrepancies input_data context)))
  /\ (forall input_data rule_cd sheet_cd error_category error_severity_cd,
        truthy rule_cd && truthy sheet_cd && truthy error_category
          && truthy error_severity_cd = false ->
        raises_at_once
          (create_dataframe_structure_discrepancies input_data
             (PStructureDiscrepancyContext rule_cd sheet_cd error_category
                error_severity_cd)))
  /\ (forall input_data rule_cd sheet_cd error_category error_severity_cd,
        rule_cd = PNone \/ sheet_cd = PNone \/ error_category = PNone
          \/ error_severity_cd = PNone ->
        raises_at_once
          (create_dataframe_formula_errors input_data
             (PFormulaErrorSheetContext rule_cd sheet_cd error_category
                error_severity_cd)))
  /\ (forall entries errs sheet rest rule_cd error_category error_severity_cd,
        dict_get "errors" entries = Some (PDict errs) ->
        dict_get "Missing In Spreadsheet 2" errs = Some (PList (sheet :: rest)) ->
        nonempty_str rule_cd && nonempty_str error_category
          && nonempty_str error_severity_cd = false ->
        raises_at_once
          (create_dataframe_missing_sheets (PDict entries)
             (PMissingSheetContext rule_cd error_category error_severity_cd))).
Proof.
  split; [| split; [| split; [| split]]].
  - intros input_data context Hnotdict.
    destruct input_data; try (by exfalso; eapply Hnotdict);
      (split; [apply raise_at_once | split; [| apply raise_at_once]]);
      intros drawn; eexists; reflexivity.
  - intros input_data context. split; [| split].
    + intros Hctx. unfold create_dataframe_missing_sheets.
      destruct input_data; try apply raise_at_once.
      destruct context; try apply raise_at_once. by exfalso; eapply Hctx.
    + intros Hctx drawn. unfold create_dataframe_formula_errors.
      destruct input_data; try (eexists; reflexivity).
      destruct context; try (eexists; reflexivity). by exfalso; eapply Hctx.
    + intros Hctx. unfold create_dataframe_structure_discrepancies.
      destruct input_data; try apply raise_at_once.
      destruct context; try apply raise_at_once. by exfalso; eapply Hctx.
  - intros input_data a b c d Hfalsy.
    unfold create_dataframe_structure_discrepancies.
    destruct input_data; try apply raise_at_once.
    destruct (dict_get "errors" entries) as [[] |]; try apply raise_at_once.
    rewrite (not_all_truthy a b c d Hfalsy). apply raise_at_once.
  - intros input_data a b c d Hnone drawn.
    unfold create_dataframe_formula_errors.
    destruct input_data; try (eexists; reflexivity).
    unfold mbind, M_bind, bind, validate_input_data.
    rewrite (some_is_none a b c d Hnone). eexists; reflexivity.
  - intros entries errs sheet rest a b c Herrors Hmissing Hbad.
    unfold create_dataframe_missing_sheets. rewrite Herrors. cbn [from_option id].
    rewrite Hmissing. cbn [from_option id]. apply for_each_first_raises.
    destruct (negb (is_str sheet) || negb (truthy sheet));
      [apply raise_at_once |].
    by apply missing_sheet_row_bad_context.
Qed.

(** C4 as stated fails for the formula-error normalizer: with an empty
    [Rule_Cd] it still emits the event of the listed cell. The missing-sheet
    normalizer likewise accepts an empty [Rule_Cd] when no sheet is missing. *)
Lemma event_normalizers_counterexample :
  (exists event,
      create_dataframe_formula_errors
        (PDict [("errors", PDict [("#DIV/0!", PList [PStr "B3"])])])
        (PFormulaErrorSheetContext (PStr "") (PStr "Sheet1")
           (PStr "Formula Error") (PStr "hard")) 0%nat
      = (inr [event], 1%nat)
      /\ Rule_Cd event = PStr "")
  /\ create_dataframe_missing_sheets
       (PDict [("errors", PDict [])])
       (PMissingSheetContext (PStr "") (PStr "Missing Sheet") (PStr "soft")) 0%nat
     = (inr [], 0%nat).
Proof.
  split; [| reflexivity]. eexists. split; reflexivity.
Qed.

(** ** Duplicate-description check *)

Module DuplicateDescriptionFacts.
Import DuplicateDescription.

Lemma elem_of_descriptions (rs : list MeasureRecord) (d : string) :
  d ∈ descriptions rs <-> exists r, r ∈ rs /\ Measure_Desc r = d.
Proof.
  induction rs as [| r rs IH]; cbn [descriptions].
  - split; [by intros H%not_elem_of_nil |].
    by intros (r & H%not_elem_of_nil & _).
  - rewrite elem_of_cons, list_elem_of_filter, IH. split.
    + intros [-> | [_ (r' & Hin & Hd)]].
      * exists r. split; [apply list_elem_of_here | reflexivity].
      * exists r'. split; [by apply list_elem_of_further | exact Hd].
    + intros (r' & Hin & Hd).
      destruct (decide (d = Measure_Desc r)) as [| Hne]; [by left |].
      right. split; [exact Hne |].
      apply elem_of_cons in Hin. destruct Hin as [-> | Hin]; [congruence |].
      by exists r'.
Qed.

Lemma NoDup_descriptions (rs : list MeasureRecord) : NoDup (descriptions rs).
Proof.
  induction rs as [| r rs IH]; cbn [descriptions]; [constructor |].
  apply NoDup_cons. split.
  - rewrite list_elem_of_filter. by intros [Hne _].
  - by apply NoDup_filter.
Qed.

Lemma elem_of_group (rs : list MeasureRecord) (d : string) (r : MeasureRecord) :
  r ∈ group d rs <-> Measure_Desc r = d /\ r ∈ rs.
Proof. unfold group. by rewrite list_elem_of_filter. Qed.

(** More than one distinct code: two records with different codes. *)
Lemma has_several_codes_spec (rs : list MeasureRecord) :
  has_several_codes rs = true
  <-> exists r1 r2, r1 ∈ rs /\ r2 ∈ rs /\ Measure_Cd r1 <> Measure_Cd r2.
Proof.
  unfold has_several_codes, distinct_codes. rewrite bool_decide_eq_true.
  pose proof (NoDup_remove_dups (Measure_Cd <$> rs)) as Hnodup.
  assert (Hmem : forall c, c ∈ remove_dups (Measure_Cd <$> rs)
                           <-> exists r, r ∈ rs /\ Measure_Cd r = c).
  { intros c. rewrite elem_of_remove_dups, list_elem_of_fmap. split.
    - intros (r & -> & Hin). by exists r.
    - intros (r & Hin & <-). by exists r. }
  destruct (remove_dups (Measure_Cd <$> rs)) as [| c1 [| c2 cs]]; cbn.
  - split; [lia |]. intros (r1 & r2 & H1 & _ & _). exfalso.
    eapply not_elem_of_nil, Hmem. eauto.
  - split; [lia |]. intros (r1 & r2 & H1 & H2 & Hne). exfalso. apply Hne.
    assert (H1' : Measure_Cd r1 ∈ [c1]) by (apply Hmem; eauto).
    assert (H2' : Measure_Cd r2 ∈ [c1]) by (apply Hmem; eauto).
    apply list_elem_of_singleton in H1', H2'. congruence.
  - split; [| lia]. intros _.
    destruct (proj1 (Hmem c1)) as (r1 & H1 & Hc1); [apply list_elem_of_here |].
    destruct (proj1 (Hmem c2)) as (r2 & H2 & Hc2);
      [apply list_elem_of_further, list_elem_of_here |].
    exists r1, r2. split; [exact H1 |]. split; [exact H2 |].
    rewrite Hc1, Hc2. apply NoDup_cons in Hnodup. destruct Hnodup as [Hnotin _].
    intros ->. apply Hnotin, list_elem_of_here.
Qed.

Lemma elem_of_duplicated_descriptions (rs : list MeasureRecord) (d : string) :
  d ∈ duplicated_descriptions rs
  <-> exists r1 r2,
        r1 ∈ rs /\ r2 ∈ rs /\ Measure_Desc r1 = d /\ Measure_Desc r2 = d
        /\ Measure_Cd r1 <> Measure_Cd r2.
Proof.
  unfold duplicated_descriptions.
  rewrite list_elem_of_filter, has_several_codes_spec, elem_of_descriptions.
  split.
  - intros [(r1 & r2 & H1 & H2 & Hne) _].
    apply elem_of_group in H1, H2. exists r1, r2. tauto.
  - intros (r1 & r2 & H1 & H2 & Hd1 & Hd2 & Hne). split.
    + exists r1, r2. rewrite !elem_of_group. tauto.
    + by exists r1.
Qed.

(** The loop over the flagged descriptions: one event each, in order. *)
Lemma events_of_descriptions (m : Metadata) (rs : list MeasureRecord)
    (descs : list string) :
  forall drawn, exists events,
    for_each
      (fun desc =>
         eventid ← uuid4;
         ret {| Event_Id := eventid;
                Event_Batch_Id := Batch_Id m;
                Event_Submission_Period_Cd := Submission_Period_Cd m;
                Event_Process_Cd := Process_Cd m;
                Event_Template_Version := Template_Version m;
                Event_Organisation_Cd := Organisation_Cd m;
                Error_Desc := error_desc (group desc rs) |})
      descs drawn
    = (inr events, (drawn + length descs)%nat)
    /\ Error_Desc <$> events = (fun d => error_desc (group d rs)) <$> descs
    /\ Event_Id <$> events = seq drawn (length descs)
    /\ Forall (fun e => Event_Batch_Id e = Batch_Id m
                 /\ Event_Submission_Period_Cd e = Submission_Period_Cd m
                 /\ Event_Process_Cd e = Process_Cd m
                 /\ Event_Template_Version e = Template_Version m
                 /\ Event_Organisation_Cd e = Organisation_Cd m) events.
Proof.
  induction descs as [| d descs IH]; intros drawn.
  - exists []. cbn. rewrite Nat.add_0_r. by repeat split.
  - destruct (IH (S drawn)) as (events & Hrun & Hdesc & Hids & Hmeta).
    eexists (_ :: events). cbn [for_each].
    unfold mbind, M_bind, bind, uuid4, mret, M_ret, ret in *.
    rewrite Hrun. split; [| split; [| split]].
    + cbn [length]. f_equal. lia.
    + cbn [fmap list_fmap] in *. by rewrite Hdesc.
    + cbn [fmap list_fmap length seq] in *. by rewrite Hids.
    + constructor; [by repeat split | exact Hmeta].
Qed.

(** C2: for a table that has the three required columns, the checker emits
    exactly one event per description under which two records carry different
    codes, and none for any other description: the descriptions of the events
    are distinct, each event's description text is every (Measure_Cd,
    Sheet_Cd) pair of its group joined by " -- " in the order of the table,
    its identifier is fresh and its other fields are those of the batch
    metadata; an empty table yields no event. *)
Theorem one_event_per_duplicated_description
    (t : Table) (m : Metadata) (drawn : nat) :
  (forall c, c ∈ required_columns -> c ∈ columns t) ->
  exists events descs,
    create_same_desc_diff_boncode_validation_event
      (DataFrameArg t) (MetadataDict m) drawn
    = (inr events, (drawn + length descs)%nat)
    /\ NoDup descs
    /\ (forall d,
          d ∈ descs
          <-> exists r1 r2,
                r1 ∈ records t /\ r2 ∈ records t
                /\ Measure_Desc r1 = d /\ Measure_Desc r2 = d
                /\ Measure_Cd r1 <> Measure_Cd r2)
    /\ Error_Desc <$> events
       = (fun d =>
            join " -- "
              (concat ((fun r => [Measure_Cd r; Sheet_Cd r])
                         <$> filter (fun r => Measure_Desc r = d) (records t))))
           <$> descs
    /\ NoDup (Event_Id <$> events)
    /\ Forall (fun e => Event_Batch_Id e = Batch_Id m
                 /\ Event_Submission_Period_Cd e = Submission_Period_Cd m
                 /\ Event_Process_Cd e = Process_Cd m
                 /\ Event_Template_Version e = Template_Version m
                 /\ Event_Organisation_Cd e = Organisation_Cd m) events
    /\ (records t = [] -> events = []).
Proof.
  intros Hcolumns.
  destruct (events_of_descriptions m (records t)
              (duplicated_descriptions (records t)) drawn)
    as (events & Hrun & Hdesc & Hids & Hmeta).
  exists events, (duplicated_descriptions (records t)).
  split; [| split; [| split; [| split; [| split; [| split]]]]].
  - unfold create_same_desc_diff_boncode_validation_event.
    assert (Hall : forallb (fun c => bool_decide (c ∈ columns t))
                     required_columns = true).
    { apply forallb_forall. intros c Hc. apply bool_decide_eq_true.
      by apply Hcolumns, list_elem_of_In. }
    rewrite Hall. cbn [negb]. exact Hrun.
  - unfold duplicated_descriptions. apply NoDup_filter, NoDup_descriptions.
  - apply elem_of_duplicated_descriptions.
  - exact Hdesc.
  - rewrite Hids. apply NoDup_seq.
  - exact Hmeta.
  - intros Hempty. rewrite Hempty in Hdesc. by destruct events.
Qed.

Lemma one_event_per_duplicated_description_witness :
  exists events,
    create_same_desc_diff_boncode_validation_event
      (DataFrameArg sample_table) (MetadataDict sample_metadata) 0%nat
    = (inr events, 1%nat)
    /\ Error_Desc <$> events = ["A1 -- sheet1 -- A2 -- sheet2"].
Proof.
  destruct (one_event_per_duplicated_description sample_table sample_metadata
              0%nat)
    as (events & descs & Hrun & _).
  - intros c Hc. cbn in *.
    repeat (apply elem_of_cons in Hc; destruct Hc as [-> | Hc]);
      [| | | by apply not_elem_of_nil in Hc];
      repeat constructor.
  - vm_compute in Hrun. injection Hrun as <- _.
    eexists. split; reflexivity.
Defined.

End DuplicateDescriptionFacts.

(** ** The examples of the specification *)

Example scanner_groups_B3_under_its_text :
  check_formula_errors
    (PWorksheet
       (sheet_of_cells "Sheet" 3 2
          [(3, 2, {| value := SStr "#DIV/0!"; data_type := "e" |})]))
  = inr {| status := "Error"; description := "Found errors";
           errors := [("#DIV/0!", ["B3"])] |}.
Proof. reflexivity. Qed.

Example comparator_accepts_equal_formulas :
  compare_formulas (PWorksheet (formula_sheet "Template" "=A1+1"))
                   (PWorksheet (formula_sheet "Company" "=A1+1"))
  = inr {| status := "Ok"; description := "All formulas are equivalent";
           errors := [] |}.
Proof. reflexivity. Qed.

Example comparator_ignores_literal_against_formula :
  compare_formulas
    (PWorksheet (formula_sheet "Template" "=A1+1"))
    (PWorksheet (sheet_of_cells "Company" 1 1 [(1, 1, number_cell 2)]))
  = inr {| status := "Ok"; description := "All formulas are equivalent";
           errors := [] |}.
Proof. reflexivity. Qed.

Example differ_lists_both_directions :
  validate_tabs_between_spreadsheets
    (PWorkbook workbook_A) (PWorkbook workbook_B)
  = inr {| status := "Error";
           description := "Spreadsheets have different sheet names.";
           errors := [("Missing In Spreadsheet 1", ["B"]);
                      ("Missing In Spreadsheet 2", ["A"])] |}.
Proof. reflexivity. Qed.

Example structure_names_the_differing_header_column :
  exists r,
    check_sheet_structure
      (PWorksheet two_column_sheet)
      (PWorksheet
         (sheet_of_cells "Data" 2 2
            [(1, 1, text_cell "Year"); (1, 2, text_cell "Amount");
             (2, 1, number_cell 2020); (2, 2, number_cell 5)]))
      1 = inr r
    /\ errors r
       = [("Header Mismatch", ["Column 2: Template: [Value] != [Amount] :Company"])].
Proof. eexists. split; reflexivity. Qed.

Example missing_sheet_event_for_the_template_side_only :
  find_missing_sheets (PWorkbook workbook_A) (PWorkbook workbook_B) 0%nat
  = (inr [{| Event_Id := 0;
             Sheet_Cd := PStr "A";
             Cell_Reference := None;
             Rule_Cd := PStr "?";
             Error_Category := PStr "Missing Sheet";
             Error_Severity_Cd := PStr "soft";
             Error_Desc := PStr "Missing Sheet" |}],
     1%nat).
Proof. vm_compute. reflexivity. Qed.

Example distinct_descriptions_raise_no_event :
  DuplicateDescription.create_same_desc_diff_boncode_validation_event
    (DuplicateDescription.DataFrameArg
       (DuplicateDescription.mkTable
          ["Measure_Cd"; "Measure_Desc"; "Sheet_Cd"]
          [DuplicateDescription.mkMeasure "A1" "desc1" "sheet1";
           DuplicateDescription.mkMeasure "B1" "desc2" "sheet2";
           DuplicateDescription.mkMeasure "C1" "desc3" "sheet3"]))
    (DuplicateDescription.MetadataDict sample_metadata) 0%nat
  = (inr [], 0%nat).
Proof. reflexivity. Qed.

Example missing_column_is_refused :
  DuplicateDescription.create_same_desc_diff_boncode_validation_event
    (DuplicateDescription.DataFrameArg
       (DuplicateDescription.mkTable
          ["Measure_Cd"; "Measure_Desc"]
          [DuplicateDescription.mkMeasure "A1" "desc1" ""]))
    (DuplicateDescription.MetadataDict sample_metadata) 0%nat
  = (inl (ValueError "Missing required columns"), 0%nat).
Proof. reflexivity. Qed.

(** * Further properties of the module *)

(** ** Sheet-set differ: exchanging the workbooks *)

(** Exchanging the two workbooks keeps the status and exchanges the two
    lists: what is missing in spreadsheet 1 one way round is what is missing
    in spreadsheet 2 the other way round. *)
Theorem validate_tabs_exchanged (wb1 wb2 : Workbook) :
  exists r12 r21,
    validate_tabs_between_spreadsheets (PWorkbook wb1) (PWorkbook wb2) = inr r12
    /\ validate_tabs_between_spreadsheets (PWorkbook wb2) (PWorkbook wb1) = inr r21
    /\ status r12 = status r21
    /\ dict_get "Missing In Spreadsheet 1" (errors r12)
       = dict_get "Missing In Spreadsheet 2" (errors r21)
    /\ dict_get "Missing In Spreadsheet 2" (errors r12)
       = dict_get "Missing In Spreadsheet 1" (errors r21).
Proof.
  cbn [validate_tabs_between_spreadsheets].
  destruct (elements (list_to_set (sheetnames wb2) ∖ list_to_set (sheetnames wb1)))
    as [| a m1];
  destruct (elements (list_to_set (sheetnames wb1) ∖ list_to_set (sheetnames wb2)))
    as [| b m2];
  cbn [nonempty orb app]; do 2 eexists;
  (split; [reflexivity |]); (split; [reflexivity |]);
  cbn [status errors dict_get]; repeat case_decide; try congruence;
  repeat split; reflexivity.
Qed.

(** ** Used-area detector: further cases *)

(** When the last nominal row and the last nominal column both hold a value,
    nothing is counted as empty and the used area is the nominal area. *)
Theorem get_used_area_full_sheet (sheet : Worksheet) :
  (exists col, 1 <= col <= max_column sheet
     /\ value (cell sheet (max_row sheet) col) <> SNone) ->
  (exists row, 1 <= row <= max_row sheet
     /\ value (cell sheet row (max_column sheet)) <> SNone) ->
  get_used_area (PWorksheet sheet)
  = inr {| empty_rows := 0; empty_columns := 0;
           last_used_row := max_row sheet;
           last_used_column := max_column sheet |}.
Proof.
  intros (col & Hcol & Hvalue) (row & Hrow & Hvalue').
  destruct (used_area_spec sheet)
    as ((Hr1 & Hr2 & _) & (Hc1 & Hc2 & _) & Hlr & Hlc).
  cbv zeta in *.
  assert (Hr : empty_rows (used_area sheet) = 0).
  { destruct (decide (empty_rows (used_area sheet) = 0)) as [| Hne]; [done |].
    exfalso. apply Hvalue. apply Hr2; lia. }
  assert (Hc : empty_columns (used_area sheet) = 0).
  { destruct (decide (empty_columns (used_area sheet) = 0)) as [| Hne]; [done |].
    exfalso. apply Hvalue'. apply Hc2; lia. }
  cbn [get_used_area]. f_equal.
  destruct (used_area sheet) as [er ec lr lc]. cbn in *. subst.
  f_equal; lia.
Qed.

Lemma get_used_area_full_sheet_witness :
  get_used_area (PWorksheet filled_sheet)
  = inr {| empty_rows := 0; empty_columns := 0;
           last_used_row := 2; last_used_column := 2 |}.
Proof.
  apply (get_used_area_full_sheet filled_sheet).
  - exists 1. split; [simpl; lia | simpl; discriminate].
  - exists 1. split; [simpl; lia | simpl; discriminate].
Defined.

Lemma count_empty_ext (f g : Z -> list scalar) (indices : list Z) :
  (forall i, i ∈ indices -> all_None (f i) = all_None (g i)) ->
  count_empty f indices = count_empty g indices.
Proof.
  induction indices as [| i rest IH]; intros Hsame; [reflexivity |].
  cbn [count_empty]. rewrite <- (Hsame i) by apply list_elem_of_here.
  rewrite IH; [reflexivity |].
  intros j Hj. by apply Hsame, list_elem_of_further.
Qed.

Lemma elem_of_range_down (i n : Z) : i ∈ range_down n 0 <-> 1 <= i <= n.
Proof.
  unfold range_down. rewrite list_elem_of_fmap. split.
  - intros (j & -> & Hj). apply elem_of_seqZ in Hj. lia.
  - intros Hi. exists (n - i). split; [lia |]. apply elem_of_seqZ. lia.
Qed.

(** The detector reads the values within the nominal extents and nothing
    else: two sheets of equal extents whose cells agree in value there, get
    the same used area, whatever their titles, the data types of their cells
    and the cells outside of the extents. *)
Theorem get_used_area_reads_values_only (sheet1 sheet2 : Worksheet) :
  max_row sheet1 = max_row sheet2 ->
  max_column sheet1 = max_column sheet2 ->
  (forall row col, 1 <= row <= max_row sheet1 -> 1 <= col <= max_column sheet1 ->
     value (cell sheet1 row col) = value (cell sheet2 row col)) ->
  get_used_area (PWorksheet sheet1) = get_used_area (PWorksheet sheet2).
Proof.
  intros Hrows Hcols Hvalues. cbn [get_used_area]. f_equal.
  unfold used_area. rewrite <- Hrows, <- Hcols.
  assert (Hr : count_empty (row_values sheet1) (range_down (max_row sheet1) 0)
               = count_empty (row_values sheet2) (range_down (max_row sheet1) 0)).
  { apply count_empty_ext. intros row Hrow. apply elem_of_range_down in Hrow.
    f_equal. unfold row_values. rewrite <- Hcols.
    apply list_fmap_ext. intros k col Hcol.
    apply list_elem_of_lookup_2, elem_of_range in Hcol.
    apply Hvalues; lia. }
  assert (Hc : count_empty (column_values sheet1)
                 (range_down (max_column sheet1) 0)
               = count_empty (column_values sheet2)
                   (range_down (max_column sheet1) 0)).
  { apply count_empty_ext. intros col Hcol. apply elem_of_range_down in Hcol.
    f_equal. unfold column_values. rewrite <- Hrows.
    apply list_fmap_ext. intros k row Hrow.
    apply list_elem_of_lookup_2, elem_of_range in Hrow.
    apply Hvalues; lia. }
  by rewrite Hr, Hc.
Qed.

Lemma get_used_area_reads_values_only_witness :
  get_used_area (PWorksheet filled_sheet)
  = get_used_area (PWorksheet two_column_sheet).
Proof.
  apply (get_used_area_reads_values_only filled_sheet two_column_sheet).
  - reflexivity.
  - reflexivity.
  - intros row col Hrow Hcol. simpl in Hrow, Hcol.
    assert (row = 1 \/ row = 2) as [-> | ->] by lia;
      assert (col = 1 \/ col = 2) as [-> | ->] by lia; reflexivity.
Defined.

(** ** Structure comparator: emptiness and shape *)

Lemma result_errors (e : pydict (list string)) (d1 d2 : string) :
  errors (if nonempty e
          then {| status := "Error"; description := d1; errors := e |}
          else {| status := "Ok"; description := d2; errors := [] |}) = e.
Proof. by destruct e. Qed.

Lemma dict_get_extend_other {V : Type} (k k' : string) (vs : list V)
    (d : pydict (list V)) :
  k <> k' -> dict_get k (dict_extend k' vs d) = dict_get k d.
Proof. intros Hne. rewrite dict_get_extend. by rewrite decide_False. Qed.

(** The three checks of the comparator, one after the other. *)
Lemma sheet_structure_errors (sheet1 sheet2 : Worksheet) (header_row_number : Z) :
  errors (sheet_structure sheet1 sheet2 header_row_number)
  = let header1 := header_of sheet1 header_row_number in
    let header2 := header_of sheet2 header_row_number in
    if negb (list_eq header1 header2) then
      if nonempty (diff_headers header1 header2)
      then dict_extend "Header Mismatch"
             (header_mismatch_message <$> diff_headers header1 header2)
             (shape_errors sheet1 sheet2)
      else shape_errors sheet1 sheet2
    else shape_errors sheet1 sheet2.
Proof.
  unfold sheet_structure. rewrite result_errors.
  unfold header_of, shape_errors, emptiness_errors, flagged_empty.
  cbv zeta.
  destruct (bool_decide (max_row sheet1 = max_column sheet1)
            && bool_decide (max_column sheet1 = max_row sheet2)
            && bool_decide (max_row sheet2 = max_column sheet2)
            && bool_decide (max_column sheet2 = 1)); [reflexivity |].
  destruct (bool_decide (max_row sheet1 = 1) || bool_decide (max_column sheet1 = 1));
    destruct (bool_decide (max_row sheet2 = 1)
              || bool_decide (max_column sheet2 = 1));
    reflexivity.
Qed.

Lemma sheet_structure_status (sheet1 sheet2 : Worksheet) (header_row_number : Z) :
  status (sheet_structure sheet1 sheet2 header_row_number) = "Ok"
  <-> errors (sheet_structure sheet1 sheet2 header_row_number) = [].
Proof. apply sheet_structure_invariant. Qed.

(** Apart from its own key, the header check leaves the entries alone. *)
Lemma sheet_structure_get_shape (sheet1 sheet2 : Worksheet)
    (header_row_number : Z) (key : string) :
  key <> "Header Mismatch" ->
  dict_get key (errors (sheet_structure sheet1 sheet2 header_row_number))
  = dict_get key (shape_errors sheet1 sheet2).
Proof.
  intros Hkey. rewrite sheet_structure_errors. cbv zeta.
  destruct (negb _); [| reflexivity].
  destruct (nonempty _); [| reflexivity].
  by apply dict_get_extend_other.
Qed.

Lemma all_minimal_test (sheet1 sheet2 : Worksheet) :
  bool_decide (max_row sheet1 = max_column sheet1)
  && bool_decide (max_column sheet1 = max_row sheet2)
  && bool_decide (max_row sheet2 = max_column sheet2)
  && bool_decide (max_column sheet2 = 1) = true
  <-> max_row sheet1 = 1 /\ max_column sheet1 = 1
      /\ max_row sheet2 = 1 /\ max_column sheet2 = 1.
Proof.
  rewrite !andb_true_iff, !bool_decide_eq_true. lia.
Qed.

Lemma emptiness_errors_get (sheet1 sheet2 : Worksheet) :
  let all_minimal :=
    max_row sheet1 = 1 /\ max_column sheet1 = 1
    /\ max_row sheet2 = 1 /\ max_column sheet2 = 1 in
  let titles :=
    (if flagged_empty sheet1 then [title sheet1] else [])
      ++ (if flagged_empty sheet2 then [title sheet2] else []) in
  (all_minimal -> emptiness_errors sheet1 sheet2 = [])
  /\ (~ all_minimal ->
      emptiness_errors sheet1 sheet2
      = if nonempty titles then [("Empty Sheet", titles)] else []).
Proof.
  cbv zeta. unfold emptiness_errors.
  pose proof (all_minimal_test sheet1 sheet2) as Htest.
  destruct (bool_decide (max_row sheet1 = max_column sheet1)
            && bool_decide (max_column sheet1 = max_row sheet2)
            && bool_decide (max_row sheet2 = max_column sheet2)
            && bool_decide (max_column sheet2 = 1)).
  - split; [reflexivity |]. intros Hnot. exfalso. by apply Hnot, Htest.
  - split; [intros Hall; apply Htest in Hall; discriminate |]. intros _.
    destruct (flagged_empty sheet1), (flagged_empty sheet2); reflexivity.
Qed.

Lemma emptiness_errors_keys (sheet1 sheet2 : Worksheet) (key : string)
    (details : list string) :
  dict_get key (emptiness_errors sheet1 sheet2) = Some details ->
  key = "Empty Sheet".
Proof.
  destruct (emptiness_errors_get sheet1 sheet2) as [Hall Hsome].
  destruct (decide (max_row sheet1 = 1 /\ max_column sheet1 = 1
                    /\ max_row sheet2 = 1 /\ max_column sheet2 = 1))
    as [Hmin | Hnot].
  - by rewrite (Hall Hmin).
  - rewrite (Hsome Hnot). destruct (nonempty _); [| done].
    cbn. by case_decide.
Qed.

Lemma shape_errors_keys (sheet1 sheet2 : Worksheet) (key : string)
    (details : list string) :
  dict_get key (shape_errors sheet1 sheet2) = Some details ->
  key = "Empty Sheet" \/ key = "Row/Column Count".
Proof.
  unfold shape_errors. cbv zeta. destruct (negb _).
  - unfold dict_append. rewrite dict_get_extend.
    case_decide; [by auto |]. intros Hget. left.
    by eapply emptiness_errors_keys.
  - intros Hget. left. by eapply emptiness_errors_keys.
Qed.

(** The "Empty Sheet" entry lists the title of each sheet whose nominal row
    count or nominal column count is 1, the first sheet before the second,
    unless all four counts are 1, in which case there is no entry. *)
Theorem check_sheet_structure_empty_sheets
    (sheet1 sheet2 : Worksheet) (header_row_number : Z) :
  exists r,
    check_sheet_structure (PWorksheet sheet1) (PWorksheet sheet2)
      header_row_number = inr r
    /\ let all_minimal :=
         max_row sheet1 = 1 /\ max_column sheet1 = 1
         /\ max_row sheet2 = 1 /\ max_column sheet2 = 1 in
       let titles :=
         (if flagged_empty sheet1 then [title sheet1] else [])
           ++ (if flagged_empty sheet2 then [title sheet2] else []) in
       (all_minimal -> dict_get "Empty Sheet" (errors r) = None)
       /\ (~ all_minimal ->
           dict_get "Empty Sheet" (errors r)
           = if nonempty titles then Some titles else None).
Proof.
  eexists. split; [reflexivity |]. cbv zeta.
  rewrite sheet_structure_get_shape by discriminate.
  assert (Hshape : dict_get "Empty Sheet" (shape_errors sheet1 sheet2)
                   = dict_get "Empty Sheet" (emptiness_errors sheet1 sheet2)).
  { unfold shape_errors. cbv zeta. destruct (negb _); [| reflexivity].
    by apply dict_get_append_other. }
  rewrite Hshape.
  destruct (emptiness_errors_get sheet1 sheet2) as [Hall Hsome]. split.
  - intros Hmin. by rewrite (Hall Hmin).
  - intros Hnot. rewrite (Hsome Hnot). by destruct (nonempty _).
Qed.

(** The "Row/Column Count" entry is there exactly when the used areas differ
    in their last used row or last used column, and then holds the one
    message that names both shapes; the comparator never uses a key other
    than "Empty Sheet", "Row/Column Count" and "Header Mismatch". *)
Theorem check_sheet_structure_shape_entry
    (sheet1 sheet2 : Worksheet) (header_row_number : Z) :
  exists r,
    check_sheet_structure (PWorksheet sheet1) (PWorksheet sheet2)
      header_row_number = inr r
    /\ let rows1 := last_used_row (used_area sheet1) in
       let cols1 := last_used_column (used_area sheet1) in
       let rows2 := last_used_row (used_area sheet2) in
       let cols2 := last_used_column (used_area sheet2) in
       ((rows1, cols1) = (rows2, cols2) ->
        dict_get "Row/Column Count" (errors r) = None)
       /\ ((rows1, cols1) <> (rows2, cols2) ->
           dict_get "Row/Column Count" (errors r)
           = Some [row_column_count_message rows1 cols1 rows2 cols2])
       /\ (forall key details,
             dict_get key (errors r) = Some details ->
             key = "Empty Sheet" \/ key = "Row/Column Count"
             \/ key = "Header Mismatch").
Proof.
  eexists. split; [reflexivity |]. cbv zeta.
  pose proof (emptiness_errors_keys sheet1 sheet2) as Hempty.
  assert (Hnone : dict_get "Row/Column Count" (emptiness_errors sheet1 sheet2)
                  = None).
  { destruct (dict_get _ _) as [details |] eqn:Hget; [| reflexivity].
    by apply Hempty in Hget. }
  split; [| split].
  - intros [= Hrows Hcols]. rewrite sheet_structure_get_shape by discriminate.
    unfold shape_errors. cbv zeta.
    rewrite !bool_decide_eq_true_2 by assumption. exact Hnone.
  - intros Hne. rewrite sheet_structure_get_shape by discriminate.
    unfold shape_errors. cbv zeta.
    assert (Htest : bool_decide (last_used_row (used_area sheet1)
                                 = last_used_row (used_area sheet2))
                    && bool_decide (last_used_column (used_area sheet1)
                                    = last_used_column (used_area sheet2))
                    = false).
    { apply andb_false_iff. rewrite !bool_decide_eq_false.
      destruct (decide (last_used_row (used_area sheet1)
                        = last_used_row (used_area sheet2))) as [Hr | Hr];
        [| by left].
      right. intros Hc. apply Hne. congruence. }
    rewrite Htest. cbn [negb].
    unfold dict_append. rewrite dict_get_extend, decide_True by reflexivity.
    by rewrite Hnone.
  - intros key details.
    destruct (decide (key = "Header Mismatch")) as [| Hkey]; [by auto |].
    rewrite sheet_structure_get_shape by exact Hkey.
    intros Hget. apply shape_errors_keys in Hget. tauto.
Qed.

(** With a header row number of 0 or less the header comparison is skipped:
    the result is the one for header row number 0 and has no
    "Header Mismatch" entry, whatever the sheets hold. *)
Theorem check_sheet_structure_without_header
    (sheet1 sheet2 : Worksheet) (header_row_number : Z) :
  header_row_number <= 0 ->
  exists r,
    check_sheet_structure (PWorksheet sheet1) (PWorksheet sheet2)
      header_row_number = inr r
    /\ check_sheet_structure (PWorksheet sheet1) (PWorksheet sheet2) 0 = inr r
    /\ dict_get "Header Mismatch" (errors r) = None.
Proof.
  intros Hrow. eexists. split; [reflexivity |]. split.
  - cbn [check_sheet_structure]. f_equal. unfold sheet_structure.
    rewrite !(bool_decide_eq_false_2 (header_row_number > 0)) by lia.
    rewrite !(bool_decide_eq_false_2 (0 > 0)) by lia. reflexivity.
  - rewrite sheet_structure_errors. cbv zeta. unfold header_of.
    rewrite !(bool_decide_eq_false_2 (header_row_number > 0)) by lia.
    cbn [list_eq negb].
    destruct (dict_get _ _) as [details |] eqn:Hget; [| reflexivity].
    apply shape_errors_keys in Hget. by destruct Hget.
Qed.

Lemma check_sheet_structure_without_header_witness :
  exists r,
    check_sheet_structure (PWorksheet three_column_sheet)
      (PWorksheet two_column_sheet) (-1) = inr r
    /\ check_sheet_structure (PWorksheet three_column_sheet)
         (PWorksheet two_column_sheet) 0 = inr r.
Proof.
  destruct (check_sheet_structure_without_header
              three_column_sheet two_column_sheet (-1) ltac:(lia))
    as (r & Hr & Hzero & _).
  by exists r.
Defined.

Lemma scalar_eq_refl (v : scalar) : scalar_eq v v = true.
Proof. destruct v; cbn; try reflexivity; by apply bool_decide_eq_true. Qed.

Lemma list_eq_refl (values : list scalar) : list_eq values values = true.
Proof.
  induction values as [| v values IH]; [reflexivity |].
  cbn. by rewrite scalar_eq_refl, IH.
Qed.

Lemma flagged_empty_false (sheet : Worksheet) :
  flagged_empty sheet = false <-> max_row sheet <> 1 /\ max_column sheet <> 1.
Proof.
  unfold flagged_empty. rewrite orb_false_iff, !bool_decide_eq_false.
  reflexivity.
Qed.

(** A sheet compared with itself is not always in order: the result is "Ok"
    exactly when its nominal row and column counts are both 1 or both
    different from 1. A sheet with a single nominal row or column is
    reported under "Empty Sheet" even against itself. *)
Theorem check_sheet_structure_against_itself
    (sheet : Worksheet) (header_row_number : Z) :
  exists r,
    check_sheet_structure (PWorksheet sheet) (PWorksheet sheet)
      header_row_number = inr r
    /\ (status r = "Ok"
        <-> (max_row sheet = 1 /\ max_column sheet = 1)
            \/ (max_row sheet <> 1 /\ max_column sheet <> 1)).
Proof.
  eexists. split; [reflexivity |].
  rewrite sheet_structure_status, sheet_structure_errors. cbv zeta.
  rewrite list_eq_refl. cbn [negb]. unfold shape_errors. cbv zeta.
  rewrite !bool_decide_eq_true_2 by reflexivity. cbn [andb negb].
  destruct (emptiness_errors_get sheet sheet) as [Hall Hsome].
  destruct (decide (max_row sheet = 1 /\ max_column sheet = 1
                    /\ max_row sheet = 1 /\ max_column sheet = 1))
    as [Hmin | Hnot].
  - rewrite (Hall Hmin). split; [intros _; left; tauto | reflexivity].
  - rewrite (Hsome Hnot).
    destruct (flagged_empty sheet) eqn:Hflag; cbn [app nonempty].
    + split; [discriminate |]. intros [Hone | Hnone]; [tauto |].
      apply flagged_empty_false in Hnone. congruence.
    + split; [| reflexivity]. intros _. right. by apply flagged_empty_false.
Qed.

(** ** Formula comparator: a sheet against itself, and exchanged sheets *)

Lemma for_fold_skipped {A S : Type} (body : S -> A -> exn + S)
    (items : list A) (s : S) :
  (forall a acc, body acc a = inr acc) -> for_fold body s items = inr s.
Proof.
  intros Hbody. induction items as [| a items IH]; [reflexivity |].
  cbn [for_fold]. by rewrite Hbody.
Qed.

Lemma compare_cell_same (sheet : Worksheet) (row col : Z)
    (d : pydict (list string)) :
  compare_cell sheet sheet row col d = inr d.
Proof.
  unfold compare_cell. cbv zeta. rewrite scalar_eq_refl. cbn [negb].
  by destruct (is_formula (value (cell sheet row col))).
Qed.

(** Comparing a sheet with itself always gives "Ok" with no errors,
    whatever the sheet holds. *)
Theorem compare_formulas_against_itself (sheet : Worksheet) :
  compare_formulas (PWorksheet sheet) (PWorksheet sheet)
  = inr {| status := "Ok"; description := "All formulas are equivalent";
           errors := [] |}.
Proof.
  cbn [compare_formulas]. unfold formulas_compared.
  rewrite !bool_decide_eq_true_2 by reflexivity. cbn [andb negb].
  rewrite for_fold_skipped; [reflexivity |].
  intros row acc. apply for_fold_skipped.
  intros col cells. apply compare_cell_same.
Qed.

Lemma scalar_eq_sym (v1 v2 : scalar) : scalar_eq v1 v2 = scalar_eq v2 v1.
Proof.
  destruct v1, v2; cbn; try reflexivity;
    apply bool_decide_ext; split; congruence.
Qed.

Lemma difference_key_sym (sheet1 sheet2 : Worksheet) (p : Z * Z) :
  difference_key sheet1 sheet2 p = difference_key sheet2 sheet1 p.
Proof.
  unfold difference_key. cbv zeta.
  rewrite (scalar_eq_sym (value (cell sheet1 p.1 p.2))).
  by rewrite (andb_comm (is_formula (value (cell sheet1 p.1 p.2)))).
Qed.

(** Exchanging the two sheets changes the messages only: for sheets without
    a column beyond 18278, the status is the same and the same cell
    references are reported, each with as many messages. *)
Theorem compare_formulas_exchanged (sheet1 sheet2 : Worksheet) :
  max_column sheet1 <= 18278 ->
  exists r12 r21,
    compare_formulas (PWorksheet sheet1) (PWorksheet sheet2) = inr r12
    /\ compare_formulas (PWorksheet sheet2) (PWorksheet sheet1) = inr r21
    /\ status r12 = status r21
    /\ (forall key,
          length <$> dict_get key (errors r12)
          = length <$> dict_get key (errors r21)).
Proof.
  intros Hbound. cbn [compare_formulas].
  destruct (decide ((max_row sheet1, max_column sheet1)
                    = (max_row sheet2, max_column sheet2))) as [Heq | Hne].
  - injection Heq as Hrows Hcols.
    exists (formulas_result (differing sheet1 sheet2)),
           (formulas_result (differing sheet2 sheet1)).
    split; [by apply formulas_compared_returns |].
    split; [apply formulas_compared_returns; lia |].
    unfold differing. rewrite <- Hrows, <- Hcols.
    set (positions := cell_positions (max_row sheet1) (max_column sheet1)).
    assert (Hget : forall key,
              length <$> dict_get key
                (foldl (loop_step (difference_key sheet1 sheet2)
                          (difference_message sheet1 sheet2)) [] positions)
              = length <$> dict_get key
                  (foldl (loop_step (difference_key sheet2 sheet1)
                            (difference_message sheet2 sheet1)) [] positions)).
    { intros key. rewrite !dict_get_loop. cbn [dict_get]. unfold values_under.
      rewrite (list_filter_iff
                 (fun a => difference_key sheet1 sheet2 a = Some key)
                 (fun a => difference_key sheet2 sheet1 a = Some key))
        by (intros p; by rewrite difference_key_sym).
      destruct (filter _ positions) as [| p rest]; [reflexivity |].
      cbn. by rewrite !length_fmap. }
    assert (Hsome : foldl (loop_step (difference_key sheet1 sheet2)
                             (difference_message sheet1 sheet2)) [] positions
                    <> []
                    <-> foldl (loop_step (difference_key sheet2 sheet1)
                                 (difference_message sheet2 sheet1)) []
                          positions <> []).
    { rewrite !loop_not_nil.
      split; (intros [Hnil | (p & k & Hin & Hk)]; [by left |]);
        right; exists p, k; (split; [exact Hin |]).
      - by rewrite <- difference_key_sym.
      - by rewrite difference_key_sym. }
    destruct (foldl (loop_step (difference_key sheet1 sheet2) _) [] positions)
      as [| e12 rest12];
      destruct (foldl (loop_step (difference_key sheet2 sheet1) _) [] positions)
        as [| e21 rest21]; cbn [formulas_result nonempty status errors].
    + by split.
    + exfalso. by apply (proj2 Hsome).
    + exfalso. by apply (proj1 Hsome).
    + split; [reflexivity | exact Hget].
  - do 2 eexists.
    split; [by apply formulas_compared_other_dimensions |].
    split; [apply formulas_compared_other_dimensions; congruence |].
    by split.
Qed.

Lemma compare_formulas_exchanged_witness :
  exists r12 r21,
    compare_formulas (PWorksheet (formula_sheet "Template" "=A1+1"))
                     (PWorksheet (formula_sheet "Company" "=A1+2")) = inr r12
    /\ compare_formulas (PWorksheet (formula_sheet "Company" "=A1+2"))
                        (PWorksheet (formula_sheet "Template" "=A1+1")) = inr r21
    /\ status r12 = status r21
    /\ length <$> dict_get "A1" (errors r12)
       = length <$> dict_get "A1" (errors r21).
Proof.
  destruct (compare_formulas_exchanged (formula_sheet "Template" "=A1+1")
              (formula_sheet "Company" "=A1+2") ltac:(simpl; lia))
    as (r12 & r21 & H12 & H21 & Hstatus & Hkeys).
  exists r12, r21. by repeat split.
Defined.

(** ** Formula-error scanner: every error cell once *)

Lemma total_details_extend {V : Type} (k : string) (vs : list V)
    (d : pydict (list V)) :
  total_details (dict_extend k vs d) = (total_details d + length vs)%nat.
Proof.
  induction d as [| [k' l] rest IH]; cbn [dict_extend total_details].
  - lia.
  - case_decide; cbn [total_details]; [rewrite length_app | rewrite IH]; lia.
Qed.

Lemma total_details_loop {A V : Type} (key : A -> option string) (val : A -> V)
    (items : list A) (d : pydict (list V)) :
  total_details (foldl (loop_step key val) d items)
  = (total_details d + length (filter (fun a => is_Some (key a)) items))%nat.
Proof.
  revert d. induction items as [| a items IH]; intros d.
  - cbn. lia.
  - cbn [foldl]. rewrite IH, filter_cons. unfold loop_step.
    destruct (key a) as [k |].
    + rewrite decide_True by done. unfold dict_append.
      rewrite total_details_extend. cbn. lia.
    + rewrite decide_False by (by intros [? ?]). reflexivity.
Qed.

Lemma total_details_scanned (sheet : Worksheet) :
  total_details (scanned sheet) = length (error_positions sheet).
Proof.
  unfold scanned, error_positions. rewrite total_details_loop. cbn.
  f_equal. apply list_filter_iff. intros p. split.
  - intros [text Htext]. apply error_text_Some in Htext.
    destruct Htext as [He Hv]. by rewrite Hv.
  - intros [He Hv].
    destruct (value (cell sheet p.1 p.2)) as [| | | text] eqn:Hvalue;
      try discriminate.
    exists text. by apply error_text_Some.
Qed.

(** The scanner files every error cell exactly once: for a sheet without a
    column beyond 18278, over all error texts, the lists of cell references
    have as many entries as the sheet has cells, within its nominal extents,
    of data type 'e' with a text value. *)
Theorem check_formula_errors_counts_cells (sheet : Worksheet) :
  max_column sheet <= 18278 ->
  exists r,
    check_formula_errors (PWorksheet sheet) = inr r
    /\ total_details (errors r)
       = length
           (filter (fun p => data_type (cell sheet p.1 p.2) = "e"
                             /\ is_text (value (cell sheet p.1 p.2)) = true)
                   (cell_positions (max_row sheet) (max_column sheet))).
Proof.
  intros Hcols. exists (scan_result (scanned sheet)).
  split; [by apply formula_errors_returns |].
  rewrite errors_scan_result. apply total_details_scanned.
Qed.

Lemma check_formula_errors_counts_cells_witness :
  exists r,
    check_formula_errors (PWorksheet mixed_error_sheet) = inr r
    /\ total_details (errors r) = 2%nat.
Proof.
  destruct (check_formula_errors_counts_cells mixed_error_sheet
              ltac:(simpl; lia))
    as (r & Hr & Hcount).
  exists r. split; [exact Hr |]. rewrite Hcount. reflexivity.
Defined.

(** ** Loops that draw identifiers *)

Lemma bind_run {A B : Type} (m : M A) (k : A -> M B) (drawn : nat) :
  (m ≫= k) drawn
  = match m drawn with
    | (inr a, drawn') => k a drawn'
    | (inl e, drawn') => (inl e, drawn')
    end.
Proof. reflexivity. Qed.

Lemma for_each_numbered {A B : Type} (body : A -> M B) (mk : nat -> A -> B)
    (items : list A) :
  (forall x n, x ∈ items -> body x n = (inr (mk n x), S n)) ->
  forall drawn,
    for_each body items drawn
    = (inr (numbered mk drawn items), (drawn + length items)%nat).
Proof.
  induction items as [| x items IH]; intros Hbody drawn.
  - cbn. by rewrite Nat.add_0_r.
  - cbn [for_each numbered length]. rewrite bind_run.
    rewrite (Hbody x drawn) by apply list_elem_of_here.
    rewrite bind_run, IH
      by (intros y n Hy; by apply Hbody, list_elem_of_further).
    cbn. do 2 f_equal. lia.
Qed.

Lemma for_each_raises_after {A B : Type} (body : A -> M B) (mk : nat -> A -> B)
    (good : list A) (bad : A) (rest : list A) (e : exn) :
  (forall x n, x ∈ good -> body x n = (inr (mk n x), S n)) ->
  (forall n, body bad n = (inl e, n)) ->
  forall drawn,
    for_each body (good ++ bad :: rest) drawn
    = (inl e, (drawn + length good)%nat).
Proof.
  induction good as [| x good IH]; intros Hgood Hbad drawn.
  - cbn [app for_each length]. rewrite bind_run, Hbad. by rewrite Nat.add_0_r.
  - cbn [app for_each length]. rewrite bind_run.
    rewrite (Hgood x drawn) by apply list_elem_of_here.
    rewrite bind_run, IH;
      [| intros y n Hy; by apply Hgood, list_elem_of_further | exact Hbad].
    f_equal. lia.
Qed.

Lemma numbered_app {A B : Type} (mk : nat -> A -> B) (start : nat)
    (l1 l2 : list A) :
  numbered mk start (l1 ++ l2)
  = numbered mk start l1 ++ numbered mk (start + length l1) l2.
Proof.
  revert start. induction l1 as [| x l1 IH]; intros start; cbn.
  - by rewrite Nat.add_0_r.
  - rewrite IH. do 3 f_equal. lia.
Qed.

Lemma length_numbered {A B : Type} (mk : nat -> A -> B) (start : nat)
    (items : list A) :
  length (numbered mk start items) = length items.
Proof.
  revert start. induction items as [| x items IH]; intros start; cbn;
    [reflexivity | by rewrite IH].
Qed.

Lemma ids_numbered {A : Type} (mk : nat -> A -> Event) (start : nat)
    (items : list A) :
  (forall n x, Event_Id (mk n x) = n) ->
  Event_Id <$> numbered mk start items = seq start (length items).
Proof.
  intros Hid. revert start.
  induction items as [| x items IH]; intros start; cbn;
    [reflexivity | by rewrite Hid, IH].
Qed.

(** ** Missing-sheet normalizer *)

Lemma nonempty_str_PStr (name : string) :
  nonempty_str (PStr name) = true <-> name <> "".
Proof.
  unfold nonempty_str. cbn. rewrite negb_true_iff, bool_decide_eq_false.
  reflexivity.
Qed.

Lemma missing_sheet_row_ok (name : string) (a b c : pyobj) (n : nat) :
  name <> "" ->
  nonempty_str a = true -> nonempty_str b = true -> nonempty_str c = true ->
  create_missing_sheet_row (PStr name) (PMissingSheetContext a b c) n
  = (inr (missing_sheet_event a b c n name), S n).
Proof.
  intros Hname Ha Hb Hc. unfold create_missing_sheet_row.
  apply nonempty_str_PStr in Hname. unfold nonempty_str in *.
  apply andb_true_iff in Hname, Ha, Hb, Hc.
  destruct Hname as [-> ->], Ha as [-> ->], Hb as [-> ->], Hc as [-> ->].
  reflexivity.
Qed.

Lemma missing_sheets_loop (names : list string) (a b c : pyobj) :
  "" ∉ names ->
  nonempty_str a = true -> nonempty_str b = true -> nonempty_str c = true ->
  forall drawn,
    for_each
      (fun sheet =>
         if negb (is_str sheet) || negb (truthy sheet) then
           raise (ValueError
             ("Invalid sheet name: '" +:+ str_object sheet
                +:+ "'. Each sheet must be a non-empty string."))
         else create_missing_sheet_row sheet (PMissingSheetContext a b c))
      (PStr <$> names) drawn
    = (inr (numbered (missing_sheet_event a b c) drawn names),
       (drawn + length names)%nat).
Proof.
  intros Hnames Ha Hb Hc drawn.
  rewrite (for_each_numbered _
             (fun n sheet =>
                match sheet with
                | PStr name => missing_sheet_event a b c n name
                | _ => missing_sheet_event a b c n ""
                end)).
  - rewrite length_fmap. do 2 f_equal.
    clear. revert drawn.
    induction names as [| name names IH]; intros drawn; cbn;
      [reflexivity | by rewrite IH].
  - intros sheet n Hin.
    apply list_elem_of_fmap in Hin. destruct Hin as (name & -> & Hin).
    assert (Hname : name <> "") by (intros ->; contradiction).
    pose proof (proj2 (nonempty_str_PStr name) Hname) as Hvalid.
    unfold nonempty_str in Hvalid. apply andb_true_iff in Hvalid.
    destruct Hvalid as [-> ->]. cbn [negb orb].
    by apply missing_sheet_row_ok.
Qed.

(** The leniency of the missing-sheet normalizer: when the input has no
    'errors' key, or its errors have no "Missing In Spreadsheet 2" key, or
    the value under that key is not a list, the result is an empty frame and
    no identifier is drawn, even if the fields of the context are invalid. *)
Theorem create_dataframe_missing_sheets_lenient
    (entries : pydict pyobj) (a b c : pyobj) (drawn : nat) :
  dict_get "errors" entries = None
  \/ (exists errs,
        dict_get "errors" entries = Some (PDict errs)
        /\ (dict_get "Missing In Spreadsheet 2" errs = None
            \/ exists v,
                 dict_get "Missing In Spreadsheet 2" errs = Some v
                 /\ forall items, v <> PList items)) ->
  create_dataframe_missing_sheets (PDict entries) (PMissingSheetContext a b c)
    drawn
  = (inr [], drawn).
Proof.
  unfold create_dataframe_missing_sheets.
  intros [Hnone | (errs & Herrors & Hcase)].
  - rewrite Hnone. reflexivity.
  - rewrite Herrors. cbn [from_option id].
    destruct Hcase as [Hnone | (v & Hv & Hnot)].
    + rewrite Hnone. reflexivity.
    + rewrite Hv. cbn [from_option id].
      destruct v; try reflexivity. by destruct (Hnot items).
Qed.

Lemma create_dataframe_missing_sheets_lenient_witness :
  create_dataframe_missing_sheets
    (PDict [("status", PStr "Error");
            ("errors", PDict [("Missing In Spreadsheet 2", PStr "Sheet1")])])
    (PMissingSheetContext PNone (PStr "") (PInt 3)) 0%nat
  = (inr [], 0%nat).
Proof.
  apply create_dataframe_missing_sheets_lenient. right.
  exists [("Missing In Spreadsheet 2", PStr "Sheet1")]. split; [reflexivity |].
  right. exists (PStr "Sheet1"). split; [reflexivity | discriminate].
Defined.

(** With a context of three non-empty strings and a list of non-empty sheet
    names, the normalizer builds one row per name, in order, each with a
    fresh identifier, the name as [Sheet_Cd], the description "Missing Sheet"
    and no cell reference. *)
Theorem create_dataframe_missing_sheets_rows
    (entries errs : pydict pyobj) (names : list string) (a b c : pyobj)
    (drawn : nat) :
  dict_get "errors" entries = Some (PDict errs) ->
  dict_get "Missing In Spreadsheet 2" errs = Some (PList (PStr <$> names)) ->
  "" ∉ names ->
  nonempty_str a = true -> nonempty_str b = true -> nonempty_str c = true ->
  create_dataframe_missing_sheets (PDict entries) (PMissingSheetContext a b c)
    drawn
  = (inr (numbered (missing_sheet_event a b c) drawn names),
     (drawn + length names)%nat).
Proof.
  intros Herrors Hmissing Hnames Ha Hb Hc.
  unfold create_dataframe_missing_sheets.
  rewrite Herrors. cbn [from_option id]. rewrite Hmissing. cbn [from_option id].
  by apply missing_sheets_loop.
Qed.

Lemma create_dataframe_missing_sheets_rows_witness :
  create_dataframe_missing_sheets
    (PDict [("errors",
             PDict [("Missing In Spreadsheet 2", PList [PStr "A"; PStr "B"])])])
    (PMissingSheetContext (PStr "?") (PStr "Missing Sheet") (PStr "soft")) 5%nat
  = (inr [missing_sheet_event (PStr "?") (PStr "Missing Sheet") (PStr "soft")
            5 "A";
          missing_sheet_event (PStr "?") (PStr "Missing Sheet") (PStr "soft")
            6 "B"],
     7%nat).
Proof.
  apply (create_dataframe_missing_sheets_rows
           [("errors",
             PDict [("Missing In Spreadsheet 2", PList [PStr "A"; PStr "B"])])]
           [("Missing In Spreadsheet 2", PList [PStr "A"; PStr "B"])]
           ["A"; "B"]).
  - reflexivity.
  - reflexivity.
  - intros Hin. repeat (apply elem_of_cons in Hin; destruct Hin as [Hin | Hin];
      [discriminate |]). by apply not_elem_of_nil in Hin.
  - reflexivity.
  - reflexivity.
  - reflexivity.
Defined.

(** A listed sheet that is not a non-empty string stops the normalizer with
    a ValueError, after a row was built and an identifier drawn for each of
    the valid names before it. *)
Theorem create_dataframe_missing_sheets_bad_name
    (entries errs : pydict pyobj) (good : list string) (bad : pyobj)
    (rest : list pyobj) (a b c : pyobj) (drawn : nat) :
  dict_get "errors" entries = Some (PDict errs) ->
  dict_get "Missing In Spreadsheet 2" errs
  = Some (PList ((PStr <$> good) ++ bad :: rest)) ->
  "" ∉ good ->
  nonempty_str bad = false ->
  nonempty_str a = true -> nonempty_str b = true -> nonempty_str c = true ->
  exists msg,
    create_dataframe_missing_sheets (PDict entries) (PMissingSheetContext a b c)
      drawn
    = (inl (ValueError msg), (drawn + length good)%nat).
Proof.
  intros Herrors Hmissing Hgood Hbad Ha Hb Hc.
  unfold create_dataframe_missing_sheets.
  rewrite Herrors. cbn [from_option id]. rewrite Hmissing. cbn [from_option id].
  exists ("Invalid sheet name: '" +:+ str_object bad
            +:+ "'. Each sheet must be a non-empty string.").
  rewrite (for_each_raises_after _
             (fun n sheet =>
                match sheet with
                | PStr name => missing_sheet_event a b c n name
                | _ => missing_sheet_event a b c n ""
                end) _ _ _
             (ValueError
                ("Invalid sheet name: '" +:+ str_object bad
                   +:+ "'. Each sheet must be a non-empty string."))).
  - by rewrite length_fmap.
  - intros sheet n Hin.
    apply list_elem_of_fmap in Hin. destruct Hin as (name & -> & Hin).
    assert (Hname : name <> "") by (intros ->; contradiction).
    pose proof (proj2 (nonempty_str_PStr name) Hname) as Hvalid.
    unfold nonempty_str in Hvalid. apply andb_true_iff in Hvalid.
    destruct Hvalid as [-> ->]. cbn [negb orb].
    by apply missing_sheet_row_ok.
  - intros n. unfold nonempty_str in Hbad.
    destruct (is_str bad), (truthy bad); try discriminate; reflexivity.
Qed.

Lemma create_dataframe_missing_sheets_bad_name_witness :
  exists msg,
    create_dataframe_missing_sheets
      (PDict [("errors",
               PDict [("Missing In Spreadsheet 2",
                       PList [PStr "A"; PInt 7; PStr "B"])])])
      (PMissingSheetContext (PStr "?") (PStr "Missing Sheet") (PStr "soft"))
      0%nat
    = (inl (ValueError msg), 1%nat).
Proof.
  apply (create_dataframe_missing_sheets_bad_name
           [("errors",
             PDict [("Missing In Spreadsheet 2",
                     PList [PStr "A"; PInt 7; PStr "B"])])]
           [("Missing In Spreadsheet 2", PList [PStr "A"; PInt 7; PStr "B"])]
           ["A"] (PInt 7) [PStr "B"]).
  - reflexivity.
  - reflexivity.
  - intros Hin. apply list_elem_of_singleton in Hin. discriminate.
  - reflexivity.
  - reflexivity.
  - reflexivity.
  - reflexivity.
Defined.

(** ** Formula-error normalizer *)

Lemma for_each_nested {K C B : Type} (row : K -> C -> M B)
    (mk : nat -> K * C -> B) (rows : list (K * list C)) :
  (forall k c n, row k c n = (inr (mk n (k, c)), S n)) ->
  forall drawn, exists built,
    for_each (fun '(k, cells) => for_each (row k) cells) rows drawn
    = (inr built,
       (drawn + length (entry ← rows; pair entry.1 <$> entry.2))%nat)
    /\ concat built
       = numbered mk drawn (entry ← rows; pair entry.1 <$> entry.2).
Proof.
  intros Hrow. induction rows as [| [k cells] rows IH]; intros drawn.
  - exists []. cbn. by rewrite Nat.add_0_r.
  - destruct (IH (drawn + length cells)%nat) as (built & Hrun & Hconcat).
    exists (numbered (fun n c => mk n (k, c)) drawn cells :: built).
    cbn [for_each]. rewrite bind_run.
    rewrite (for_each_numbered (row k) (fun n c => mk n (k, c)))
      by (intros; apply Hrow).
    rewrite bind_run, Hrun. cbn [mbind list_bind fst snd].
    rewrite length_app, length_fmap, numbered_app, length_fmap. split.
    + unfold ret. f_equal. lia.
    + cbn [concat]. rewrite Hconcat. f_equal.
      clear. revert drawn. induction cells as [| c cells IH]; intros drawn; cbn;
        [reflexivity | by rewrite IH].
Qed.

Lemma error_cells_rows (errs : pydict pyobj) :
  (entry ← omap (fun '(error_type, cells) =>
                   match cells with
                   | PList items => Some (error_type, items)
                   | _ => None
                   end) errs;
   pair entry.1 <$> entry.2)
  = error_cells errs.
Proof.
  unfold error_cells. induction errs as [| [k v] errs IH]; [reflexivity |].
  cbn [omap list_omap mbind list_bind fst snd]. rewrite <- IH.
  destruct v; reflexivity.
Qed.

Lemma formula_error_loop (errs : pydict pyobj) (a b c d : pyobj) :
  forall drawn, exists built,
    for_each
      (fun '(error_type, cells) =>
         for_each
           (fun cell_ref => create_row_for_error b error_type cell_ref a c d)
           cells)
      (omap (fun '(error_type, cells) =>
               match cells with
               | PList items => Some (error_type, items)
               | _ => None
               end) errs) drawn
    = (inr built, (drawn + length (error_cells errs))%nat)
    /\ concat built
       = numbered (formula_error_event a b c d) drawn (error_cells errs).
Proof.
  intros drawn.
  destruct (for_each_nested
              (fun error_type cell_ref =>
                 create_row_for_error b error_type cell_ref a c d)
              (formula_error_event a b c d)
              (omap (fun '(error_type, cells) =>
                       match cells with
                       | PList items => Some (error_type, items)
                       | _ => None
                       end) errs)
              ltac:(reflexivity) drawn)
    as (built & Hrun & Hconcat).
  rewrite error_cells_rows in Hrun, Hconcat. by exists built.
Qed.

Lemma formula_errors_validated (entries : pydict pyobj) (a b c d : pyobj)
    (drawn : nat) :
  a <> PNone -> b <> PNone -> c <> PNone -> d <> PNone ->
  validate_input_data (PDict entries) (PFormulaErrorSheetContext a b c d) drawn
  = (inr tt, drawn).
Proof.
  intros Ha Hb Hc Hd.
  assert (Hnone : forall o, o <> PNone -> is_none o = false)
    by (intros [] Ho; try reflexivity; congruence).
  unfold validate_input_data. cbn [existsb].
  by rewrite !Hnone.
Qed.

(** With a context that has no None field, the formula-error normalizer
    builds one row per cell of every list-valued entry of the errors, in
    order and each with a fresh identifier: the cell as [Cell_Reference], the
    key as [Error_Desc]. An entry whose value is not a list is passed over,
    and an input without 'errors' gives an empty frame. *)
Theorem create_dataframe_formula_errors_rows
    (entries errs : pydict pyobj) (a b c d : pyobj) (drawn : nat) :
  get_errors entries = PDict errs ->
  a <> PNone -> b <> PNone -> c <> PNone -> d <> PNone ->
  create_dataframe_formula_errors (PDict entries)
    (PFormulaErrorSheetContext a b c d) drawn
  = (inr (numbered (formula_error_event a b c d) drawn (error_cells errs)),
     (drawn + length (error_cells errs))%nat).
Proof.
  intros Herrors Ha Hb Hc Hd. unfold create_dataframe_formula_errors.
  rewrite bind_run, formula_errors_validated by assumption.
  rewrite bind_run. unfold extract_error_rows. rewrite Herrors.
  cbn [mret M_ret ret]. unfold ret at 1. rewrite bind_run.
  destruct (formula_error_loop errs a b c d drawn) as (built & Hrun & Hconcat).
  rewrite Hrun. cbn. by rewrite Hconcat.
Qed.

Lemma create_dataframe_formula_errors_rows_witness :
  create_dataframe_formula_errors
    (PDict [("errors",
             PDict [("#DIV/0!", PList [PStr "B3"; PStr "C4"]);
                    ("note", PStr "not a list");
                    ("#N/A", PList [PStr "A1"])])])
    (PFormulaErrorSheetContext (PStr "?") (PStr "Sheet1")
       (PStr "Formula Error") (PStr "hard")) 0%nat
  = (inr [formula_error_event (PStr "?") (PStr "Sheet1") (PStr "Formula Error")
            (PStr "hard") 0 ("#DIV/0!", PStr "B3");
          formula_error_event (PStr "?") (PStr "Sheet1") (PStr "Formula Error")
            (PStr "hard") 1 ("#DIV/0!", PStr "C4");
          formula_error_event (PStr "?") (PStr "Sheet1") (PStr "Formula Error")
            (PStr "hard") 2 ("#N/A", PStr "A1")],
     3%nat).
Proof.
  apply (create_dataframe_formula_errors_rows
           [("errors",
             PDict [("#DIV/0!", PList [PStr "B3"; PStr "C4"]);
                    ("note", PStr "not a list");
                    ("#N/A", PList [PStr "A1"])])]
           [("#DIV/0!", PList [PStr "B3"; PStr "C4"]);
            ("note", PStr "not a list");
            ("#N/A", PList [PStr "A1"])]);
    [reflexivity | discriminate ..].
Defined.

(** ** Structure-discrepancy and formula-difference normalizers *)

Lemma as_strs_PStr (details : list string) :
  as_strs (PStr <$> details) = Some details.
Proof.
  induction details as [| s details IH]; [reflexivity |].
  cbn. by rewrite IH.
Qed.

Lemma all_truthy (a b c d : pyobj) :
  truthy a = true -> truthy b = true -> truthy c = true -> truthy d = true ->
  forallb truthy [a; d; b; c] = true.
Proof. intros Ha Hb Hc Hd. cbn. by rewrite Ha, Hb, Hc, Hd. Qed.

Lemma structure_row_ok (a b c d : pyobj) (k : string) (details : list string)
    (n : nat) :
  structure_discrepancy_row a b c d (k, PList (PStr <$> details)) n
  = (inr (structure_event a b c d n (k, details)), S n).
Proof.
  unfold structure_discrepancy_row. cbn [as_sequence].
  by rewrite as_strs_PStr.
Qed.

Lemma numbered_errors_dict {B : Type} (mk : nat -> string * list string -> B)
    (mk' : nat -> string * pyobj -> B) (start : nat)
    (errs : pydict (list string)) :
  (forall n k details, mk' n (k, PList (PStr <$> details)) = mk n (k, details)) ->
  numbered mk' start (errors_dict errs) = numbered mk start errs.
Proof.
  intros Hmk. revert start.
  induction errs as [| [k details] errs IH]; intros start; cbn;
    [reflexivity | by rewrite Hmk, IH].
Qed.

Lemma structure_loop (errs : pydict (list string)) (a b c d : pyobj) :
  forall drawn,
    for_each (structure_discrepancy_row a b c d) (errors_dict errs) drawn
    = (inr (numbered (structure_event a b c d) drawn errs),
       (drawn + length errs)%nat).
Proof.
  intros drawn.
  rewrite (for_each_numbered _
             (fun n entry =>
                structure_event a b c d n
                  (entry.1, default [] (details_of entry.2)))).
  - unfold errors_dict. rewrite length_fmap. do 2 f_equal.
    apply numbered_errors_dict. intros n k details. unfold details_of.
    cbn. by rewrite as_strs_PStr.
  - intros [k v] n Hin. apply list_elem_of_fmap in Hin.
    destruct Hin as ([k' details] & [= -> ->] & _).
    rewrite structure_row_ok. unfold details_of. cbn. by rewrite as_strs_PStr.
Qed.

(** With a context of four truthy fields and errors whose values are lists
    of strs, as every comparator returns them, the structure-discrepancy
    normalizer builds one row per key, in order and each with a fresh
    identifier: the details of the key joined by " -- " as [Error_Desc], no
    cell reference, and the key itself is not kept. *)
Theorem create_dataframe_structure_discrepancies_rows
    (entries : pydict pyobj) (errs : pydict (list string)) (a b c d : pyobj)
    (drawn : nat) :
  dict_get "errors" entries = Some (PDict (errors_dict errs)) ->
  truthy a = true -> truthy b = true -> truthy c = true -> truthy d = true ->
  create_dataframe_structure_discrepancies (PDict entries)
    (PStructureDiscrepancyContext a b c d) drawn
  = (inr (numbered (structure_event a b c d) drawn errs),
     (drawn + length errs)%nat).
Proof.
  intros Herrors Ha Hb Hc Hd.
  unfold create_dataframe_structure_discrepancies.
  rewrite Herrors, (all_truthy a b c d) by assumption. cbn [negb].
  apply structure_loop.
Qed.

Lemma create_dataframe_structure_discrepancies_rows_witness :
  create_dataframe_structure_discrepancies
    (PDict [("status", PStr "Error");
            ("errors",
             PDict [("Empty Sheet", PList [PStr "Data"; PStr "Copy"]);
                    ("Row/Column Count", PList [PStr "shapes differ"])])])
    (PStructureDiscrepancyContext (PStr "?") (PStr "Data")
       (PStr "Structure Discrepancy") (PStr "hard")) 0%nat
  = (inr [structure_event (PStr "?") (PStr "Data")
            (PStr "Structure Discrepancy") (PStr "hard") 0
            ("Empty Sheet", ["Data"; "Copy"]);
          structure_event (PStr "?") (PStr "Data")
            (PStr "Structure Discrepancy") (PStr "hard") 1
            ("Row/Column Count", ["shapes differ"])],
     2%nat).
Proof.
  apply (create_dataframe_structure_discrepancies_rows
           [("status", PStr "Error");
            ("errors",
             PDict [("Empty Sheet", PList [PStr "Data"; PStr "Copy"]);
                    ("Row/Column Count", PList [PStr "shapes differ"])])]
           [("Empty Sheet", ["Data"; "Copy"]);
            ("Row/Column Count", ["shapes differ"])]);
    reflexivity.
Defined.

(** An entry whose value is not a list or tuple of strs stops the
    structure-discrepancy normalizer with a ValueError, after a row was built
    and an identifier drawn for each well-formed entry before it. *)
Theorem create_dataframe_structure_discrepancies_bad_entry
    (entries : pydict pyobj) (good : pydict (list string)) (key : string)
    (bad : pyobj) (rest : pydict pyobj) (a b c d : pyobj) (drawn : nat) :
  dict_get "errors" entries
  = Some (PDict (errors_dict good ++ (key, bad) :: rest)) ->
  details_of bad = None ->
  truthy a = true -> truthy b = true -> truthy c = true -> truthy d = true ->
  exists msg,
    create_dataframe_structure_discrepancies (PDict entries)
      (PStructureDiscrepancyContext a b c d) drawn
    = (inl (ValueError msg), (drawn + length good)%nat).
Proof.
  intros Herrors Hbad Ha Hb Hc Hd.
  unfold create_dataframe_structure_discrepancies.
  rewrite Herrors, (all_truthy a b c d) by assumption. cbn [negb].
  assert (Hraise : exists msg, forall n,
            structure_discrepancy_row a b c d (key, bad) n
            = (inl (ValueError msg), n)).
  { unfold structure_discrepancy_row, details_of in *.
    destruct (as_sequence bad) as [items |]; [| by eexists].
    cbn in Hbad. rewrite Hbad. by eexists. }
  destruct Hraise as (msg & Hraise). exists msg.
  rewrite (for_each_raises_after _
             (fun n entry =>
                structure_event a b c d n
                  (entry.1, default [] (details_of entry.2)))
             _ _ _ (ValueError msg)).
  - unfold errors_dict. by rewrite length_fmap.
  - intros [k v] n Hin. apply list_elem_of_fmap in Hin.
    destruct Hin as ([k' details] & [= -> ->] & _).
    rewrite structure_row_ok. unfold details_of. cbn. by rewrite as_strs_PStr.
  - exact Hraise.
Qed.

Lemma create_dataframe_structure_discrepancies_bad_entry_witness :
  exists msg,
    create_dataframe_structure_discrepancies
      (PDict [("errors",
               PDict [("Empty Sheet", PList [PStr "Data"]);
                      ("Row/Column Count", PStr "shapes differ")])])
      (PStructureDiscrepancyContext (PStr "?") (PStr "Data")
         (PStr "Structure Discrepancy") (PStr "hard")) 0%nat
    = (inl (ValueError msg), 1%nat).
Proof.
  apply (create_dataframe_structure_discrepancies_bad_entry
           [("errors",
             PDict [("Empty Sheet", PList [PStr "Data"]);
                    ("Row/Column Count", PStr "shapes differ")])]
           [("Empty Sheet", ["Data"])] "Row/Column Count"
           (PStr "shapes differ") []);
    reflexivity.
Defined.

Lemma formula_difference_row_ok (a b c d : pyobj) (k : string)
    (details : list string) (n : nat) :
  formula_difference_row a b c d (k, PList (PStr <$> details)) n
  = (inr (formula_difference_event a b c d n (k, details)), S n).
Proof.
  unfold formula_difference_row. rewrite bind_run. cbn [uuid4].
  rewrite bind_run. unfold lift, py_join. cbn [as_sequence].
  by rewrite as_strs_PStr.
Qed.

Lemma formula_difference_loop (errs : pydict (list string)) (a b c d : pyobj) :
  forall drawn,
    for_each (formula_difference_row a b c d) (errors_dict errs) drawn
    = (inr (numbered (formula_difference_event a b c d) drawn errs),
       (drawn + length errs)%nat).
Proof.
  intros drawn.
  rewrite (for_each_numbered _
             (fun n entry =>
                formula_difference_event a b c d n
                  (entry.1, default [] (details_of entry.2)))).
  - unfold errors_dict. rewrite length_fmap. do 2 f_equal.
    apply numbered_errors_dict. intros n k details. unfold details_of.
    cbn. by rewrite as_strs_PStr.
  - intros [k v] n Hin. apply list_elem_of_fmap in Hin.
    destruct Hin as ([k' details] & [= -> ->] & _).
    rewrite formula_difference_row_ok. unfold details_of. cbn.
    by rewrite as_strs_PStr.
Qed.

(** With a context of four truthy fields and errors whose values are lists
    of strs, the formula-difference normalizer builds one row per key, in
    order and each with a fresh identifier: the key as [Cell_Reference] and
    its details joined by " -- " as [Error_Desc]. *)
Theorem create_dataframe_formula_differences_rows
    (entries : pydict pyobj) (errs : pydict (list string)) (a b c d : pyobj)
    (drawn : nat) :
  get_errors entries = PDict (errors_dict errs) ->
  truthy a = true -> truthy b = true -> truthy c = true -> truthy d = true ->
  create_dataframe_formula_differences (PDict entries)
    (PFormulaDifferencesContext a b c d) drawn
  = (inr (numbered (formula_difference_event a b c d) drawn errs),
     (drawn + length errs)%nat).
Proof.
  intros Herrors Ha Hb Hc Hd.
  unfold create_dataframe_formula_differences.
  rewrite (all_truthy a b c d) by assumption. cbn [negb]. rewrite Herrors.
  apply formula_difference_loop.
Qed.

Lemma create_dataframe_formula_differences_rows_witness :
  create_dataframe_formula_differences
    (PDict [("errors", PDict [("A1", PList [PStr "x"; PStr "y"])])])
    (PFormulaDifferencesContext (PStr "?") (PStr "Sheet1")
       (PStr "Formula Difference") (PStr "hard")) 4%nat
  = (inr [formula_difference_event (PStr "?") (PStr "Sheet1")
            (PStr "Formula Difference") (PStr "hard") 4 ("A1", ["x"; "y"])],
     5%nat).
Proof.
  apply (create_dataframe_formula_differences_rows
           [("errors", PDict [("A1", PList [PStr "x"; PStr "y"])])]
           [("A1", ["x"; "y"])]);
    reflexivity.
Defined.

(** Sheets of different nominal dimensions leave no trace in the events:
    [compare_formulas] answers "Error" for them, yet the formula-difference
    normalizer builds no row from that result and draws no identifier. *)
Theorem formula_differences_pass_over_dimensions
    (sheet1 sheet2 : Worksheet) (a b c d : pyobj) (drawn : nat) :
  (max_row sheet1, max_column sheet1) <> (max_row sheet2, max_column sheet2) ->
  truthy a = true -> truthy b = true -> truthy c = true -> truthy d = true ->
  exists r,
    compare_formulas (PWorksheet sheet1) (PWorksheet sheet2) = inr r
    /\ status r = "Error"
    /\ create_dataframe_formula_differences (result_dict r)
         (PFormulaDifferencesContext a b c d) drawn
       = (inr [], drawn).
Proof.
  intros Hne Ha Hb Hc Hd. eexists.
  split; [by apply formulas_compared_other_dimensions |].
  split; [reflexivity |].
  unfold create_dataframe_formula_differences, result_dict.
  rewrite (all_truthy a b c d) by assumption. reflexivity.
Qed.

Lemma formula_differences_pass_over_dimensions_witness :
  exists r,
    compare_formulas (PWorksheet three_column_sheet)
      (PWorksheet two_column_sheet) = inr r
    /\ status r = "Error"
    /\ create_dataframe_formula_differences (result_dict r)
         (PFormulaDifferencesContext (PStr "?") (PStr "Data")
            (PStr "Formula Difference") (PStr "hard")) 0%nat
       = (inr [], 0%nat).
Proof.
  apply (formula_differences_pass_over_dimensions
           three_column_sheet two_column_sheet);
    [simpl; discriminate | reflexivity ..].
Defined.

(** ** Orchestrators *)

Lemma for_each_produces {A X : Type} (f : X -> A) (body : A -> M DataFrame)
    (P : Event -> Prop) (cost : X -> nat) (xs : list X) :
  (forall x, x ∈ xs -> produces P (cost x) (body (f x))) ->
  forall n, exists frames,
    for_each body (f <$> xs) n
    = (inr frames, (n + sum_list_with cost xs)%nat)
    /\ length frames = length xs
    /\ length (concat frames) = sum_list_with cost xs
    /\ Event_Id <$> concat frames = seq n (sum_list_with cost xs)
    /\ Forall P (concat frames).
Proof.
  induction xs as [| x xs IH]; intros Hbody n.
  - exists []. cbn. rewrite Nat.add_0_r. by repeat split.
  - destruct (Hbody x (list_elem_of_here _ _) n)
      as (rows & Hrows & Hlen & Hids & HP).
    destruct (IH (fun y Hy => Hbody y (list_elem_of_further _ _ _ Hy))
                 (n + cost x)%nat)
      as (frames & Hrun & Hcount & Hlength & Hseq & HPs).
    exists (rows :: frames).
    cbn [fmap list_fmap for_each]. rewrite bind_run, Hrows, bind_run, Hrun.
    cbn [sum_list_with concat length].
    rewrite length_app, fmap_app, Hlen, Hlength, Hids, Hseq, seq_app.
    split; [unfold mret, M_ret, ret; f_equal; lia |].
    split; [by rewrite Hcount |]. split; [reflexivity |].
    split; [reflexivity |]. by apply Forall_app.
Qed.

Lemma Forall_numbered {A : Type} (P : Event -> Prop) (mk : nat -> A -> Event)
    (start : nat) (items : list A) :
  (forall n x, P (mk n x)) -> Forall P (numbered mk start items).
Proof.
  intros HP. revert start.
  induction items as [| x items IH]; intros start; cbn; constructor; auto.
Qed.

Lemma numbered_produces {A : Type} (P : Event -> Prop) (mk : nat -> A -> Event)
    (items : list A) (m : M DataFrame) :
  (forall n, m n = (inr (numbered mk n items), (n + length items)%nat)) ->
  (forall n x, Event_Id (mk n x) = n) ->
  (forall n x, P (mk n x)) ->
  produces P (length items) m.
Proof.
  intros Hrun Hid HP n. exists (numbered mk n items).
  split; [apply Hrun |]. split; [apply length_numbered |].
  split; [by apply ids_numbered | by apply Forall_numbered].
Qed.

Lemma sheets_of_worksheets (wb : Workbook) (wss : list Worksheet) :
  sheets wb = AWorksheet <$> wss ->
  worksheets wb ++ chartsheets wb = AWorksheet <$> wss
  /\ sheetnames wb = title <$> wss.
Proof.
  intros Hsheets. unfold worksheets, chartsheets, sheetnames.
  rewrite Hsheets. clear. split.
  - induction wss as [| ws wss IH]; [reflexivity |].
    cbn [fmap list_fmap] in *. rewrite !filter_cons.
    rewrite decide_True by reflexivity. rewrite decide_False by discriminate.
    cbn [app]. by rewrite IH.
  - by rewrite <- list_fmap_compose.
Qed.

Lemma getitem_worksheet (wb : Workbook) (wss : list Worksheet) (name : string) :
  sheets wb = AWorksheet <$> wss ->
  name ∈ sheetnames wb ->
  exists ws,
    getitem wb name = inr (PWorksheet ws) /\ title ws = name /\ ws ∈ wss.
Proof.
  intros Hsheets. destruct (sheets_of_worksheets wb wss Hsheets) as [Hall ->].
  unfold getitem. rewrite Hall. clear.
  induction wss as [| ws wss IH]; intros Hin.
  - by apply not_elem_of_nil in Hin.
  - cbn [fmap list_fmap find sheet_title]. case_bool_decide as Htitle.
    + exists ws. split; [reflexivity |]. split; [exact Htitle |].
      apply list_elem_of_here.
    + cbn [fmap list_fmap] in Hin. apply elem_of_cons in Hin.
      destruct Hin as [-> | Hin]; [done |].
      destruct (IH Hin) as (ws' & Hget & Htitle' & Hin').
      exists ws'. split; [exact Hget |]. split; [exact Htitle' |].
      by apply list_elem_of_further.
Qed.

Lemma getitem_NoDup (wb : Workbook) (wss : list Worksheet) (ws : Worksheet) :
  sheets wb = AWorksheet <$> wss ->
  NoDup (sheetnames wb) -> ws ∈ wss ->
  getitem wb (title ws) = inr (PWorksheet ws).
Proof.
  intros Hsheets. destruct (sheets_of_worksheets wb wss Hsheets) as [Hall ->].
  unfold getitem. rewrite Hall. clear.
  induction wss as [| ws' wss IH]; intros Hnodup Hin.
  - by apply not_elem_of_nil in Hin.
  - cbn [fmap list_fmap] in Hnodup. apply NoDup_cons in Hnodup.
    destruct Hnodup as [Hfresh Hnodup].
    cbn [fmap list_fmap find sheet_title].
    apply elem_of_cons in Hin. destruct Hin as [-> | Hin].
    + by rewrite bool_decide_eq_true_2.
    + rewrite bool_decide_eq_false_2; [by apply IH |].
      intros Htitle. apply Hfresh. rewrite Htitle.
      apply list_elem_of_fmap. by exists ws.
Qed.

Lemma elem_of_common_sheetnames (template company : Workbook) (name : string) :
  name ∈ common_sheetnames template company
  <-> name ∈ sheetnames template /\ name ∈ sheetnames company.
Proof.
  unfold common_sheetnames.
  by rewrite elem_of_elements, elem_of_intersection, !elem_of_list_to_set.
Qed.

Lemma truthy_PStr (name : string) : name <> "" -> truthy (PStr name) = true.
Proof. intros Hname. cbn. by rewrite bool_decide_eq_false_2. Qed.

Lemma pd_concat_frames (frames : list DataFrame) :
  frames <> [] -> pd_concat frames = inr (concat frames).
Proof. by destruct frames. Qed.

(** *** find_missing_sheets *)

(** When no sheet that only the template has is named by the empty string,
    [find_missing_sheets] returns one row per sheet name that the template
    has and the company workbook lacks, each name once, and none for the
    names only the company workbook has. *)
Theorem find_missing_sheets_rows (template company : Workbook) (drawn : nat) :
  (forall name,
      name ∈ sheetnames template -> name ∉ sheetnames company -> name <> "") ->
  exists names,
    find_missing_sheets (PWorkbook template) (PWorkbook company) drawn
    = (inr (numbered
              (missing_sheet_event (PStr "?") (PStr "Missing Sheet") (PStr "soft"))
              drawn names),
       (drawn + length names)%nat)
    /\ NoDup names
    /\ (forall name,
          name ∈ names
          <-> name ∈ sheetnames template /\ name ∉ sheetnames company).
Proof.
  intros Hnames.
  exists (elements ((list_to_set (sheetnames template) : gset string)
                      ∖ list_to_set (sheetnames company))).
  split; [| split; [apply NoDup_elements | apply elem_of_missing]].
  pose proof (elem_of_missing (sheetnames template) (sheetnames company)) as Hmem.
  unfold find_missing_sheets. rewrite bind_run.
  unfold lift. cbn [validate_tabs_between_spreadsheets].
  destruct (elements (list_to_set (sheetnames company)
                        ∖ list_to_set (sheetnames template))) as [| a m1];
    destruct (elements (list_to_set (sheetnames template)
                          ∖ list_to_set (sheetnames company))) as [| b m2] eqn:Hm2;
    cbn [nonempty orb app]; unfold create_dataframe_missing_sheets, result_dict;
    cbn [errors status description dict_get fmap list_fmap];
    repeat (case_decide; [discriminate |]);
    repeat (rewrite decide_True by reflexivity);
    cbn [from_option id dict_get fmap list_fmap];
    repeat (case_decide; [discriminate |]);
    repeat (rewrite decide_True by reflexivity);
    cbn [from_option id]; try (cbn; by rewrite Nat.add_0_r).
  - change (PStr b :: (PStr <$> m2)) with (PStr <$> (b :: m2)).
    apply missing_sheets_loop; try reflexivity.
    intros Hempty. apply Hmem in Hempty. destruct Hempty as [Hin Hout].
    by apply (Hnames "").
  - change (PStr b :: (PStr <$> m2)) with (PStr <$> (b :: m2)).
    apply missing_sheets_loop; try reflexivity.
    intros Hempty. apply Hmem in Hempty. destruct Hempty as [Hin Hout].
    by apply (Hnames "").
Qed.

Lemma find_missing_sheets_rows_witness :
  exists names,
    find_missing_sheets (PWorkbook template_book) (PWorkbook company_book) 0%nat
    = (inr (numbered
              (missing_sheet_event (PStr "?") (PStr "Missing Sheet") (PStr "soft"))
              0%nat names),
       (0 + length names)%nat)
    /\ NoDup names
    /\ (forall name,
          name ∈ names
          <-> name ∈ sheetnames template_book
              /\ name ∉ sheetnames company_book).
Proof.
  apply (find_missing_sheets_rows template_book company_book 0%nat).
  intros name Hin _ ->. cbn in Hin.
  repeat (apply elem_of_cons in Hin; destruct Hin as [Hin | Hin];
    [discriminate |]).
  by apply not_elem_of_nil in Hin.
Defined.

(** *** find_formula_errors *)

Lemma length_error_cells (errs : pydict (list string)) :
  length (error_cells (errors_dict errs)) = total_details errs.
Proof.
  unfold error_cells, errors_dict.
  induction errs as [| [k details] errs IH]; [reflexivity |].
  cbn [fmap list_fmap mbind list_bind fst snd total_details].
  by rewrite length_app, !length_fmap, IH.
Qed.

Lemma formula_errors_of_sheet (names : list string) (ws : Worksheet)
    (name : string) :
  name ∈ names ->
  max_column ws <= 18278 ->
  produces (event_of names "Formula Error" "hard")
    (length (error_positions ws))
    (formula_errors ← lift (check_formula_errors (PWorksheet ws));
     create_dataframe_formula_errors (result_dict formula_errors)
       (PFormulaErrorSheetContext (PStr "?") (PStr name)
          (PStr "Formula Error") (PStr "hard"))).
Proof.
  intros Hname Hcols. rewrite <- total_details_scanned.
  rewrite <- (errors_scan_result (scanned ws)) at 1.
  rewrite <- length_error_cells.
  apply (numbered_produces _
           (formula_error_event (PStr "?") (PStr name) (PStr "Formula Error")
              (PStr "hard"))).
  - intros n. rewrite bind_run. unfold lift. cbn [check_formula_errors].
    rewrite formula_errors_returns by exact Hcols.
    unfold create_dataframe_formula_errors, result_dict.
    rewrite bind_run, formula_errors_validated by discriminate.
    rewrite bind_run. unfold extract_error_rows, get_errors.
    cbn [dict_get]. repeat (case_decide; [discriminate |]).
    rewrite decide_True by reflexivity.
    cbn [from_option id mret M_ret ret]. unfold ret at 1. rewrite bind_run.
    destruct (formula_error_loop
                (errors_dict (errors (scan_result (scanned ws))))
                (PStr "?") (PStr name) (PStr "Formula Error") (PStr "hard") n)
      as (built & Hrun & Hconcat).
    unfold errors_dict in *. rewrite Hrun. cbn. by rewrite Hconcat.
  - reflexivity.
  - intros n entry. split; [by exists name |]. by repeat split.
Qed.

Lemma find_formula_errors_loop (book : Workbook) (wss : list Worksheet)
    (cost : Worksheet -> nat) :
  (forall ws, ws ∈ wss ->
     exists ws', getitem book (title ws) = inr (PWorksheet ws')
                 /\ max_column ws' <= 18278
                 /\ cost ws = length (error_positions ws')) ->
  forall n, exists frames,
    for_each
      (fun sheetname =>
         sheet ← lift (getitem book sheetname);
         formula_errors ← lift (check_formula_errors sheet);
         create_dataframe_formula_errors (result_dict formula_errors)
           (PFormulaErrorSheetContext (PStr "?") (PStr sheetname)
              (PStr "Formula Error") (PStr "hard")))
      (title <$> wss) n
    = (inr frames, (n + sum_list_with cost wss)%nat)
    /\ length frames = length wss
    /\ length (concat frames) = sum_list_with cost wss
    /\ Event_Id <$> concat frames = seq n (sum_list_with cost wss)
    /\ Forall (event_of (title <$> wss) "Formula Error" "hard")
         (concat frames).
Proof.
  intros Hcost. apply for_each_produces.
  intros ws Hws. destruct (Hcost ws Hws) as (ws' & Hget & Hcols & ->).
  intros n. unfold produces in *.
  destruct (formula_errors_of_sheet (title <$> wss) ws' (title ws)
              ltac:(apply list_elem_of_fmap; by exists ws) Hcols n)
    as (rows & Hrows & Hrest).
  exists rows. split; [| exact Hrest].
  rewrite bind_run. unfold lift at 1. rewrite Hget. exact Hrows.
Qed.

(** For a workbook whose sheets are all worksheets without a column beyond
    18278, [find_formula_errors] raises the ValueError of [pd.concat] when
    there is no sheet, and otherwise returns a frame: its rows carry
    distinct, consecutive identifiers, the name of a sheet of the workbook,
    the rule "?", the category "Formula Error" and the severity "hard". *)
Theorem find_formula_errors_frame (book : Workbook) (wss : list Worksheet)
    (drawn : nat) :
  sheets book = AWorksheet <$> wss ->
  Forall (fun ws => max_column ws <= 18278) wss ->
  (wss = [] ->
   find_formula_errors (PWorkbook book) drawn
   = (inl (ValueError "No objects to concatenate"), drawn))
  /\ (wss <> [] ->
      exists events,
        find_formula_errors (PWorkbook book) drawn
        = (inr events, (drawn + length events)%nat)
        /\ Event_Id <$> events = seq drawn (length events)
        /\ Forall (event_of (sheetnames book) "Formula Error" "hard") events).
Proof.
  intros Hsheets Hbound.
  destruct (sheets_of_worksheets book wss Hsheets) as [_ Hnames].
  unfold find_formula_errors. rewrite Hnames. split.
  - intros ->. reflexivity.
  - intros Hsome.
    destruct (find_formula_errors_loop book wss
                (fun ws =>
                   match getitem book (title ws) with
                   | inr (PWorksheet ws') => length (error_positions ws')
                   | _ => 0%nat
                   end)) with (n := drawn)
      as (frames & Hrun & Hcount & Hlength & Hids & HP).
    { intros ws Hws.
      destruct (getitem_worksheet book wss (title ws) Hsheets)
        as (ws' & Hget & _ & Hin).
      { rewrite Hnames. apply list_elem_of_fmap. by exists ws. }
      exists ws'. rewrite Hget. split; [reflexivity |]. split; [| reflexivity].
      by apply (proj1 (Forall_forall _ _) Hbound). }
    exists (concat frames).
    rewrite bind_run, Hrun. unfold lift.
    rewrite pd_concat_frames
      by (intros ->; destruct wss; [done | discriminate]).
    rewrite Hlength. by repeat split.
Qed.

Lemma find_formula_errors_frame_witness :
  exists events,
    find_formula_errors (PWorkbook template_book) 0%nat
    = (inr events, (0 + length events)%nat)
    /\ Event_Id <$> events = seq 0 (length events).
Proof.
  destruct (find_formula_errors_frame template_book template_sheets 0%nat)
    as [_ Hframe].
  - reflexivity.
  - repeat constructor; simpl; lia.
  - destruct Hframe as (events & Hrun & Hids & _); [discriminate |].
    exists events. split; [exact Hrun | exact Hids].
Defined.

(** In a workbook whose sheets are all worksheets without a column beyond
    18278 and have distinct names, [find_formula_errors] returns as many
    rows as the sheets hold error cells: cells of data type 'e' with a str
    value within the nominal extents. *)
Theorem find_formula_errors_counts (book : Workbook) (wss : list Worksheet)
    (drawn : nat) :
  sheets book = AWorksheet <$> wss ->
  Forall (fun ws => max_column ws <= 18278) wss ->
  NoDup (sheetnames book) ->
  wss <> [] ->
  exists events,
    find_formula_errors (PWorkbook book) drawn
    = (inr events, (drawn + length events)%nat)
    /\ length events
       = sum_list_with (fun ws => length (error_positions ws)) wss.
Proof.
  intros Hsheets Hbound Hnodup Hsome.
  destruct (sheets_of_worksheets book wss Hsheets) as [_ Hnames].
  destruct (find_formula_errors_loop book wss
              (fun ws => length (error_positions ws)))
    with (n := drawn)
    as (frames & Hrun & Hcount & Hlength & _).
  { intros ws Hws. exists ws. split; [by apply (getitem_NoDup book wss) |].
    split; [| reflexivity]. by apply (proj1 (Forall_forall _ _) Hbound). }
  exists (concat frames). unfold find_formula_errors.
  rewrite Hnames, bind_run, Hrun. unfold lift.
  rewrite pd_concat_frames
    by (intros ->; destruct wss; [done | discriminate]).
  rewrite Hlength. by split.
Qed.

Lemma find_formula_errors_counts_witness :
  exists events,
    find_formula_errors (PWorkbook template_book) 0%nat
    = (inr events, (0 + length events)%nat)
    /\ length events = 1%nat.
Proof.
  destruct (find_formula_errors_counts template_book template_sheets 0%nat)
    as (events & Hrun & Hlength).
  - reflexivity.
  - repeat constructor; simpl; lia.
  - cbn. repeat constructor; intros Hin;
      repeat (apply elem_of_cons in Hin; destruct Hin as [Hin | Hin];
        [discriminate |]);
      by apply not_elem_of_nil in Hin.
  - discriminate.
  - exists events. split; [exact Hrun |]. rewrite Hlength. reflexivity.
Defined.

(** *** find_shape_differences and find_formula_differences *)

Lemma structure_of_sheets (names : list string) (sheet1 sheet2 : Worksheet)
    (header_row_number : Z) (name : string) :
  name ∈ names -> name <> "" ->
  produces (event_of names "Structure Discrepancy" "hard")
    (length (errors (sheet_structure sheet1 sheet2 header_row_number)))
    (create_dataframe_structure_discrepancies
       (result_dict (sheet_structure sheet1 sheet2 header_row_number))
       (PStructureDiscrepancyContext (PStr "?") (PStr name)
          (PStr "Structure Discrepancy") (PStr "hard"))).
Proof.
  intros Hname Hnonempty.
  apply (numbered_produces _
           (structure_event (PStr "?") (PStr name)
              (PStr "Structure Discrepancy") (PStr "hard"))).
  - intros n. unfold create_dataframe_structure_discrepancies, result_dict.
    cbn [dict_get]. repeat (case_decide; [discriminate |]).
    rewrite decide_True by reflexivity.
    rewrite all_truthy by (try reflexivity; by apply truthy_PStr).
    cbn [negb]. apply structure_loop.
  - reflexivity.
  - intros n entry. split; [by exists name |]. by repeat split.
Qed.

Lemma formula_differences_of_result (names : list string)
    (r : ComparisonResult) (name : string) :
  name ∈ names -> name <> "" ->
  produces (event_of names "Formula Difference" "hard")
    (length (errors r))
    (create_dataframe_formula_differences (result_dict r)
       (PFormulaDifferencesContext (PStr "?") (PStr name)
          (PStr "Formula Difference") (PStr "hard"))).
Proof.
  intros Hname Hnonempty.
  apply (numbered_produces _
           (formula_difference_event (PStr "?") (PStr name)
              (PStr "Formula Difference") (PStr "hard"))).
  - intros n. unfold create_dataframe_formula_differences, result_dict.
    rewrite all_truthy by (try reflexivity; by apply truthy_PStr).
    cbn [negb]. apply formula_difference_loop.
  - reflexivity.
  - intros n entry. split; [by exists name |]. by repeat split.
Qed.

Lemma formulas_compared_within_bound (sheet1 sheet2 : Worksheet) :
  max_column sheet1 <= 18278 ->
  exists r, formulas_compared sheet1 sheet2 = inr r.
Proof.
  intros Hbound.
  destruct (decide ((max_row sheet1, max_column sheet1)
                    = (max_row sheet2, max_column sheet2)))
    as [[= Hrows Hcols] | Hne]; eexists.
  - by apply formulas_compared_returns.
  - by apply formulas_compared_other_dimensions.
Qed.

(** When the sheets of both workbooks are all worksheets and no common sheet
    is named by the empty string, [find_shape_differences] does not raise:
    it returns a frame, empty when there is no common sheet, whose rows
    carry distinct, consecutive identifiers, the name of a common sheet, the
    rule "?", the category "Structure Discrepancy" and the severity
    "hard". *)
Theorem find_shape_differences_frame (template company : Workbook)
    (template_wss company_wss : list Worksheet) (drawn : nat) :
  sheets template = AWorksheet <$> template_wss ->
  sheets company = AWorksheet <$> company_wss ->
  (forall name,
      name ∈ sheetnames template -> name ∈ sheetnames company -> name <> "") ->
  exists events,
    find_shape_differences (PWorkbook template) (PWorkbook company) drawn
    = (inr events, (drawn + length events)%nat)
    /\ Event_Id <$> events = seq drawn (length events)
    /\ Forall (event_of (common_sheetnames template company)
                 "Structure Discrepancy" "hard") events.
Proof.
  intros Htemplate Hcompany Hnames.
  destruct (for_each_produces id
              (fun sheetname =>
                 let context :=
                   PStructureDiscrepancyContext (PStr "?") (PStr sheetname)
                     (PStr "Structure Discrepancy") (PStr "hard") in
                 let header_row_number :=
                   if startswith sheetname "fOut_" then 2 else 0 in
                 sheet1 ← lift (getitem template sheetname);
                 sheet2 ← lift (getitem company sheetname);
                 discrepancies ←
                   lift (check_sheet_structure sheet1 sheet2 header_row_number);
                 create_dataframe_structure_discrepancies
                   (result_dict discrepancies) context)
              (event_of (common_sheetnames template company)
                 "Structure Discrepancy" "hard")
              (fun name =>
                 match getitem template name, getitem company name with
                 | inr (PWorksheet sheet1), inr (PWorksheet sheet2) =>
                     length (errors (sheet_structure sheet1 sheet2
                                       (if startswith name "fOut_" then 2 else 0)))
                 | _, _ => 0%nat
                 end)
              (common_sheetnames template company)) with (n := drawn)
    as (frames & Hrun & Hcount & Hlength & Hids & HP).
  { intros name Hname. pose proof Hname as Hcommon.
    apply elem_of_common_sheetnames in Hcommon. destruct Hcommon as [Ht Hc].
    destruct (getitem_worksheet template template_wss name Htemplate Ht)
      as (sheet1 & Hget1 & _).
    destruct (getitem_worksheet company company_wss name Hcompany Hc)
      as (sheet2 & Hget2 & _).
    cbn [id]. rewrite Hget1, Hget2. intros n.
    destruct (structure_of_sheets (common_sheetnames template company)
                sheet1 sheet2 (if startswith name "fOut_" then 2 else 0)
                name Hname (Hnames name Ht Hc) n)
      as (rows & Hrows & Hrest).
    exists rows. split; [| exact Hrest]. cbv zeta.
    rewrite bind_run. unfold lift at 1. rewrite bind_run. unfold lift at 1.
    rewrite bind_run. unfold lift. cbn [check_sheet_structure]. exact Hrows. }
  rewrite list_fmap_id in Hrun. cbv zeta in Hrun.
  exists (concat frames). unfold find_shape_differences.
  rewrite bind_run, Hrun, Hlength.
  destruct frames as [| frame frames];
    (split; [reflexivity | split; [exact Hids | exact HP]]).
Qed.

Lemma find_shape_differences_frame_witness :
  exists events,
    find_shape_differences (PWorkbook template_book) (PWorkbook company_book)
      0%nat
    = (inr events, (0 + length events)%nat)
    /\ Event_Id <$> events = seq 0 (length events).
Proof.
  destruct (find_shape_differences_frame template_book company_book
              template_sheets company_sheets 0%nat)
    as (events & Hrun & Hids & _).
  - reflexivity.
  - reflexivity.
  - intros name Hin _ ->. cbn in Hin.
    repeat (apply elem_of_cons in Hin; destruct Hin as [Hin | Hin];
      [discriminate |]).
    by apply not_elem_of_nil in Hin.
  - exists events. split; [exact Hrun | exact Hids].
Defined.

(** When the sheets of both workbooks are all worksheets, those of the
    template without a column beyond 18278, and no common sheet is named by
    the empty string, [find_formula_differences] returns a frame exactly
    when the two workbooks have a sheet name in common, and raises the
    ValueError of [pd.concat] otherwise; the rows of the frame carry
    distinct, consecutive identifiers, the name of a common sheet, the rule
    "?", the category "Formula Difference" and the severity "hard". *)
Theorem find_formula_differences_frame
    (template company : Workbook)
    (template_wss company_wss : list Worksheet) (drawn : nat) :
  sheets template = AWorksheet <$> template_wss ->
  sheets company = AWorksheet <$> company_wss ->
  Forall (fun ws => max_column ws <= 18278) template_wss ->
  (forall name,
      name ∈ sheetnames template -> name ∈ sheetnames company -> name <> "") ->
  ((forall name, name ∈ sheetnames template -> name ∉ sheetnames company) ->
   find_formula_differences (PWorkbook template) (PWorkbook company) drawn
   = (inl (ValueError "No objects to concatenate"), drawn))
  /\ ((exists name, name ∈ sheetnames template /\ name ∈ sheetnames company) ->
      exists events,
        find_formula_differences (PWorkbook template) (PWorkbook company) drawn
        = (inr events, (drawn + length events)%nat)
        /\ Event_Id <$> events = seq drawn (length events)
        /\ Forall (event_of (common_sheetnames template company)
                     "Formula Difference" "hard") events).
Proof.
  intros Htemplate Hcompany Hbound Hnames. split.
  - intros Hdisjoint. by apply orchestrators_without_common_sheets.
  - intros (shared & Ht & Hc).
    destruct (for_each_produces id
                (fun sheetcd =>
                   let context :=
                     PFormulaDifferencesContext (PStr "?") (PStr sheetcd)
                       (PStr "Formula Difference") (PStr "hard") in
                   sheet1 ← lift (getitem template sheetcd);
                   sheet2 ← lift (getitem company sheetcd);
                   a ← lift (compare_formulas sheet1 sheet2);
                   create_dataframe_formula_differences (result_dict a) context)
                (event_of (common_sheetnames template company)
                   "Formula Difference" "hard")
                (fun name =>
                   match getitem template name, getitem company name with
                   | inr (PWorksheet sheet1), inr (PWorksheet sheet2) =>
                       match formulas_compared sheet1 sheet2 with
                       | inr r => length (errors r)
                       | inl _ => 0%nat
                       end
                   | _, _ => 0%nat
                   end)
                (common_sheetnames template company)) with (n := drawn)
      as (frames & Hrun & Hcount & Hlength & Hids & HP).
    { intros name Hname. pose proof Hname as Hcommon.
      apply elem_of_common_sheetnames in Hcommon. destruct Hcommon as [Ht' Hc'].
      destruct (getitem_worksheet template template_wss name Htemplate Ht')
        as (sheet1 & Hget1 & _ & Hin1).
      destruct (getitem_worksheet company company_wss name Hcompany Hc')
        as (sheet2 & Hget2 & _).
      destruct (formulas_compared_within_bound sheet1 sheet2) as [r Hr].
      { by apply (proj1 (Forall_forall _ _) Hbound). }
      cbn [id]. rewrite Hget1, Hget2, Hr. intros n.
      destruct (formula_differences_of_result
                  (common_sheetnames template company)
                  r name Hname (Hnames name Ht' Hc') n)
        as (rows & Hrows & Hrest).
      exists rows. split; [| exact Hrest]. cbv zeta.
      rewrite bind_run. unfold lift at 1. rewrite bind_run. unfold lift at 1.
      rewrite bind_run. unfold lift. cbn [compare_formulas]. rewrite Hr.
      exact Hrows. }
    rewrite list_fmap_id in Hrun. cbv zeta in Hrun.
    exists (concat frames). unfold find_formula_differences.
    rewrite bind_run, Hrun. unfold lift.
    rewrite pd_concat_frames.
    + rewrite Hlength. split; [reflexivity | split; [exact Hids | exact HP]].
    + intros ->. cbn [length] in Hcount.
      assert (Hshared : shared ∈ common_sheetnames template company)
        by (by apply elem_of_common_sheetnames).
      destruct (common_sheetnames template company); [| discriminate].
      by apply not_elem_of_nil in Hshared.
Qed.

Lemma find_formula_differences_frame_witness :
  exists events,
    find_formula_differences (PWorkbook template_book) (PWorkbook company_book)
      0%nat
    = (inr events, (0 + length events)%nat)
    /\ Event_Id <$> events = seq 0 (length events).
Proof.
  destruct (find_formula_differences_frame template_book company_book
              template_sheets company_sheets 0%nat)
    as [_ Hshared].
  - reflexivity.
  - reflexivity.
  - repeat constructor; simpl; lia.
  - intros name Hin _ ->. cbn in Hin.
    repeat (apply elem_of_cons in Hin; destruct Hin as [Hin | Hin];
      [discriminate |]).
    by apply not_elem_of_nil in Hin.
  - destruct Hshared as (events & Hrun & Hids & _).
    + exists "fOut_A". split; apply list_elem_of_here.
    + exists events. split; [exact Hrun | exact Hids].
Defined.

(** * What the column bound and the sheet kinds exclude *)

(** ** A cell reference beyond the last column name *)

Lemma for_fold_raises {A S : Type} (body : S -> A -> exn + S) (err : A -> exn)
    (raising : A -> Prop) `{!forall a, Decision (raising a)}
    (items : list A) (s : S) :
  (forall a acc, a ∈ items -> raising a -> body acc a = inl (err a)) ->
  (forall a acc, a ∈ items -> ~ raising a -> exists acc', body acc a = inr acc') ->
  (exists a, a ∈ items /\ raising a) ->
  exists a, a ∈ items /\ raising a /\ for_fold body s items = inl (err a).
Proof.
  revert s. induction items as [| a items IH]; intros s Hraise Hreturn Hsome.
  - destruct Hsome as (a & Hin & _). by apply not_elem_of_nil in Hin.
  - cbn [for_fold]. destruct (decide (raising a)) as [Ha | Ha].
    + exists a. split; [apply list_elem_of_here |]. split; [exact Ha |].
      by rewrite Hraise by (apply list_elem_of_here || exact Ha).
    + destruct (Hreturn a s (list_elem_of_here _ _) Ha) as [acc' Hstep].
      rewrite Hstep. cbn.
      destruct (IH acc') as (b & Hb & Hrb & Hrun).
      * intros b acc Hb. apply Hraise. by apply list_elem_of_further.
      * intros b acc Hb. apply Hreturn. by apply list_elem_of_further.
      * destruct Hsome as (b & Hb & Hrb). exists b. split; [| exact Hrb].
        apply elem_of_cons in Hb. destruct Hb as [-> | Hb]; [done | exact Hb].
      * exists b. split; [by apply list_elem_of_further |]. by split.
Qed.

Lemma scan_cell_raises (sheet : Worksheet) (p : Z * Z)
    (d : pydict (list string)) :
  is_Some (error_text sheet p) -> ~ 1 <= p.2 <= 18278 ->
  scan_cell sheet p.1 p.2 d
  = inl (ValueError ("Invalid column index " +:+ str_int p.2)).
Proof.
  intros [text Htext] Hcol. unfold scan_cell. unfold error_text in Htext.
  revert Htext. case_bool_decide; [| discriminate].
  destruct (value (cell sheet p.1 p.2)); try discriminate. intros _.
  by rewrite cell_name_raises.
Qed.

Lemma scan_cell_skips (sheet : Worksheet) (p : Z * Z)
    (d : pydict (list string)) :
  error_text sheet p = None -> scan_cell sheet p.1 p.2 d = inr d.
Proof.
  unfold scan_cell, error_text. case_bool_decide; [| reflexivity].
  by destruct (value (cell sheet p.1 p.2)).
Qed.

Lemma compare_cell_raises (sheet1 sheet2 : Worksheet) (p : Z * Z)
    (d : pydict (list string)) :
  is_Some (difference_key sheet1 sheet2 p) -> ~ 1 <= p.2 <= 18278 ->
  compare_cell sheet1 sheet2 p.1 p.2 d
  = inl (ValueError ("Invalid column index " +:+ str_int p.2)).
Proof.
  intros [key Hkey] Hcol. unfold compare_cell. unfold difference_key in Hkey.
  revert Hkey. cbv zeta.
  destruct (is_formula (value (cell sheet1 p.1 p.2)));
    destruct (is_formula (value (cell sheet2 p.1 p.2)));
    destruct (scalar_eq (value (cell sheet1 p.1 p.2))
                        (value (cell sheet2 p.1 p.2)));
    cbn [andb negb]; try discriminate.
  intros _. by rewrite cell_name_raises.
Qed.

Lemma compare_cell_skips (sheet1 sheet2 : Worksheet) (p : Z * Z)
    (d : pydict (list string)) :
  difference_key sheet1 sheet2 p = None ->
  compare_cell sheet1 sheet2 p.1 p.2 d = inr d.
Proof.
  unfold compare_cell, difference_key. cbv zeta.
  destruct (is_formula (value (cell sheet1 p.1 p.2)));
    destruct (is_formula (value (cell sheet2 p.1 p.2)));
    destruct (scalar_eq (value (cell sheet1 p.1 p.2))
                        (value (cell sheet2 p.1 p.2)));
    cbn [andb negb]; (reflexivity || discriminate).
Qed.

(** An error cell in a column beyond 18278, the last one that has a name,
    stops the scanner: it raises the ValueError of [get_column_letter] for
    the column of such a cell and returns no result. *)
Theorem check_formula_errors_beyond_last_column (sheet : Worksheet) :
  (exists row col text,
      1 <= row <= max_row sheet /\ 18278 < col <= max_column sheet
      /\ data_type (cell sheet row col) = "e"
      /\ value (cell sheet row col) = SStr text) ->
  exists col,
    18278 < col <= max_column sheet
    /\ check_formula_errors (PWorksheet sheet)
       = inl (ValueError ("Invalid column index " +:+ str_int col)).
Proof.
  intros (row & col & text & Hrow & Hcol & He & Hv).
  cbn [check_formula_errors]. unfold formula_errors.
  rewrite (for_fold_nested (scan_cell sheet)).
  fold (cell_positions (max_row sheet) (max_column sheet)).
  destruct (for_fold_raises
              (fun acc p => scan_cell sheet p.1 p.2 acc)
              (fun p => ValueError ("Invalid column index " +:+ str_int p.2))
              (fun p => is_Some (error_text sheet p) /\ 18278 < p.2)
              (cell_positions (max_row sheet) (max_column sheet)) [])
    as (p & Hin & [_ Hbeyond] & Hrun).
  - intros p acc _ [Hsome Hbeyond]. apply scan_cell_raises; [exact Hsome | lia].
  - intros p acc Hin Hnot.
    destruct (error_text sheet p) as [key |] eqn:Hkey.
    + exists (loop_step (error_text sheet) cell_reference acc p).
      apply scan_cell_returns. apply cell_positions_columns in Hin.
      split; [lia |]. destruct (decide (p.2 <= 18278)) as [| Hgt]; [done |].
      exfalso. apply Hnot. split; [by eexists | lia].
    + exists acc. by apply scan_cell_skips.
  - exists (row, col). split; [apply elem_of_cell_positions; lia |].
    split; [| cbn; lia]. exists text. by apply error_text_Some.
  - exists p.2. apply cell_positions_columns in Hin.
    split; [lia |]. by rewrite Hrun.
Qed.

Lemma check_formula_errors_beyond_last_column_witness :
  exists col,
    18278 < col <= max_column wide_error_sheet
    /\ check_formula_errors (PWorksheet wide_error_sheet)
       = inl (ValueError ("Invalid column index " +:+ str_int col)).
Proof.
  apply (check_formula_errors_beyond_last_column wide_error_sheet).
  exists 1, 18279, "#REF!". repeat split; try (simpl; lia).
Defined.

(** Two sheets of equal nominal extents with differing formulas in a column
    beyond 18278 stop the comparator: it raises the ValueError of
    [get_column_letter] for the column of such a cell and returns no
    result. *)
Theorem compare_formulas_beyond_last_column (sheet1 sheet2 : Worksheet) :
  max_row sheet1 = max_row sheet2 -> max_column sheet1 = max_column sheet2 ->
  (exists row col,
      1 <= row <= max_row sheet1 /\ 18278 < col <= max_column sheet1
      /\ formulas_differ sheet1 sheet2 row col) ->
  exists col,
    18278 < col <= max_column sheet1
    /\ compare_formulas (PWorksheet sheet1) (PWorksheet sheet2)
       = inl (ValueError ("Invalid column index " +:+ str_int col)).
Proof.
  intros Hrows Hcols (row & col & Hrow & Hcol & Hdiffer).
  cbn [compare_formulas]. unfold formulas_compared.
  rewrite !bool_decide_eq_true_2 by assumption. cbn [andb negb].
  rewrite (for_fold_nested (compare_cell sheet1 sheet2)).
  fold (cell_positions (max_row sheet1) (max_column sheet1)).
  destruct (for_fold_raises
              (fun acc p => compare_cell sheet1 sheet2 p.1 p.2 acc)
              (fun p => ValueError ("Invalid column index " +:+ str_int p.2))
              (fun p => is_Some (difference_key sheet1 sheet2 p) /\ 18278 < p.2)
              (cell_positions (max_row sheet1) (max_column sheet1)) [])
    as (p & Hin & [_ Hbeyond] & Hrun).
  - intros p acc _ [Hsome Hbeyond].
    apply compare_cell_raises; [exact Hsome | lia].
  - intros p acc Hin Hnot.
    destruct (difference_key sheet1 sheet2 p) as [key |] eqn:Hkey.
    + exists (loop_step (difference_key sheet1 sheet2)
                (difference_message sheet1 sheet2) acc p).
      apply compare_cell_returns. apply cell_positions_columns in Hin.
      split; [lia |]. destruct (decide (p.2 <= 18278)) as [| Hgt]; [done |].
      exfalso. apply Hnot. split; [by eexists | lia].
    + exists acc. by apply compare_cell_skips.
  - exists (row, col). split; [apply elem_of_cell_positions; lia |].
    split; [| cbn; lia]. exists (cell_reference (row, col)).
    by apply difference_key_Some.
  - exists p.2. apply cell_positions_columns in Hin.
    split; [lia |]. by rewrite Hrun.
Qed.

Lemma compare_formulas_beyond_last_column_witness :
  exists col,
    18278 < col <= max_column wide_template_sheet
    /\ compare_formulas (PWorksheet wide_template_sheet)
         (PWorksheet wide_company_sheet)
       = inl (ValueError ("Invalid column index " +:+ str_int col)).
Proof.
  apply (compare_formulas_beyond_last_column
           wide_template_sheet wide_company_sheet);
    [reflexivity | reflexivity |].
  exists 1, 18279. repeat split; try (simpl; lia).
  exists "=A1+1", "=A1+2". repeat split; try reflexivity. discriminate.
Defined.

(** ** A sheet that is no worksheet *)

Lemma for_each_raises_somewhere {A B : Type} (body : A -> M B)
    (items : list A) :
  (exists a, a ∈ items /\ forall n, exists e n', body a n = (inl e, n')) ->
  forall n, exists e n', for_each body items n = (inl e, n').
Proof.
  induction items as [| a items IH]; intros (b & Hb & Hraises) n.
  - by apply not_elem_of_nil in Hb.
  - cbn [for_each]. rewrite bind_run.
    destruct (body a n) as [[e | result] n'] eqn:Hstep; [by exists e, n' |].
    apply elem_of_cons in Hb. destruct Hb as [-> | Hb].
    + destruct (Hraises n) as (e & n'' & Hraise). congruence.
    + destruct (IH (ex_intro _ b (conj Hb Hraises)) n') as (e & n'' & Hrun).
      rewrite bind_run, Hrun. by exists e, n''.
Qed.

Lemma find_unique {A : Type} (p : A -> bool) (l : list A) (x : A) :
  x ∈ l -> p x = true -> (forall y, y ∈ l -> p y = true -> y = x) ->
  find p l = Some x.
Proof.
  induction l as [| a l IH]; intros Hin Hp Hunique.
  - by apply not_elem_of_nil in Hin.
  - cbn [find]. destruct (p a) eqn:Hpa.
    + f_equal. apply Hunique; [apply list_elem_of_here | exact Hpa].
    + apply IH; [| exact Hp |].
      * apply elem_of_cons in Hin. destruct Hin as [-> | Hin]; [congruence | done].
      * intros y Hy. apply Hunique. by apply list_elem_of_further.
Qed.

Lemma NoDup_fmap_eq {A B : Type} (f : A -> B) (l : list A) (x y : A) :
  NoDup (f <$> l) -> x ∈ l -> y ∈ l -> f x = f y -> x = y.
Proof.
  induction l as [| a l IH]; intros Hnodup Hx Hy Heq.
  - by apply not_elem_of_nil in Hx.
  - cbn [fmap list_fmap] in Hnodup. apply NoDup_cons in Hnodup.
    destruct Hnodup as [Hfresh Hnodup].
    apply elem_of_cons in Hx, Hy.
    destruct Hx as [-> | Hx], Hy as [-> | Hy]; [reflexivity | | | by apply IH].
    + exfalso. apply Hfresh. rewrite Heq. apply list_elem_of_fmap. by exists y.
    + exfalso. apply Hfresh. rewrite <- Heq. apply list_elem_of_fmap. by exists x.
Qed.

Lemma getitem_sheet (wb : Workbook) (sheet : Sheet) :
  NoDup (sheetnames wb) -> sheet ∈ sheets wb ->
  getitem wb (sheet_title sheet) = inr (sheet_object sheet).
Proof.
  intros Hnodup Hin. unfold getitem.
  rewrite (find_unique _ _ sheet); [reflexivity | | |].
  - apply elem_of_app. unfold worksheets, chartsheets.
    rewrite !list_elem_of_filter. destruct (is_chartsheet sheet); tauto.
  - by apply bool_decide_eq_true_2.
  - intros other Hother Htitle. apply bool_decide_eq_true_1 in Htitle.
    apply (NoDup_fmap_eq sheet_title (sheets wb));
      [exact Hnodup | | exact Hin | exact Htitle].
    apply elem_of_app in Hother. unfold worksheets, chartsheets in Hother.
    rewrite !list_elem_of_filter in Hother. tauto.
Qed.

(** A workbook with distinct sheet names that holds a chart sheet or a
    read-only worksheet cannot be scanned: [find_formula_errors] raises and
    returns no frame. *)
Theorem find_formula_errors_other_sheet (book : Workbook) (sheet : Sheet)
    (drawn : nat) :
  NoDup (sheetnames book) ->
  sheet ∈ sheets book ->
  (forall ws, sheet <> AWorksheet ws) ->
  exists e drawn',
    find_formula_errors (PWorkbook book) drawn = (inl e, drawn').
Proof.
  intros Hnodup Hin Hother. unfold find_formula_errors. rewrite bind_run.
  destruct (for_each_raises_somewhere
              (fun sheetname =>
                 sheet ← lift (getitem book sheetname);
                 formula_errors ← lift (check_formula_errors sheet);
                 create_dataframe_formula_errors (result_dict formula_errors)
                   (PFormulaErrorSheetContext (PStr "?") (PStr sheetname)
                      (PStr "Formula Error") (PStr "hard")))
              (sheetnames book)) with (n := drawn) as (e & n' & Hrun).
  - exists (sheet_title sheet). split.
    + apply list_elem_of_fmap. by exists sheet.
    + intros n. rewrite bind_run. unfold lift at 1.
      rewrite getitem_sheet by assumption. rewrite bind_run. unfold lift.
      destruct sheet as [ws | ws | name]; [by destruct (Hother ws) | |];
        by eexists _, _.
  - cbv zeta. rewrite Hrun. by exists e, n'.
Qed.

Lemma find_formula_errors_other_sheet_witness :
  exists e drawn',
    find_formula_errors (PWorkbook charted_book) 0%nat = (inl e, drawn').
Proof.
  apply (find_formula_errors_other_sheet charted_book (AChartsheet "Chart")).
  - cbn. repeat constructor; intros Hin;
      repeat (apply elem_of_cons in Hin; destruct Hin as [Hin | Hin];
        [discriminate |]);
      by apply not_elem_of_nil in Hin.
  - cbn. apply list_elem_of_further, list_elem_of_here.
  - discriminate.
Defined.

(** A sheet name the two workbooks share stops both comparing orchestrators
    when, in the template, it names a chart sheet or a read-only worksheet:
    [find_shape_differences] and [find_formula_differences] raise and return
    no frame. The sheet names of the template are taken to be distinct. *)
Theorem comparing_orchestrators_other_sheet (template company : Workbook)
    (sheet : Sheet) (drawn : nat) :
  NoDup (sheetnames template) ->
  sheet ∈ sheets template ->
  (forall ws, sheet <> AWorksheet ws) ->
  sheet_title sheet ∈ sheetnames company ->
  (exists e drawn',
      find_shape_differences (PWorkbook template) (PWorkbook company) drawn
      = (inl e, drawn'))
  /\ (exists e drawn',
        find_formula_differences (PWorkbook template) (PWorkbook company) drawn
        = (inl e, drawn')).
Proof.
  intros Hnodup Hin Hother Hcompany.
  assert (Hcommon : sheet_title sheet ∈ common_sheetnames template company).
  { apply elem_of_common_sheetnames. split; [| exact Hcompany].
    apply list_elem_of_fmap. by exists sheet. }
  split.
  - unfold find_shape_differences. rewrite bind_run.
    destruct (for_each_raises_somewhere
                (fun sheetname =>
                   sheet1 ← lift (getitem template sheetname);
                   sheet2 ← lift (getitem company sheetname);
                   discrepancies ←
                     lift (check_sheet_structure sheet1 sheet2
                             (if startswith sheetname "fOut_" then 2 else 0));
                   create_dataframe_structure_discrepancies
                     (result_dict discrepancies)
                     (PStructureDiscrepancyContext (PStr "?") (PStr sheetname)
                        (PStr "Structure Discrepancy") (PStr "hard")))
                (common_sheetnames template company)) with (n := drawn)
      as (e & n' & Hrun).
    + exists (sheet_title sheet). split; [exact Hcommon |].
      intros n. rewrite bind_run. unfold lift at 1.
      rewrite getitem_sheet by assumption. rewrite bind_run. unfold lift at 1.
      destruct (getitem company (sheet_title sheet)) as [e | sheet2];
        [by eexists _, _ |].
      rewrite bind_run. unfold lift.
      destruct sheet as [ws | ws | name]; [by destruct (Hother ws) | |];
        by eexists _, _.
    + cbv zeta. rewrite Hrun. by exists e, n'.
  - unfold find_formula_differences. rewrite bind_run.
    destruct (for_each_raises_somewhere
                (fun sheetcd =>
                   sheet1 ← lift (getitem template sheetcd);
                   sheet2 ← lift (getitem company sheetcd);
                   a ← lift (compare_formulas sheet1 sheet2);
                   create_dataframe_formula_differences (result_dict a)
                     (PFormulaDifferencesContext (PStr "?") (PStr sheetcd)
                        (PStr "Formula Difference") (PStr "hard")))
                (common_sheetnames template company)) with (n := drawn)
      as (e & n' & Hrun).
    + exists (sheet_title sheet). split; [exact Hcommon |].
      intros n. rewrite bind_run. unfold lift at 1.
      rewrite getitem_sheet by assumption. rewrite bind_run. unfold lift at 1.
      destruct (getitem company (sheet_title sheet)) as [e | sheet2];
        [by eexists _, _ |].
      rewrite bind_run. unfold lift.
      destruct sheet as [ws | ws | name]; [by destruct (Hother ws) | |];
        by eexists _, _.
    + cbv zeta. rewrite Hrun. by exists e, n'.
Qed.

Lemma comparing_orchestrators_other_sheet_witness :
  (exists e drawn',
      find_shape_differences (PWorkbook read_only_book) (PWorkbook plain_book)
        0%nat
      = (inl e, drawn'))
  /\ (exists e drawn',
        find_formula_differences (PWorkbook read_only_book)
          (PWorkbook plain_book) 0%nat
        = (inl e, drawn')).
Proof.
  apply (comparing_orchestrators_other_sheet read_only_book plain_book
           (AReadOnlyWorksheet (blank_sheet "Data" 2 2))).
  - cbn. repeat constructor. intros Hin. by apply not_elem_of_nil in Hin.
  - cbn. apply list_elem_of_here.
  - discriminate.
  - cbn. apply list_elem_of_here.
Defined.
